(** * Diagnostico de gestores de tarefas: the normalisation and metrics pipeline

    A shallow embedding of [diagnostico_gestor_com_ia.py]: the two schema
    adapters ([padronizar_gclick], [padronizar_onvio]) and their dispatch,
    the keyword classifier ([categorizar_tarefa]), the metrics engine
    ([calcular_metricas]), the client/assignee filter and the summary figures
    the dashboard computes from the filtered frame.

    The program manipulates pandas frames.  A frame is modelled column-major,
    as pandas stores it: a row count (the index) and an ordered list of
    labelled columns.  Exceptions are values of [result].  Timestamps are
    datetime64[ns]: integers counting nanoseconds, so a date may carry a time
    of day.  Library functions whose behaviour is a large table (Unicode
    lowercasing, the date-string parser behind [pd.to_datetime], [str()] of a
    cell that is not text) or differs between the pandas versions the script
    runs on ([astype(str)] of a missing period) are fields of the class
    [Pandas]; everything the program itself does is a definition, and
    [ascii_iso] is an instance of the class on which the definitions run
    (with the [astype(str)] of pandas 2; [ascii_iso_pandas3] has that of
    pandas 3).

    Definitions come first; the facts start at "Facts about frames".  The
    parts from "More on the filter" on follow the script further (what its
    tables hold and in which order, what the engine does on a second run or
    on a file of the wrong tool, the sample it sends for diagnosis) and
    define what they add where it is used. *)

From Stdlib Require Import String Ascii DecimalString ZArith List Bool Arith Lia QArith.
From Stdlib Require Import OrdersEx RelationClasses Sorted Permutation.
Import ListNotations.
Local Open Scope string_scope.

(** ** Cells and series *)

(** The scalar values a column may hold.  Floats other than NaN are not
    modelled: the program only produces integers and NaN. *)
Inductive cell : Type :=
| VStr (s : string)   (* a Python str *)
| VInt (n : Z)        (* an integer *)
| VNaN                (* float NaN, the missing value of the file readers *)
| VTime (t : Z)       (* a Timestamp: nanoseconds since 1970-01-01 *)
| VNaT.               (* the missing datetime *)

Definition Series : Type := list cell.

Lemma cell_eq_dec : forall a b : cell, {a = b} + {a <> b}.
Proof.
  decide equality; try apply string_dec; apply Z.eq_dec.
Defined.

(** Identity of cells as [isin], [unique] and [groupby] see it (a missing
    value matches a missing value). *)
Definition cell_same (a b : cell) : bool :=
  if cell_eq_dec a b then true else false.

(** The elementwise [==] of a series against a string scalar. *)
Definition eq_str (s : string) (c : cell) : bool :=
  match c with
  | VStr s' => String.eqb s' s
  | _ => false
  end.

(** [pd.isna] on a cell. *)
Definition isna (c : cell) : bool :=
  match c with
  | VNaN | VNaT => true
  | _ => false
  end.

(** ** Exceptions

    The exceptions the program can raise on the frames modelled here.
    Dates are kept without a time zone, so the [TypeError] of comparing or
    subtracting a zone-aware and a zone-naive column (lines 62 and 65) has
    no counterpart; [OverflowError] is that of datetime64[ns] arithmetic. *)

Inductive error : Type :=
| KeyError (label : string)       (* df[label] with no such column *)
| NotASeries (label : string)     (* df[label] selects several columns; the
                                     call made on the selection raises *)
| OverflowError                   (* int64 overflow in datetime subtraction *)
| Stopped (msg : string).         (* st.error followed by st.stop() *)

Inductive result (A : Type) : Type :=
| Ok (a : A)
| Raise (e : error).
Arguments Ok {A} a.
Arguments Raise {A} e.

Definition bind {A B : Type} (r : result A) (k : A -> result B) : result B :=
  match r with
  | Ok a => k a
  | Raise e => Raise e
  end.

Notation "x <- r ;; k" := (bind r (fun x => k))
  (at level 61, r at next level, right associativity).

(** ** Frames *)

Record DataFrame : Type := mkFrame {
  nrows : nat;                          (* len(df.index), df.shape[0] *)
  columns : list (string * Series)      (* labelled columns, in order *)
}.

Definition labels (df : DataFrame) : list string := map fst (columns df).

(** Every column is as long as the index. *)
Definition rectangular (df : DataFrame) : Prop :=
  Forall (fun p => length (snd p) = nrows df) (columns df).

Definition named (c : string) (p : string * Series) : bool := String.eqb (fst p) c.

(** [df[c]]: the column labelled [c].  A missing label raises [KeyError];
    a label carried by several columns selects a frame, on which the calls
    the program makes next ([pd.to_datetime], aligned assignment of
    [apply]'s result, [.unique()]) raise. *)
Definition getitem (df : DataFrame) (c : string) : result Series :=
  match filter (named c) (columns df) with
  | [] => Raise (KeyError c)
  | [p] => Ok (snd p)
  | _ => Raise (NotASeries c)
  end.

(** The first column labelled [c], if any: the observation used to state
    properties of a frame. *)
Definition column (df : DataFrame) (c : string) : option Series :=
  option_map snd (find (named c) (columns df)).

Definition cell_at (df : DataFrame) (c : string) (i : nat) : option cell :=
  match column df c with
  | Some s => nth_error s i
  | None => None
  end.

Definition has_label (df : DataFrame) (c : string) : bool :=
  existsb (named c) (columns df).

(** [df[c] = s]: overwrite the column(s) labelled [c], or append a new one. *)
Definition setitem (df : DataFrame) (c : string) (s : Series) : DataFrame :=
  if has_label df c
  then mkFrame (nrows df)
         (map (fun p => if named c p then (fst p, s) else p) (columns df))
  else mkFrame (nrows df) (columns df ++ [(c, s)]).

(** [df[c] = v] with a scalar: broadcast along the index. *)
Definition setitem_scalar (df : DataFrame) (c : string) (v : cell) : DataFrame :=
  setitem df c (repeat v (nrows df)).

(** [s[mask] = v] on one series. *)
Fixpoint where_set (mask : list bool) (v : cell) (s : Series) : Series :=
  match s, mask with
  | x :: s', b :: mask' => (if b then v else x) :: where_set mask' v s'
  | _, _ => s
  end.

(** [df.loc[mask, c] = v] for a label the frame has. *)
Definition loc_set (df : DataFrame) (mask : list bool) (c : string) (v : cell)
  : DataFrame :=
  mkFrame (nrows df)
    (map (fun p => if named c p then (fst p, where_set mask v (snd p)) else p)
         (columns df)).

(** The items of [s] at the positions where [mask] is true. *)
Fixpoint select {A : Type} (mask : list bool) (s : list A) : list A :=
  match mask, s with
  | b :: mask', x :: s' => if b then x :: select mask' s' else select mask' s'
  | _, _ => []
  end.

(** [df[mask]]: the rows where the boolean series is true. *)
Definition select_rows (df : DataFrame) (mask : list bool) : DataFrame :=
  mkFrame (length (filter (fun b => b) mask))
    (map (fun p => (fst p, select mask (snd p))) (columns df)).

(** [df.rename(columns=mapper)]: labels found in the mapper are replaced,
    the others are kept (pandas ignores mapper keys the frame lacks). *)
Fixpoint rename_label (mapper : list (string * string)) (l : string) : string :=
  match mapper with
  | [] => l
  | (src, dst) :: rest => if String.eqb src l then dst else rename_label rest l
  end.

Definition rename (mapper : list (string * string)) (df : DataFrame) : DataFrame :=
  mkFrame (nrows df)
    (map (fun p => (rename_label mapper (fst p), snd p)) (columns df)).

(** ** Schema adapters (lines 15-39) *)

Definition gclick_columns : list (string * string) :=
  [ ("Task ID", "id_tarefa");
    ("Task Name", "nome_tarefa");
    ("Client Name", "cliente");
    ("Assignee", "responsavel");
    ("Due Date", "data_prevista_conclusao");
    ("Completion Date", "data_real_conclusao") ].

Definition onvio_columns : list (string * string) :=
  [ ("ProcessoID", "id_tarefa");
    ("Descricao", "nome_tarefa");
    ("NomeCliente", "cliente");
    ("Executor", "responsavel");
    ("PrazoFatal", "data_prevista_conclusao");
    ("DataFinalizacao", "data_real_conclusao") ].

Definition padronizar_gclick (df : DataFrame) : DataFrame :=
  let df_padronizado := rename gclick_columns df in
  setitem_scalar df_padronizado "origem_ferramenta" (VStr "G-Click").

Definition padronizar_onvio (df : DataFrame) : DataFrame :=
  let df_padronizado := rename onvio_columns df in
  setitem_scalar df_padronizado "origem_ferramenta" (VStr "Onvio").

(** The dispatch on the selected tool (lines 96-102). *)
Definition adapt (ferramenta_selecionada : string) (df_bruto : DataFrame)
  : result DataFrame :=
  if String.eqb ferramenta_selecionada "G-Click" then Ok (padronizar_gclick df_bruto)
  else if String.eqb ferramenta_selecionada "Onvio Processos"
       then Ok (padronizar_onvio df_bruto)
       else Raise (Stopped "Função de padronização não implementada.").

(** ** Library environment

    What the program takes from Python and pandas and this development does
    not define: [str()] of a non-string cell, [str.lower] (Unicode case
    tables) and [pd.to_datetime(..., errors='coerce')] (the date parser,
    which works on a whole column: pandas infers one format per column)
    and [astype(str)] of a missing period, which pandas 2 and pandas 3 do
    differently.  Only the facts the program relies on are recorded.  A
    parsed date is [Some t], a datetime64[ns] value in nanoseconds; NaT is
    [None].  The nanosecond unit, with its range of years 1677 to 2262
    and the overflow check of a subtraction, is what pandas 2 stores;
    pandas 3 may keep parsed text at a coarser unit with a wider range, so
    a frame on which the engine raises [OverflowError] here may be
    processed there.  Dates are taken without a time zone. *)

Definition ts_max : Z := 2 ^ 63 - 1.       (* pd.Timestamp.max.value *)
Definition ts_min : Z := - (2 ^ 63 - 1).   (* pd.Timestamp.min.value *)

Definition in_bounds (d : option Z) : Prop :=
  match d with
  | Some t => (ts_min <= t <= ts_max)%Z
  | None => True
  end.

(** A datetime64 value as a cell of the frame. *)
Definition dt_cell (d : option Z) : cell :=
  match d with
  | Some t => VTime t
  | None => VNaT
  end.

Class Pandas : Type := {
  py_str : cell -> string;
  py_str_str : forall s, py_str (VStr s) = s;
  str_lower : string -> string;
  to_datetime : Series -> list (option Z);
  to_datetime_length : forall s, length (to_datetime s) = length s;
  to_datetime_bounds : forall s, Forall in_bounds (to_datetime s);
  (* a missing value (NaN, NaT) becomes NaT *)
  to_datetime_missing :
    forall s i c, nth_error s i = Some c -> isna c = true ->
      nth_error (to_datetime s) i = Some None;
  (* a column that already holds datetimes is returned as it is *)
  to_datetime_parsed :
    forall l, Forall in_bounds l -> to_datetime (map dt_cell l) = l;
  (* [astype(str)] of a missing period: the text NaT up to pandas 2; from
     pandas 3 on the text dtype keeps the value missing *)
  astype_str_na : cell;
  astype_str_na_cases : astype_str_na = VStr "NaT" \/ astype_str_na = VNaN
}.

(** ** Task classifier (lines 41-54)

    A Python str is modelled as its UTF-8 bytes; [kw in text] on code points
    and on UTF-8 bytes agree, UTF-8 being self-synchronising. *)

Fixpoint contains (kw text : string) : bool :=
  if String.prefix kw text then true
  else match text with
       | EmptyString => false
       | String _ rest => contains kw rest
       end.

(** [any(keyword in text for keyword in keywords)] *)
Definition any_in (keywords : list string) (text : string) : bool :=
  existsb (fun keyword => contains keyword text) keywords.

Definition fiscal_keywords : list string :=
  ["dctf"; "sped"; "fiscal"; "imposto"; "das"].
Definition contabil_keywords : list string :=
  ["balancete"; "contábil"; "conciliação"].
Definition pessoal_keywords : list string :=
  ["folha"; "admissão"; "rescisão"; "esocial"].

Definition categorizar_tarefa `{Pandas} (nome_tarefa : cell) : string :=
  let nome_tarefa := str_lower (py_str nome_tarefa) in
  if any_in fiscal_keywords nome_tarefa then "Fiscal"
  else if any_in contabil_keywords nome_tarefa then "Contábil"
  else if any_in pessoal_keywords nome_tarefa then "Depto. Pessoal"
  else "Outros".

Definition categorias : list string :=
  ["Fiscal"; "Contábil"; "Depto. Pessoal"; "Outros"].

(** ** Calendar: the month of a timestamp *)

Definition ns_per_day : Z := 86400 * 10 ^ 9.

(** Proleptic Gregorian (year, month, day) of a day count from 1970-01-01. *)
Definition civil_from_days (z : Z) : Z * Z * Z :=
  let z := (z + 719468)%Z in
  let era := (z / 146097)%Z in
  let doe := (z - era * 146097)%Z in
  let yoe := ((doe - doe / 1460 + doe / 36524 - doe / 146096) / 365)%Z in
  let doy := (doe - (365 * yoe + yoe / 4 - yoe / 100))%Z in
  let mp := ((5 * doy + 2) / 153)%Z in
  let d := (doy - (153 * mp + 2) / 5 + 1)%Z in
  let m := (if mp <? 10 then mp + 3 else mp - 9)%Z in
  let y := (yoe + era * 400 + (if m <=? 2 then 1 else 0))%Z in
  (y, m, d).

(** The day count of a proleptic Gregorian date (the inverse direction). *)
Definition days_from_civil (y m d : Z) : Z :=
  let y := (if m <=? 2 then y - 1 else y)%Z in
  let era := (y / 400)%Z in
  let yoe := (y - era * 400)%Z in
  let mp := (if 2 <? m then m - 3 else m + 9)%Z in
  let doy := ((153 * mp + 2) / 5 + d - 1)%Z in
  let doe := (yoe * 365 + yoe / 4 - yoe / 100 + doy)%Z in
  (era * 146097 + doe - 719468)%Z.

Definition digit (z : Z) : ascii := ascii_of_nat (48 + Z.to_nat (z mod 10)).

(** The last [width] decimal digits of [z], zero padded ([%04d], [%02d]). *)
Fixpoint zero_padded (width : nat) (z : Z) : string :=
  match width with
  | O => EmptyString
  | S w => zero_padded w (z / 10) ++ String (digit z) EmptyString
  end.

(** [str(Timestamp(t).to_period('M'))]: the key [YYYY-MM]. *)
Definition period_str (t : Z) : string :=
  let '(y, m, _) := civil_from_days (t / ns_per_day) in
  zero_padded 4 y ++ "-" ++ zero_padded 2 m.

(** ** Metrics engine (lines 56-72) *)

Fixpoint map2 {A B C : Type} (f : A -> B -> C) (l1 : list A) (l2 : list B)
  : list C :=
  match l1, l2 with
  | a :: l1', b :: l2' => f a b :: map2 f l1' l2'
  | _, _ => []
  end.

(** Elementwise [>] of two datetime series: false where either side is NaT. *)
Definition dt_gt (a b : option Z) : bool :=
  match a, b with
  | Some x, Some y => (y <? x)%Z
  | _, _ => false
  end.

Definition dt_isna (a : option Z) : bool :=
  match a with
  | Some _ => false
  | None => true
  end.

(** A difference fits timedelta64[ns] (int64, its minimum being NaT). *)
Definition td_ok (d : Z) : bool := ((ts_min <=? d) && (d <=? ts_max))%Z.

(** Elementwise [-] of two datetime series: NaT where either side is NaT;
    pandas adds with an overflow check and raises [OverflowError]. *)
Definition dt_sub (a b : option Z) : result (option Z) :=
  match a, b with
  | Some x, Some y =>
      if td_ok (x - y) then Ok (Some (x - y)%Z) else Raise OverflowError
  | _, _ => Ok None
  end.

Fixpoint sub_series (l1 l2 : list (option Z)) : result (list (option Z)) :=
  match l1, l2 with
  | a :: l1', b :: l2' =>
      d <- dt_sub a b ;;
      ds <- sub_series l1' l2' ;;
      Ok (d :: ds)
  | _, _ => Ok []
  end.

(** [.dt.days]: the whole days of a timedelta (floor), NaN for NaT. *)
Definition td_days (d : option Z) : cell :=
  match d with
  | Some d => VInt (d / ns_per_day)
  | None => VNaN
  end.

(** Elementwise [< 0] and [> 0] on a numeric series: false on NaN. *)
Definition lt0 (c : cell) : bool :=
  match c with
  | VInt n => (n <? 0)%Z
  | _ => false
  end.

Definition gt0 (c : cell) : bool :=
  match c with
  | VInt n => (0 <? n)%Z
  | _ => false
  end.

(** [.dt.to_period('M').astype(str)] on one value: the key of the month,
    and for a missing date what [astype(str)] makes of a missing period in
    the installed pandas. *)
Definition mes_str `{Pandas} (d : option Z) : cell :=
  match d with
  | Some t => VStr (period_str t)
  | None => astype_str_na
  end.

(** The frame is updated in place and returned; the two date columns just
    stored are read back as the local values [prevista] and [real]. *)
Definition calcular_metricas `{Pandas} (df : DataFrame) : result DataFrame :=
  prevista_bruta <- getitem df "data_prevista_conclusao" ;;
  let prevista := to_datetime prevista_bruta in
  let df := setitem df "data_prevista_conclusao" (map dt_cell prevista) in
  real_bruta <- getitem df "data_real_conclusao" ;;
  let real := to_datetime real_bruta in
  let df := setitem df "data_real_conclusao" (map dt_cell real) in
  let df := setitem_scalar df "status_prazo" (VStr "No Prazo") in
  let df := loc_set df (map2 dt_gt real prevista) "status_prazo" (VStr "Em Atraso") in
  let df := loc_set df (map dt_isna real) "status_prazo" (VStr "Pendente") in
  atraso <- sub_series real prevista ;;
  let df := setitem df "dias_de_atraso" (map td_days atraso) in
  let df := loc_set df (map lt0 (map td_days atraso)) "dias_de_atraso" (VInt 0) in
  nomes <- getitem df "nome_tarefa" ;;
  let df := setitem df "tipo_tarefa"
              (map (fun nome => VStr (categorizar_tarefa nome)) nomes) in
  let df := setitem df "mes_conclusao" (map mes_str real) in
  Ok df.

(** ** Filtering and summary (lines 109-153)

    Rates and means are Python floats in the program; here they are the
    exact rationals those floats approximate.  The order in which grouped
    results are listed (groupby sorts its keys, [sort_values] reorders the
    rows by value) is presentation: groups are listed by first appearance. *)

Definition isin (values : list cell) (c : cell) : bool :=
  existsb (cell_same c) values.

(** [s.unique()]: the distinct values, by first appearance. *)
Fixpoint unique (s : Series) : list cell :=
  match s with
  | [] => []
  | x :: rest => x :: filter (fun y => negb (cell_same x y)) (unique rest)
  end.

(** Line 112. *)
Definition filtrar (df_analise : DataFrame)
  (cliente_filtro responsavel_filtro : list cell) : result DataFrame :=
  clientes <- getitem df_analise "cliente" ;;
  responsaveis <- getitem df_analise "responsavel" ;;
  Ok (select_rows df_analise
        (map2 andb (map (isin cliente_filtro) clientes)
                   (map (isin responsavel_filtro) responsaveis))).

Definition count_if {A : Type} (f : A -> bool) (l : list A) : nat :=
  length (filter f l).

(** [hits / n * 100], for [n > 0] (the program guards or groups first). *)
Definition percent (hits n : nat) : Q :=
  (Z.of_nat hits # Pos.of_nat n) * 100.

(** [lambda x: (x == 'No Prazo').sum() / len(x) * 100] *)
Definition taxa (x : Series) : Q :=
  percent (count_if (eq_str "No Prazo") x) (length x).

Fixpoint ints (s : Series) : list Z :=
  match s with
  | [] => []
  | VInt n :: rest => n :: ints rest
  | _ :: rest => ints rest
  end.

Definition sum_Z (xs : list Z) : Z := fold_right Z.add 0%Z xs.

(** [Series.mean()] of a numeric series: NaN cells are skipped, and the mean
    of nothing is NaN ([None]).  It is only applied to the delay column,
    which holds integers and NaN. *)
Definition mean (s : Series) : option Q :=
  match ints s with
  | [] => None
  | xs => Some (sum_Z xs # Pos.of_nat (length xs))
  end.

(** [groupby(keys)] over the values [vals]: one group per distinct key,
    rows whose key is missing are dropped. *)
Definition groupby {A : Type} (keys : Series) (vals : list A)
  : list (cell * list A) :=
  map (fun k => (k, select (map (cell_same k) keys) vals))
      (unique (filter (fun k => negb (isna k)) keys)).

Definition sizes {A : Type} (groups : list (cell * list A)) : list (cell * nat) :=
  map (fun g => (fst g, length (snd g))) groups.

Definition taxas (groups : list (cell * Series)) : list (cell * Q) :=
  map (fun g => (fst g, taxa (snd g))) groups.

Record Resumo : Type := mkResumo {
  total_tarefas : nat;                    (* df_filtrado.shape[0] *)
  taxa_no_prazo : Q;
  media_atraso : option Q;                (* None: NaN, shown as N/A *)
  df_tarefas_resp : list (cell * nat);
  df_prazo_resp : list (cell * Q);
  df_atraso_tipo : list (cell * nat);
  df_evolucao : list (cell * Q)
}.

(** The figures of lines 118-153, in the order the script computes them. *)
Definition summarize (df_filtrado : DataFrame) : result Resumo :=
  let total := nrows df_filtrado in
  taxa_no_prazo <-
    (if (0 <? total)%nat
     then status <- getitem df_filtrado "status_prazo" ;;
          Ok (percent (count_if (eq_str "No Prazo") status) total)
     else Ok 0%Q) ;;
  dias <- getitem df_filtrado "dias_de_atraso" ;;
  let media_atraso := mean (select (map gt0 dias) dias) in
  responsavel <- getitem df_filtrado "responsavel" ;;
  let df_tarefas_resp := sizes (groupby responsavel responsavel) in
  status <- getitem df_filtrado "status_prazo" ;;
  let concluidas := map (fun c => negb (eq_str "Pendente" c)) status in
  let df_prazo_resp :=
    taxas (groupby (select concluidas responsavel) (select concluidas status)) in
  let atrasadas := map (eq_str "Em Atraso") status in
  tipo <- getitem df_filtrado "tipo_tarefa" ;;
  let df_atraso_tipo :=
    sizes (groupby (select atrasadas tipo) (select atrasadas tipo)) in
  mes <- getitem df_filtrado "mes_conclusao" ;;
  let df_evolucao :=
    taxas (groupby (select concluidas mes) (select concluidas status)) in
  Ok (mkResumo total taxa_no_prazo media_atraso df_tarefas_resp df_prazo_resp
        df_atraso_tipo df_evolucao).

(** Frames as the file readers deliver them: distinct labels, every column
    as long as the index. *)
Definition well_formed (df : DataFrame) : Prop :=
  NoDup (labels df) /\ rectangular df.

(** ** An environment to run the definitions

    ASCII lowercasing, ISO dates ([YYYY-MM-DD], midnight) and cells that are
    already datetimes: enough to evaluate the program on concrete frames. *)

Definition ascii_lower (c : ascii) : ascii :=
  let n := nat_of_ascii c in
  if ((65 <=? n) && (n <=? 90))%nat then ascii_of_nat (n + 32) else c.

Fixpoint lower_ascii (s : string) : string :=
  match s with
  | EmptyString => EmptyString
  | String c rest => String (ascii_lower c) (lower_ascii rest)
  end.

Definition digit_value (c : ascii) : option Z :=
  let n := nat_of_ascii c in
  if ((48 <=? n) && (n <=? 57))%nat then Some (Z.of_nat (n - 48)) else None.

Fixpoint number_of (acc : Z) (s : string) : option Z :=
  match s with
  | EmptyString => Some acc
  | String c rest =>
      match digit_value c with
      | Some d => number_of (acc * 10 + d) rest
      | None => None
      end
  end.

(** [YYYY-MM-DD] as nanoseconds since the epoch, when it names a real day. *)
Definition parse_iso_date (s : string) : option Z :=
  if negb ((String.length s =? 10)%nat
           && String.eqb (substring 4 1 s) "-" && String.eqb (substring 7 1 s) "-")
  then None
  else
    match number_of 0 (substring 0 4 s), number_of 0 (substring 5 2 s),
          number_of 0 (substring 8 2 s) with
    | Some y, Some m, Some d =>
        let z := days_from_civil y m d in
        let '(y', m', d') := civil_from_days z in
        if ((y' =? y) && (m' =? m) && (d' =? d))%Z
        then Some (z * ns_per_day)%Z
        else None
    | _, _, _ => None
    end.

Definition clip (d : option Z) : option Z :=
  match d with
  | Some t => if ((ts_min <=? t) && (t <=? ts_max))%Z then Some t else None
  | None => None
  end.

Definition parse_cell (c : cell) : option Z :=
  match c with
  | VTime t => clip (Some t)
  | VStr s => clip (parse_iso_date s)
  | _ => None
  end.

Definition str_cell (c : cell) : string :=
  match c with
  | VStr s => s
  | VInt n => NilZero.string_of_int (Z.to_int n)
  | VNaN => "nan"
  | VTime t =>
      let '(y, m, d) := civil_from_days (t / ns_per_day) in
      let ns := (t mod ns_per_day)%Z in
      let secs := (ns / 10 ^ 9)%Z in
      let frac := (ns mod 10 ^ 9)%Z in
      zero_padded 4 y ++ "-" ++ zero_padded 2 m ++ "-" ++ zero_padded 2 d
      ++ " " ++ zero_padded 2 (secs / 3600) ++ ":"
      ++ zero_padded 2 (secs / 60 mod 60) ++ ":" ++ zero_padded 2 (secs mod 60)
      ++ (if (frac =? 0)%Z then ""
          else if (frac mod 1000 =? 0)%Z then "." ++ zero_padded 6 (frac / 1000)
          else "." ++ zero_padded 9 frac)
  | VNaT => "NaT"
  end.

Lemma clip_in_bounds : forall d, in_bounds (clip d).
Proof.
  intros [t|]; simpl; [|exact I].
  destruct ((ts_min <=? t)%Z && (t <=? ts_max)%Z) eqn:E; simpl; [|exact I].
  apply andb_true_iff in E. destruct E as [E1 E2].
  split; [apply Z.leb_le, E1 | apply Z.leb_le, E2].
Qed.

Lemma clip_fixed : forall d, in_bounds d -> clip d = d.
Proof.
  intros [t|] Hb; simpl in *; [|reflexivity].
  destruct Hb as [H1 H2].
  apply Z.leb_le in H1. apply Z.leb_le in H2.
  now rewrite H1, H2.
Qed.

Lemma parse_cells_bounds : forall s, Forall in_bounds (map parse_cell s).
Proof.
  induction s as [|c s IH]; simpl; constructor; auto.
  destruct c as [s'| | |t|]; try exact I;
    [exact (clip_in_bounds (parse_iso_date s')) | exact (clip_in_bounds (Some t))].
Qed.

Lemma parse_cells_parsed :
  forall l, Forall in_bounds l -> map parse_cell (map dt_cell l) = l.
Proof.
  induction 1 as [|d l Hd _ IH]; simpl; [reflexivity|].
  rewrite IH. f_equal.
  destruct d as [t|]; simpl; [|reflexivity].
  exact (clip_fixed (Some t) Hd).
Qed.

Lemma parse_cells_missing :
  forall s i c, nth_error s i = Some c -> isna c = true ->
    nth_error (map parse_cell s) i = Some None.
Proof.
  intros s i c Hc Hna. rewrite (map_nth_error parse_cell _ _ Hc).
  destruct c; try discriminate; reflexivity.
Qed.

#[export] Instance ascii_iso : Pandas := {|
  py_str := str_cell;
  py_str_str := fun s => eq_refl;
  str_lower := lower_ascii;
  to_datetime := map parse_cell;
  to_datetime_length := fun s => length_map parse_cell s;
  to_datetime_bounds := parse_cells_bounds;
  to_datetime_missing := parse_cells_missing;
  to_datetime_parsed := parse_cells_parsed;
  astype_str_na := VStr "NaT";
  astype_str_na_cases := or_introl eq_refl
|}.

(** * Facts about frames *)

Section FrameFacts.

Implicit Types (df : DataFrame) (c : string) (s : Series) (p : string * Series).

Lemma named_true : forall c p, named c p = true <-> fst p = c.
Proof. intros c p. unfold named. apply String.eqb_eq. Qed.

Lemma named_false : forall c p, named c p = false <-> fst p <> c.
Proof. intros c p. unfold named. apply String.eqb_neq. Qed.

Lemma named_other : forall c c' p, c <> c' -> named c p = true -> named c' p = false.
Proof.
  intros c c' p Hne H. apply named_true in H. apply named_false. congruence.
Qed.

Definition first_named (c : string) (cols : list (string * Series)) : option Series :=
  option_map snd (find (named c) cols).

Lemma first_named_overwrite_same :
  forall c s cols, existsb (named c) cols = true ->
    first_named c (map (fun p => if named c p then (fst p, s) else p) cols) = Some s.
Proof.
  unfold first_named. induction cols as [|p cols IH]; simpl; [discriminate|].
  destruct (named c p) eqn:E; simpl.
  - intros _. unfold named in *. simpl. rewrite E. reflexivity.
  - intros H. rewrite E. auto.
Qed.

Lemma first_named_append_same :
  forall c s cols, existsb (named c) cols = false ->
    first_named c (cols ++ [(c, s)]) = Some s.
Proof.
  unfold first_named. induction cols as [|p cols IH]; simpl.
  - intros _. unfold named. simpl. now rewrite String.eqb_refl.
  - destruct (named c p); simpl; [discriminate | auto].
Qed.

Lemma first_named_update_other :
  forall c c' (f : Series -> Series) cols, c <> c' ->
    first_named c' (map (fun p => if named c p then (fst p, f (snd p)) else p) cols)
    = first_named c' cols.
Proof.
  unfold first_named. intros c c' f cols Hne.
  induction cols as [|p cols IH]; simpl; [reflexivity|].
  destruct (named c p) eqn:E.
  - rewrite (named_other _ _ _ Hne E).
    assert (named c' (fst p, f (snd p)) = false) as ->
      by (apply named_false; simpl; apply named_true in E; congruence).
    exact IH.
  - destruct (named c' p); [reflexivity | exact IH].
Qed.

Lemma first_named_update_same :
  forall c (f : Series -> Series) cols,
    first_named c (map (fun p => if named c p then (fst p, f (snd p)) else p) cols)
    = option_map f (first_named c cols).
Proof.
  unfold first_named. intros c f cols.
  induction cols as [|p cols IH]; simpl; [reflexivity|].
  destruct (named c p) eqn:E.
  - assert (named c (fst p, f (snd p)) = true) as -> by exact E.
    reflexivity.
  - rewrite E. exact IH.
Qed.

Lemma first_named_append_other :
  forall c c' s cols, c <> c' ->
    first_named c' (cols ++ [(c, s)]) = first_named c' cols.
Proof.
  unfold first_named. intros c c' s cols Hne.
  induction cols as [|p cols IH]; simpl.
  - assert (named c' (c, s) = false) as -> by (apply named_false; exact Hne).
    reflexivity.
  - destruct (named c' p); [reflexivity | exact IH].
Qed.

Lemma column_setitem_same : forall df c s, column (setitem df c s) c = Some s.
Proof.
  intros df c s. unfold column, setitem, has_label.
  destruct (existsb (named c) (columns df)) eqn:E; simpl.
  - exact (first_named_overwrite_same c s _ E).
  - exact (first_named_append_same c s _ E).
Qed.

Lemma column_setitem_other :
  forall df c c' s, c <> c' -> column (setitem df c s) c' = column df c'.
Proof.
  intros df c c' s Hne. unfold column, setitem, has_label.
  destruct (existsb (named c) (columns df)); simpl.
  - exact (first_named_update_other c c' (fun _ => s) _ Hne).
  - exact (first_named_append_other c c' s _ Hne).
Qed.

Lemma column_loc_set_same :
  forall df mask c v,
    column (loc_set df mask c v) c = option_map (where_set mask v) (column df c).
Proof.
  intros. exact (first_named_update_same c (where_set mask v) (columns df)).
Qed.

Lemma column_loc_set_other :
  forall df mask c c' v, c <> c' -> column (loc_set df mask c v) c' = column df c'.
Proof.
  intros df mask c c' v Hne.
  exact (first_named_update_other c c' (where_set mask v) _ Hne).
Qed.

Lemma column_select_rows :
  forall df mask c,
    column (select_rows df mask) c = option_map (select mask) (column df c).
Proof.
  intros df mask c. unfold column, select_rows. simpl.
  induction (columns df) as [|p cols IH]; [reflexivity|].
  cbn [map find].
  change (named c (fst p, select mask (snd p))) with (named c p).
  destruct (named c p); [reflexivity | exact IH].
Qed.

(** *** [df[c]] against the first column labelled [c] *)

Lemma getitem_column : forall df c s, getitem df c = Ok s -> column df c = Some s.
Proof.
  intros df c s. unfold getitem, column.
  induction (columns df) as [|p cols IH]; simpl; [discriminate|].
  destruct (named c p); [|exact IH].
  destruct (filter (named c) cols); [|discriminate].
  intros H. injection H as <-. reflexivity.
Qed.

Lemma filter_named_absent :
  forall c cols, ~ In c (map fst cols) -> filter (named c) cols = [].
Proof.
  induction cols as [|p cols IH]; simpl; [reflexivity|].
  intros H. destruct (named c p) eqn:E.
  - apply named_true in E. tauto.
  - apply IH. tauto.
Qed.

Lemma column_getitem :
  forall df c s, NoDup (labels df) -> column df c = Some s -> getitem df c = Ok s.
Proof.
  intros df c s. unfold getitem, column, labels.
  induction (columns df) as [|p cols IH]; simpl; [discriminate|].
  intros Hnd. inversion Hnd as [|l ls Hnotin Hnd']. subst.
  destruct (named c p) eqn:E.
  - apply named_true in E. subst c.
    rewrite (filter_named_absent _ _ Hnotin).
    simpl. intros H. injection H as <-. reflexivity.
  - auto.
Qed.

Lemma getitem_missing :
  forall df c, column df c = None -> getitem df c = Raise (KeyError c).
Proof.
  intros df c. unfold getitem, column.
  induction (columns df) as [|p cols IH]; simpl; [reflexivity|].
  destruct (named c p); [discriminate | exact IH].
Qed.

Lemma filter_named_update_other :
  forall c c' (f : Series -> Series) cols, c <> c' ->
    filter (named c') (map (fun p => if named c p then (fst p, f (snd p)) else p) cols)
    = filter (named c') cols.
Proof.
  intros c c' f cols Hne.
  induction cols as [|p cols IH]; simpl; [reflexivity|].
  destruct (named c p) eqn:E.
  - rewrite (named_other _ _ _ Hne E).
    assert (named c' (fst p, f (snd p)) = false) as ->
      by (apply named_false; simpl; apply named_true in E; congruence).
    exact IH.
  - destruct (named c' p); [f_equal|]; exact IH.
Qed.

Lemma getitem_setitem_other :
  forall df c c' s, c <> c' -> getitem (setitem df c s) c' = getitem df c'.
Proof.
  intros df c c' s Hne. unfold getitem, setitem.
  destruct (has_label df c); simpl.
  - now rewrite (filter_named_update_other c c' (fun _ => s) _ Hne).
  - rewrite filter_app. simpl.
    assert (named c' (c, s) = false) as -> by (apply named_false; exact Hne).
    now rewrite app_nil_r.
Qed.

Lemma getitem_loc_set_other :
  forall df mask c c' v, c <> c' -> getitem (loc_set df mask c v) c' = getitem df c'.
Proof.
  intros df mask c c' v Hne. unfold getitem, loc_set. simpl.
  now rewrite (filter_named_update_other c c' (where_set mask v) _ Hne).
Qed.

End FrameFacts.

(** * Facts about series *)

Section SeriesFacts.

Lemma length_where_set : forall mask v s, length (where_set mask v s) = length s.
Proof.
  intros mask v s. revert mask.
  induction s as [|x s IH]; intros [|b mask]; simpl; auto.
Qed.

Lemma length_map2 :
  forall {A B C : Type} (f : A -> B -> C) l1 l2,
    length l1 = length l2 -> length (map2 f l1 l2) = length l1.
Proof.
  intros A B C f. induction l1 as [|a l1 IH]; intros [|b l2] H; simpl in *;
    try discriminate; auto.
Qed.

Lemma nth_error_map2 :
  forall {A B C : Type} (f : A -> B -> C) l1 l2 i a b,
    nth_error l1 i = Some a -> nth_error l2 i = Some b ->
    nth_error (map2 f l1 l2) i = Some (f a b).
Proof.
  intros A B C f. induction l1 as [|x l1 IH]; intros [|y l2] [|i] a b H1 H2;
    simpl in *; try discriminate.
  - congruence.
  - eauto.
Qed.

Lemma select_map :
  forall {A B : Type} (f : A -> B) mask l,
    select mask (map f l) = map f (select mask l).
Proof.
  intros A B f. induction mask as [|b mask IH]; intros [|x l]; simpl; auto.
  destruct b; simpl; now rewrite IH.
Qed.

Lemma select_map2 :
  forall {A B C : Type} (f : A -> B -> C) mask l1 l2,
    length l1 = length l2 ->
    select mask (map2 f l1 l2) = map2 f (select mask l1) (select mask l2).
Proof.
  intros A B C f. induction mask as [|b mask IH]; intros [|x l1] [|y l2] H;
    simpl in *; try discriminate; auto.
  injection H as H. destruct b; simpl; now rewrite IH.
Qed.

Lemma length_select :
  forall {A : Type} mask (l : list A),
    length l = length mask ->
    length (select mask l) = length (filter (fun b => b) mask).
Proof.
  intros A. induction mask as [|b mask IH]; intros [|x l] H; simpl in *;
    try discriminate; auto.
  injection H as H. destruct b; simpl; auto.
Qed.

Lemma Forall_select :
  forall {A : Type} (P : A -> Prop) mask l, Forall P l -> Forall P (select mask l).
Proof.
  intros A P. induction mask as [|b mask IH]; intros l H; [constructor|].
  destruct H as [|x l Hx Hl]; simpl; [constructor|].
  destruct b; auto.
Qed.

End SeriesFacts.

(** * Well-formedness is preserved *)

Section WellFormed.

Lemma existsb_named_In :
  forall c cols, existsb (named c) cols = true <-> In c (map fst cols).
Proof.
  intros c cols. rewrite existsb_exists, in_map_iff. split.
  - intros (p & Hin & Hn). exists p. split; [now apply named_true | exact Hin].
  - intros (p & He & Hin). exists p. split; [exact Hin | now apply named_true].
Qed.

Lemma labels_update :
  forall c (f : Series -> Series) cols,
    map fst (map (fun p => if named c p then (fst p, f (snd p)) else p) cols)
    = map fst cols.
Proof.
  intros c f cols. rewrite map_map. apply map_ext.
  intros p. now destruct (named c p).
Qed.

Lemma rectangular_update :
  forall n c (f : Series -> Series) cols,
    (forall s, length s = n -> length (f s) = n) ->
    Forall (fun p => length (snd p) = n) cols ->
    Forall (fun p => length (snd p) = n)
           (map (fun p => if named c p then (fst p, f (snd p)) else p) cols).
Proof.
  intros n c f cols Hf H. induction H as [|p cols Hp _ IH]; simpl; constructor; auto.
  destruct (named c p); simpl; auto.
Qed.

Lemma well_formed_setitem :
  forall df c s,
    well_formed df -> length s = nrows df -> well_formed (setitem df c s).
Proof.
  intros df c s [Hnd Hrect] Hlen. unfold well_formed, rectangular, labels, setitem, has_label in *.
  destruct (existsb (named c) (columns df)) eqn:E; simpl; split.
  - now rewrite (labels_update c (fun _ => s)).
  - apply (rectangular_update (nrows df) c (fun _ => s)); auto.
  - rewrite map_app. simpl.
    apply NoDup_app; auto.
    + repeat constructor. intros [].
    + intros x Hx [<-|[]].
      apply existsb_named_In in Hx. congruence.
  - apply Forall_app. split; auto.
Qed.

Lemma well_formed_loc_set :
  forall df mask c v, well_formed df -> well_formed (loc_set df mask c v).
Proof.
  intros df mask c v [Hnd Hrect]. unfold well_formed, rectangular, labels, loc_set in *.
  simpl; split.
  - now rewrite (labels_update c (where_set mask v)).
  - apply (rectangular_update (nrows df) c (where_set mask v)); auto.
    intros s Hs. now rewrite length_where_set.
Qed.

Lemma well_formed_select_rows :
  forall df mask,
    well_formed df -> length mask = nrows df -> well_formed (select_rows df mask).
Proof.
  intros df mask [Hnd Hrect] Hlen. unfold well_formed, rectangular, labels, select_rows in *.
  simpl; split.
  - rewrite map_map. simpl. exact Hnd.
  - rewrite Forall_map. eapply Forall_impl; [|exact Hrect].
    intros p Hp. simpl. apply length_select. congruence.
Qed.

Lemma nrows_setitem : forall df c s, nrows (setitem df c s) = nrows df.
Proof. intros. unfold setitem. now destruct (has_label df c). Qed.

Lemma column_length :
  forall df c s, rectangular df -> column df c = Some s -> length s = nrows df.
Proof.
  intros df c s Hrect. unfold column, rectangular in *.
  induction Hrect as [|p cols Hp _ IH]; simpl; [discriminate|].
  destruct (named c p); simpl; [|exact IH].
  intros H. injection H as <-. exact Hp.
Qed.

End WellFormed.

(** * The metrics engine, row by row

    The vectorised assignments of [calcular_metricas] compute, for each row,
    the status and the delay below from the two parsed dates of that row. *)

Definition status_of (real prevista : option Z) : cell :=
  if dt_isna real then VStr "Pendente"
  else if dt_gt real prevista then VStr "Em Atraso"
  else VStr "No Prazo".

Definition dias_of (real prevista : option Z) : cell :=
  match real, prevista with
  | Some r, Some p => VInt (Z.max 0 ((r - p) / ns_per_day))
  | _, _ => VNaN
  end.

(** What a frame looks like once the metrics are in: the parsed dates
    [prevista] and [real] and the columns derived from them. *)
Record analysed `{Pandas} (df : DataFrame) (prevista real : list (option Z))
  : Prop := {
  an_well_formed : well_formed df;
  an_prevista_length : length prevista = nrows df;
  an_real_length : length real = nrows df;
  an_prevista_bounds : Forall in_bounds prevista;
  an_real_bounds : Forall in_bounds real;
  an_prevista : column df "data_prevista_conclusao" = Some (map dt_cell prevista);
  an_real : column df "data_real_conclusao" = Some (map dt_cell real);
  an_status : column df "status_prazo" = Some (map2 status_of real prevista);
  an_dias : column df "dias_de_atraso" = Some (map2 dias_of real prevista);
  an_mes : column df "mes_conclusao" = Some (map mes_str real);
  an_tipo : exists tipos, column df "tipo_tarefa" = Some tipos;
}.

Section Vectorised.

Lemma status_vectorised :
  forall real prevista n,
    length real = n -> length prevista = n ->
    where_set (map dt_isna real) (VStr "Pendente")
      (where_set (map2 dt_gt real prevista) (VStr "Em Atraso")
         (repeat (VStr "No Prazo") n))
    = map2 status_of real prevista.
Proof.
  induction real as [|r real IH]; intros [|p prevista] n Hr Hp; subst n;
    simpl in *; try discriminate; try reflexivity.
  injection Hp as Hp. rewrite (IH prevista (length real) eq_refl Hp).
  unfold status_of.
  destruct r as [r|]; simpl; [|reflexivity].
  now destruct (dt_gt (Some r) p).
Qed.

Lemma dt_sub_days :
  forall r p d, dt_sub r p = Ok d ->
    (if lt0 (td_days d) then VInt 0 else td_days d) = dias_of r p.
Proof.
  intros [r|] [p|] d; simpl; try (intros H; injection H as <-; reflexivity).
  destruct (td_ok (r - p)); [|discriminate].
  intros H. injection H as <-. simpl.
  destruct ((r - p) / ns_per_day <? 0)%Z eqn:E; f_equal.
  - apply Z.ltb_lt in E. lia.
  - apply Z.ltb_ge in E. lia.
Qed.

Lemma dias_vectorised :
  forall real prevista atraso,
    length real = length prevista ->
    sub_series real prevista = Ok atraso ->
    where_set (map lt0 (map td_days atraso)) (VInt 0) (map td_days atraso)
    = map2 dias_of real prevista.
Proof.
  induction real as [|r real IH]; intros [|p prevista] atraso Hlen; simpl in *;
    try discriminate.
  - intros H. injection H as <-. reflexivity.
  - destruct (dt_sub r p) as [d|e] eqn:Ed; simpl; [|discriminate].
    destruct (sub_series real prevista) as [ds|e] eqn:Es; simpl; [|discriminate].
    intros H. injection H as <-. simpl.
    injection Hlen as Hlen.
    rewrite (IH prevista ds Hlen Es), (dt_sub_days r p d Ed).
    reflexivity.
Qed.

Lemma length_sub_series :
  forall real prevista atraso,
    length real = length prevista ->
    sub_series real prevista = Ok atraso -> length atraso = length real.
Proof.
  induction real as [|r real IH]; intros [|p prevista] atraso Hlen; simpl in *;
    try discriminate.
  - intros H. injection H as <-. reflexivity.
  - destruct (dt_sub r p) as [d|e]; simpl; [|discriminate].
    destruct (sub_series real prevista) as [ds|e] eqn:Es; simpl; [|discriminate].
    intros H. injection H as <-. simpl. f_equal.
    injection Hlen as Hlen. eauto.
Qed.

(** The subtraction succeeds exactly when every difference of two present
    dates fits the timedelta range. *)
Definition no_overflow (real prevista : list (option Z)) : Prop :=
  Forall (fun rp => match rp with
                    | (Some r, Some p) => (ts_min <= r - p <= ts_max)%Z
                    | _ => True
                    end) (combine real prevista).

Lemma sub_series_total :
  forall real prevista,
    no_overflow real prevista -> exists atraso, sub_series real prevista = Ok atraso.
Proof.
  unfold no_overflow.
  induction real as [|r real IH]; intros [|p prevista] H; simpl in *; eauto.
  inversion H as [|rp rest Hrp Hrest]; subst.
  destruct (IH prevista Hrest) as [ds Hds]. rewrite Hds.
  destruct r as [r|], p as [p|]; simpl; eauto.
  unfold td_ok.
  destruct Hrp as [H1 H2]. apply Z.leb_le in H1. apply Z.leb_le in H2.
  rewrite H1, H2. simpl. eauto.
Qed.

End Vectorised.

(** Look through the assignments to other labels. *)
Ltac peel :=
  repeat first
    [ rewrite column_setitem_other by discriminate
    | rewrite column_loc_set_other by discriminate ].

Section Metrics.

Context {env : Pandas}.

(** The assignments of [calcular_metricas], once its reads have succeeded. *)
Definition written (df : DataFrame) (prevista real atraso : list (option Z))
  (nomes : Series) : DataFrame :=
  let df := setitem df "data_prevista_conclusao" (map dt_cell prevista) in
  let df := setitem df "data_real_conclusao" (map dt_cell real) in
  let df := setitem_scalar df "status_prazo" (VStr "No Prazo") in
  let df := loc_set df (map2 dt_gt real prevista) "status_prazo" (VStr "Em Atraso") in
  let df := loc_set df (map dt_isna real) "status_prazo" (VStr "Pendente") in
  let df := setitem df "dias_de_atraso" (map td_days atraso) in
  let df := loc_set df (map lt0 (map td_days atraso)) "dias_de_atraso" (VInt 0) in
  let df := setitem df "tipo_tarefa"
              (map (fun nome => VStr (categorizar_tarefa nome)) nomes) in
  setitem df "mes_conclusao" (map mes_str real).

Lemma calcular_metricas_reads :
  forall df df',
    calcular_metricas df = Ok df' ->
    exists prevista_bruta real_bruta nomes atraso,
      getitem df "data_prevista_conclusao" = Ok prevista_bruta /\
      getitem df "data_real_conclusao" = Ok real_bruta /\
      getitem df "nome_tarefa" = Ok nomes /\
      sub_series (to_datetime real_bruta) (to_datetime prevista_bruta) = Ok atraso /\
      df' = written df (to_datetime prevista_bruta) (to_datetime real_bruta)
              atraso nomes.
Proof.
  intros df df'. unfold calcular_metricas.
  destruct (getitem df "data_prevista_conclusao") as [pb|e] eqn:Ep; simpl; [|discriminate].
  rewrite getitem_setitem_other by discriminate.
  destruct (getitem df "data_real_conclusao") as [rb|e] eqn:Er; simpl; [|discriminate].
  destruct (sub_series (to_datetime rb) (to_datetime pb)) as [atraso|e] eqn:Es;
    simpl; [|discriminate].
  rewrite getitem_loc_set_other by discriminate.
  rewrite getitem_setitem_other by discriminate.
  rewrite !getitem_loc_set_other by discriminate.
  unfold setitem_scalar.
  rewrite !getitem_setitem_other by discriminate.
  destruct (getitem df "nome_tarefa") as [nomes|e] eqn:En; simpl; [|discriminate].
  intros H. injection H as <-.
  exists pb, rb, nomes, atraso. repeat split; try reflexivity; assumption.
Qed.

(** The converse: the three reads and the subtraction are all that can fail. *)
Lemma calcular_metricas_returns :
  forall df prevista_bruta real_bruta nomes atraso,
    getitem df "data_prevista_conclusao" = Ok prevista_bruta ->
    getitem df "data_real_conclusao" = Ok real_bruta ->
    getitem df "nome_tarefa" = Ok nomes ->
    sub_series (to_datetime real_bruta) (to_datetime prevista_bruta) = Ok atraso ->
    calcular_metricas df
    = Ok (written df (to_datetime prevista_bruta) (to_datetime real_bruta)
            atraso nomes).
Proof.
  intros df pb rb nomes atraso Ep Er En Es. unfold calcular_metricas.
  rewrite Ep. simpl.
  rewrite getitem_setitem_other by discriminate. rewrite Er. simpl.
  rewrite Es. simpl.
  rewrite getitem_loc_set_other by discriminate.
  rewrite getitem_setitem_other by discriminate.
  rewrite !getitem_loc_set_other by discriminate.
  unfold setitem_scalar.
  rewrite !getitem_setitem_other by discriminate.
  rewrite En. reflexivity.
Qed.

Lemma nrows_written :
  forall df prevista real atraso nomes,
    nrows (written df prevista real atraso nomes) = nrows df.
Proof.
  intros. unfold written, setitem_scalar.
  repeat first [ rewrite nrows_setitem | progress cbn [loc_set nrows] ].
  reflexivity.
Qed.

Lemma written_analysed :
  forall df prevista real atraso nomes,
    well_formed df ->
    length prevista = nrows df -> length real = nrows df ->
    length nomes = nrows df ->
    Forall in_bounds prevista -> Forall in_bounds real ->
    sub_series real prevista = Ok atraso ->
    analysed (written df prevista real atraso nomes) prevista real.
Proof.
  intros df prevista real atraso nomes Hwf Hp Hr Hn Hbp Hbr Hsub.
  assert (Hlen : length real = length prevista) by congruence.
  pose proof (length_sub_series _ _ _ Hlen Hsub) as Ha.
  constructor; rewrite ?nrows_written; auto; unfold written, setitem_scalar.
  - repeat first
      [ apply well_formed_setitem
      | apply well_formed_loc_set
      | rewrite nrows_setitem
      | rewrite length_map
      | rewrite repeat_length
      | progress cbn [loc_set nrows] ]; auto; congruence.
  - peel. apply column_setitem_same.
  - peel. apply column_setitem_same.
  - peel. rewrite !column_loc_set_same, column_setitem_same. simpl.
    rewrite !nrows_setitem. f_equal. now apply status_vectorised.
  - peel. rewrite column_loc_set_same, column_setitem_same. simpl.
    f_equal. now apply dias_vectorised.
  - apply column_setitem_same.
  - eexists. peel. apply column_setitem_same.
Qed.

(** Columns other than the six the engine writes are left as they were. *)
Definition written_labels : list string :=
  [ "data_prevista_conclusao"; "data_real_conclusao"; "status_prazo";
    "dias_de_atraso"; "tipo_tarefa"; "mes_conclusao" ].

Lemma written_frame :
  forall df prevista real atraso nomes c,
    ~ In c written_labels ->
    column (written df prevista real atraso nomes) c = column df c.
Proof.
  intros df prevista real atraso nomes c Hc.
  unfold written, setitem_scalar. simpl in Hc.
  repeat first
    [ rewrite column_setitem_other by (intros <-; tauto)
    | rewrite column_loc_set_other by (intros <-; tauto) ].
  reflexivity.
Qed.

Lemma calcular_metricas_analysed :
  forall df df',
    well_formed df -> calcular_metricas df = Ok df' ->
    exists prevista real, analysed df' prevista real.
Proof.
  intros df df' Hwf H.
  destruct (calcular_metricas_reads df df' H)
    as (pb & rb & nomes & atraso & Ep & Er & En & Es & ->).
  exists (to_datetime pb), (to_datetime rb).
  destruct Hwf as [Hnd Hrect].
  apply written_analysed; auto.
  - split; assumption.
  - rewrite to_datetime_length.
    exact (column_length _ _ _ Hrect (getitem_column _ _ _ Ep)).
  - rewrite to_datetime_length.
    exact (column_length _ _ _ Hrect (getitem_column _ _ _ Er)).
  - exact (column_length _ _ _ Hrect (getitem_column _ _ _ En)).
  - apply to_datetime_bounds.
  - apply to_datetime_bounds.
Qed.

(** What [calcular_metricas] does to the columns it does not derive: the
    two date columns hold the parsed dates, the others are as they were. *)
Lemma calcular_metricas_keeps :
  forall df df',
    calcular_metricas df = Ok df' ->
    (forall c, ~ In c written_labels -> column df' c = column df c) /\
    exists prevista_bruta real_bruta,
      column df "data_prevista_conclusao" = Some prevista_bruta /\
      column df "data_real_conclusao" = Some real_bruta /\
      column df' "data_prevista_conclusao"
      = Some (map dt_cell (to_datetime prevista_bruta)) /\
      column df' "data_real_conclusao"
      = Some (map dt_cell (to_datetime real_bruta)).
Proof.
  intros df df' H.
  destruct (calcular_metricas_reads df df' H)
    as (pb & rb & nomes & atraso & Ep & Er & En & Es & ->).
  apply getitem_column in Ep. apply getitem_column in Er.
  split; [intros c Hc; now apply written_frame|].
  exists pb, rb. unfold written, setitem_scalar.
  repeat split; try assumption; peel; apply column_setitem_same.
Qed.

(** A missing due-date column is reported as such. *)
Lemma calcular_metricas_missing_due_date :
  forall df,
    column df "data_prevista_conclusao" = None ->
    calcular_metricas df = Raise (KeyError "data_prevista_conclusao").
Proof.
  intros df H. unfold calcular_metricas.
  now rewrite (getitem_missing _ _ H).
Qed.

End Metrics.

(** * Per-task properties of the metrics *)

(** [r] is strictly after the due date: there is one, and it is earlier. *)
Definition after (r : Z) (prevista : option Z) : Prop :=
  exists p, prevista = Some p /\ (p < r)%Z.

Lemma status_of_cases :
  forall real prevista,
    exists status, status_of real prevista = VStr status /\
      (status = "Pendente" <-> real = None) /\
      (status = "Em Atraso" <-> exists r, real = Some r /\ after r prevista) /\
      (status = "No Prazo" <-> exists r, real = Some r /\ ~ after r prevista).
Proof.
  intros [r|] prevista; unfold status_of; simpl.
  - destruct prevista as [p|]; simpl.
    + destruct (p <? r)%Z eqn:E; eexists; (split; [reflexivity|]).
      * apply Z.ltb_lt in E. repeat split; try discriminate.
        -- intros _. exists r. split; [reflexivity | exists p; auto].
        -- intros (r' & Hr & Hna). injection Hr as <-.
           exfalso. apply Hna. exists p. auto.
      * apply Z.ltb_ge in E. repeat split; try discriminate.
        -- intros (r' & Hr & p' & Hp & Hlt). injection Hr as <-. injection Hp as <-. lia.
        -- intros _. exists r. split; [reflexivity|].
           intros (p' & Hp & Hlt). injection Hp as <-. lia.
    + eexists; split; [reflexivity|]. repeat split; try discriminate.
      * intros (r' & _ & p' & Hp & _). discriminate.
      * intros _. exists r. split; [reflexivity|]. intros (p' & Hp & _). discriminate.
  - eexists; split; [reflexivity|]. repeat split; try discriminate; auto.
    + intros (r' & Hr & _). discriminate.
    + intros (r' & Hr & _). discriminate.
Qed.

Lemma analysed_row {env : Pandas} :
  forall df prevista real i,
    analysed df prevista real -> (i < nrows df)%nat ->
    exists p r,
      nth_error prevista i = Some p /\ nth_error real i = Some r /\
      in_bounds p /\ in_bounds r /\
      cell_at df "data_prevista_conclusao" i = Some (dt_cell p) /\
      cell_at df "data_real_conclusao" i = Some (dt_cell r) /\
      cell_at df "status_prazo" i = Some (status_of r p) /\
      cell_at df "dias_de_atraso" i = Some (dias_of r p) /\
      cell_at df "mes_conclusao" i = Some (mes_str r).
Proof.
  intros df prevista real i [Hwf Hp Hr Hbp Hbr Cp Cr Cs Cd Cm _] Hi.
  destruct (nth_error prevista i) as [p|] eqn:Ep;
    [|apply nth_error_None in Ep; lia].
  destruct (nth_error real i) as [r|] eqn:Er;
    [|apply nth_error_None in Er; lia].
  exists p, r. unfold cell_at. rewrite Cp, Cr, Cs, Cd, Cm.
  repeat split.
  - exact (proj1 (Forall_forall _ _) Hbp p (nth_error_In _ _ Ep)).
  - exact (proj1 (Forall_forall _ _) Hbr r (nth_error_In _ _ Er)).
  - now apply map_nth_error.
  - now apply map_nth_error.
  - now apply nth_error_map2.
  - now apply nth_error_map2.
  - now apply map_nth_error.
Qed.

Section TaskProperties.

Context {env : Pandas}.

(** The result of [calcular_metricas] in terms of the frame it is given:
    the two date columns of the input, parsed, are the dates the derived
    columns are computed from. *)
Lemma calcular_metricas_parsed :
  forall df df',
    well_formed df -> calcular_metricas df = Ok df' ->
    exists prevista_bruta real_bruta,
      column df "data_prevista_conclusao" = Some prevista_bruta /\
      column df "data_real_conclusao" = Some real_bruta /\
      nrows df' = nrows df /\
      analysed df' (to_datetime prevista_bruta) (to_datetime real_bruta).
Proof.
  intros df df' Hwf H.
  destruct (calcular_metricas_reads df df' H)
    as (pb & rb & nomes & atraso & Ep & Er & En & Es & ->).
  exists pb, rb. destruct Hwf as [Hnd Hrect].
  split; [now apply getitem_column|]. split; [now apply getitem_column|].
  split; [apply nrows_written|].
  apply written_analysed; auto.
  - split; assumption.
  - rewrite to_datetime_length.
    exact (column_length _ _ _ Hrect (getitem_column _ _ _ Ep)).
  - rewrite to_datetime_length.
    exact (column_length _ _ _ Hrect (getitem_column _ _ _ Er)).
  - exact (column_length _ _ _ Hrect (getitem_column _ _ _ En)).
  - apply to_datetime_bounds.
  - apply to_datetime_bounds.
Qed.

(** Row [i] of the result, from row [i] of the input. *)
Lemma calcular_metricas_row :
  forall df df' i,
    well_formed df -> calcular_metricas df = Ok df' -> (i < nrows df)%nat ->
    exists prevista_bruta real_bruta prevista real,
      column df "data_prevista_conclusao" = Some prevista_bruta /\
      column df "data_real_conclusao" = Some real_bruta /\
      nth_error (to_datetime prevista_bruta) i = Some prevista /\
      nth_error (to_datetime real_bruta) i = Some real /\
      nrows df' = nrows df /\
      analysed df' (to_datetime prevista_bruta) (to_datetime real_bruta) /\
      in_bounds real /\
      cell_at df' "data_prevista_conclusao" i = Some (dt_cell prevista) /\
      cell_at df' "data_real_conclusao" i = Some (dt_cell real) /\
      cell_at df' "status_prazo" i = Some (status_of real prevista) /\
      cell_at df' "dias_de_atraso" i = Some (dias_of real prevista) /\
      cell_at df' "mes_conclusao" i = Some (mes_str real).
Proof.
  intros df df' i Hwf Hcalc Hi.
  destruct (calcular_metricas_parsed df df' Hwf Hcalc)
    as (pb & rb & Cp & Cr & Hn & Han).
  rewrite <- Hn in Hi.
  destruct (analysed_row df' _ _ i Han Hi)
    as (p & r & Ep & Er & _ & Hb & Dp & Dr & Ds & Dd & Dm).
  exists pb, rb, p, r.
  repeat (split; [assumption|]). assumption.
Qed.

(** A missing completion cell of the input is parsed to no date. *)
Lemma missing_cell_parsed :
  forall s i c d,
    nth_error s i = Some c -> isna c = true ->
    nth_error (to_datetime s) i = Some d -> d = None.
Proof.
  intros s i c d Hc Hna Hd.
  rewrite (to_datetime_missing s i c Hc Hna) in Hd. now injection Hd as <-.
Qed.

(** C2.  [calcular_metricas] returns as many tasks as it is given, and the
    status it gives task [i] is determined by the two dates of that task in
    the frame it is given, as [pd.to_datetime] parses them (they are also
    what it stores in the two date columns): Pendente exactly when the
    completion date is absent, Em Atraso exactly when the completion date
    is present and strictly after the due date, and No Prazo exactly when
    the completion date is present and not after the due date; a completion
    date equal to the due date gives No Prazo, and a missing completion cell
    of the input gives Pendente. *)
Theorem deadline_status_iff :
  forall df df' i,
    well_formed df -> calcular_metricas df = Ok df' -> (i < nrows df)%nat ->
    nrows df' = nrows df /\
    exists prevista_bruta real_bruta prevista real status,
      column df "data_prevista_conclusao" = Some prevista_bruta /\
      column df "data_real_conclusao" = Some real_bruta /\
      nth_error (to_datetime prevista_bruta) i = Some prevista /\
      nth_error (to_datetime real_bruta) i = Some real /\
      cell_at df' "data_prevista_conclusao" i = Some (dt_cell prevista) /\
      cell_at df' "data_real_conclusao" i = Some (dt_cell real) /\
      cell_at df' "status_prazo" i = Some (VStr status) /\
      (status = "Pendente" <-> real = None) /\
      (status = "Em Atraso" <-> exists r, real = Some r /\ after r prevista) /\
      (status = "No Prazo" <-> exists r, real = Some r /\ ~ after r prevista) /\
      (real <> None -> real = prevista -> status = "No Prazo") /\
      (forall c, nth_error real_bruta i = Some c -> isna c = true ->
         status = "Pendente").
Proof.
  intros df df' i Hwf Hcalc Hi.
  destruct (calcular_metricas_row df df' i Hwf Hcalc Hi)
    as (pb & rb & p & r & Cp & Cr & Ep & Er & Hn & _ & _ & Dp & Dr & Ds & _ & _).
  split; [exact Hn|].
  destruct (status_of_cases r p) as (status & Es & Hpend & Hlate & Hon).
  exists pb, rb, p, r, status. rewrite <- Es.
  refine (conj Cp (conj Cr (conj Ep (conj Er (conj Dp (conj Dr (conj Ds
            (conj Hpend (conj Hlate (conj Hon (conj _ _))))))))))).
  - intros Hr Heq. apply Hon.
    destruct r as [t|]; [|congruence].
    exists t. split; [reflexivity|].
    intros (p' & Hp' & Hlt). subst p. injection Hp' as <-. lia.
  - intros c Hc Hna. apply Hpend.
    exact (missing_cell_parsed rb i c r Hc Hna Er).
Qed.

(** C3.  The delay [calcular_metricas] gives task [i] is determined by the
    two dates of that task in the frame it is given, as [pd.to_datetime]
    parses them.  With both dates present it is the whole days of
    completion minus due date, floored at zero: 0 when the task is No
    Prazo, and 1 with status Em Atraso when completion is exactly one day
    after the due date.  With no completion date (a missing completion cell
    in the input, for one) no difference is taken and the delay is NaN
    (undefined). *)
Theorem delay_days_value :
  forall df df' i,
    well_formed df -> calcular_metricas df = Ok df' -> (i < nrows df)%nat ->
    nrows df' = nrows df /\
    exists prevista_bruta real_bruta prevista real status dias,
      column df "data_prevista_conclusao" = Some prevista_bruta /\
      column df "data_real_conclusao" = Some real_bruta /\
      nth_error (to_datetime prevista_bruta) i = Some prevista /\
      nth_error (to_datetime real_bruta) i = Some real /\
      cell_at df' "data_prevista_conclusao" i = Some (dt_cell prevista) /\
      cell_at df' "data_real_conclusao" i = Some (dt_cell real) /\
      cell_at df' "status_prazo" i = Some (VStr status) /\
      cell_at df' "dias_de_atraso" i = Some dias /\
      (forall r p, real = Some r -> prevista = Some p ->
         dias = VInt (Z.max 0 ((r - p) / ns_per_day)) /\
         (status = "No Prazo" -> dias = VInt 0) /\
         (r = (p + ns_per_day)%Z -> status = "Em Atraso" /\ dias = VInt 1)) /\
      (real = None -> dias = VNaN) /\
      (forall c, nth_error real_bruta i = Some c -> isna c = true ->
         dias = VNaN).
Proof.
  intros df df' i Hwf Hcalc Hi.
  destruct (calcular_metricas_row df df' i Hwf Hcalc Hi)
    as (pb & rb & p & r & Cp & Cr & Ep & Er & Hn & _ & _ & Dp & Dr & Ds & Dd & _).
  split; [exact Hn|].
  destruct (status_of_cases r p) as (status & Es & Hpend & Hlate & Hon).
  exists pb, rb, p, r, status, (dias_of r p). rewrite <- Es.
  refine (conj Cp (conj Cr (conj Ep (conj Er (conj Dp (conj Dr (conj Ds
            (conj Dd (conj _ (conj _ _)))))))))).
  - intros r0 p0 -> ->. simpl. split; [reflexivity|]. split.
    + intros Hst. f_equal.
      apply Hon in Hst. destruct Hst as (r' & Hr' & Hna). injection Hr' as <-.
      assert (r0 <= p0)%Z.
      { destruct (Z_lt_le_dec p0 r0); [|assumption].
        exfalso. apply Hna. exists p0. auto. }
      assert ((r0 - p0) / ns_per_day <= 0)%Z
        by (apply Z.div_le_upper_bound; unfold ns_per_day; lia).
      lia.
    + intros ->. split.
      * apply Hlate. exists (p0 + ns_per_day)%Z. split; [reflexivity|].
        exists p0. split; [reflexivity|]. unfold ns_per_day. lia.
      * f_equal.
        replace (p0 + ns_per_day - p0)%Z with ns_per_day by lia.
        rewrite Z.div_same by (unfold ns_per_day; lia). reflexivity.
  - intros ->. reflexivity.
  - intros c Hc Hna.
    now rewrite (missing_cell_parsed rb i c r Hc Hna Er).
Qed.

End TaskProperties.

(** * The calendar

    [civil_from_days] splits a day count into a 400-year era, the year of
    the era, and the day of that year (years starting in March); the facts
    below follow that decomposition, for every day. *)

Section Calendar.

Local Open Scope Z_scope.

Ltac split_ifs :=
  repeat match goal with
         | |- context [if ?a <? ?b then _ else _] => destruct (Z.ltb_spec a b)
         | |- context [if ?a <=? ?b then _ else _] => destruct (Z.leb_spec a b)
         end.

(** Days elapsed before year [yoe] of an era. *)
Definition year_start (yoe : Z) : Z := 365 * yoe + yoe / 4 - yoe / 100.

(** The year of the era that day [doe] of the era falls in. *)
Definition year_of_era (doe : Z) : Z :=
  (doe - doe / 1460 + doe / 36524 - doe / 146096) / 365.

(** The month, counted from March, that day [doy] of the year falls in. *)
Definition month_of_year (doy : Z) : Z := (5 * doy + 2) / 153.

(** Months counted from year 0. *)
Definition month_index (y m : Z) : Z := y * 12 + (m - 1).

Definition index_of_day (z : Z) : Z :=
  let '(y, m, _) := civil_from_days z in month_index y m.

Lemma year_of_era_bounds :
  forall doe, 0 <= doe <= 146096 ->
    0 <= year_of_era doe <= 399 /\
    0 <= doe - year_start (year_of_era doe) <= 365.
Proof.
  intros doe H. unfold year_of_era, year_start.
  Z.div_mod_to_equations; lia.
Qed.

Lemma year_of_era_monotone :
  forall a b, 0 <= a <= b -> b <= 146096 -> year_of_era a <= year_of_era b.
Proof.
  intros a b H Hb. unfold year_of_era.
  Z.div_mod_to_equations; lia.
Qed.

Lemma month_of_year_bounds :
  forall doy, 0 <= doy <= 365 ->
    0 <= month_of_year doy <= 11 /\
    1 <= doy - (153 * month_of_year doy + 2) / 5 + 1 <= 31.
Proof.
  intros doy H. unfold month_of_year. Z.div_mod_to_equations; lia.
Qed.

Lemma civil_from_days_parts :
  forall z,
    let era := (z + 719468) / 146097 in
    let doe := z + 719468 - era * 146097 in
    let yoe := year_of_era doe in
    let doy := doe - year_start yoe in
    let mp := month_of_year doy in
    civil_from_days z
    = (yoe + era * 400 + (if mp <? 10 then 0 else 1),
       (if mp <? 10 then mp + 3 else mp - 9),
       doy - (153 * mp + 2) / 5 + 1) /\
    0 <= doe <= 146096 /\ 0 <= yoe <= 399 /\ 0 <= doy <= 365 /\ 0 <= mp <= 11.
Proof.
  intros z era doe yoe doy mp.
  assert (Hdoe : 0 <= doe <= 146096)
    by (subst doe era; Z.div_mod_to_equations; lia).
  destruct (year_of_era_bounds doe Hdoe) as [Hyoe Hdoy].
  fold yoe in Hyoe, Hdoy. fold doy in Hdoy.
  destruct (month_of_year_bounds doy Hdoy) as [Hmp _]. fold mp in Hmp.
  repeat split; try lia.
  unfold civil_from_days. cbv zeta.
  fold era. fold doe. fold (year_of_era doe). fold yoe.
  fold (year_start yoe). fold doy. fold (month_of_year doy). fold mp.
  destruct (Z.ltb_spec mp 10).
  - destruct (Z.leb_spec (mp + 3) 2); [lia|]. reflexivity.
  - destruct (Z.leb_spec (mp - 9) 2); [|lia]. reflexivity.
Qed.

Lemma days_from_civil_parts :
  forall era yoe doy mp,
    0 <= yoe <= 399 -> 0 <= mp <= 11 ->
    days_from_civil (yoe + era * 400 + (if mp <? 10 then 0 else 1))
      (if mp <? 10 then mp + 3 else mp - 9)
      (doy - (153 * mp + 2) / 5 + 1)
    = era * 146097 + (year_start yoe + doy) - 719468.
Proof.
  intros era yoe doy mp Hyoe Hmp. unfold days_from_civil, year_start. cbv zeta.
  destruct (Z.ltb_spec mp 10).
  - destruct (Z.leb_spec (mp + 3) 2); [lia|].
    destruct (Z.ltb_spec 2 (mp + 3)); [|lia].
    replace (mp + 3 - 3) with mp by lia.
    replace ((yoe + era * 400 + 0) / 400) with era
      by (Z.div_mod_to_equations; lia).
    replace (yoe + era * 400 + 0 - era * 400) with yoe by lia.
    lia.
  - destruct (Z.leb_spec (mp - 9) 2); [|lia].
    destruct (Z.ltb_spec 2 (mp - 9)); [lia|].
    replace (mp - 9 + 9) with mp by lia.
    replace ((yoe + era * 400 + 1 - 1) / 400) with era
      by (Z.div_mod_to_equations; lia).
    replace (yoe + era * 400 + 1 - 1 - era * 400) with yoe by lia.
    lia.
Qed.

(** Every day count is a calendar date, and [days_from_civil] takes the
    date back to the day count. *)
Lemma civil_from_days_spec :
  forall z y m d, civil_from_days z = (y, m, d) ->
    1 <= m <= 12 /\ 1 <= d <= 31 /\ days_from_civil y m d = z.
Proof.
  intros z y m d H.
  destruct (civil_from_days_parts z) as (E & Hdoe & Hyoe & Hdoy & Hmp).
  cbv zeta in E. rewrite E in H. injection H as <- <- <-.
  destruct (month_of_year_bounds _ Hdoy) as [_ Hd].
  split; [split_ifs; lia|].
  split; [exact Hd|].
  rewrite days_from_civil_parts by assumption. lia.
Qed.

Lemma index_of_day_parts :
  forall z,
    let era := (z + 719468) / 146097 in
    let doe := z + 719468 - era * 146097 in
    let yoe := year_of_era doe in
    let mp := month_of_year (doe - year_start yoe) in
    index_of_day z = 12 * (400 * era + yoe) + mp + 2.
Proof.
  intros z era doe yoe mp. unfold index_of_day.
  destruct (civil_from_days_parts z) as (E & _). cbv zeta in E. rewrite E.
  fold era. fold doe. fold yoe. fold mp. unfold month_index.
  destruct (Z.ltb_spec mp 10); lia.
Qed.

(** A later day is in the same or a later month. *)
Lemma index_of_day_monotone :
  forall z1 z2, z1 <= z2 -> index_of_day z1 <= index_of_day z2.
Proof.
  intros z1 z2 H. rewrite !index_of_day_parts. cbv zeta.
  destruct (civil_from_days_parts z1) as (_ & Hdoe1 & Hyoe1 & Hdoy1 & Hmp1).
  destruct (civil_from_days_parts z2) as (_ & Hdoe2 & Hyoe2 & Hdoy2 & Hmp2).
  cbv zeta in *.
  set (era1 := (z1 + 719468) / 146097) in *.
  set (era2 := (z2 + 719468) / 146097) in *.
  set (doe1 := z1 + 719468 - era1 * 146097) in *.
  set (doe2 := z2 + 719468 - era2 * 146097) in *.
  assert (Hera : era1 <= era2) by (apply Z.div_le_mono; lia).
  destruct (Z.eq_dec era1 era2) as [Ee|Ene]; [|lia].
  assert (Hdoe : doe1 <= doe2) by (subst doe1 doe2; rewrite Ee; lia).
  pose proof (year_of_era_monotone doe1 doe2 (conj (proj1 Hdoe1) Hdoe)
                (proj2 Hdoe2)) as Hy.
  destruct (Z.eq_dec (year_of_era doe1) (year_of_era doe2)) as [Ey|Eny]; [|lia].
  rewrite Ey in *. rewrite Ee.
  assert (month_of_year (doe1 - year_start (year_of_era doe2))
          <= month_of_year (doe2 - year_start (year_of_era doe2)))
    by (unfold month_of_year; apply Z.div_le_mono; lia).
  lia.
Qed.

(** *** Over the datetime64[ns] range: 1677-09-21 to 2262-04-11 *)

Definition first_day : Z := -106752.
Definition last_day : Z := 106751.

Lemma day_of_timestamp :
  forall t, ts_min <= t <= ts_max -> first_day <= t / ns_per_day <= last_day.
Proof.
  intros t [H1 H2]. unfold ts_min, ts_max, ns_per_day, first_day, last_day in *.
  split.
  - apply Z.div_le_lower_bound; lia.
  - assert (t / (86400 * 10 ^ 9) < 106752)
      by (apply Z.div_lt_upper_bound; lia).
    lia.
Qed.

Lemma civil_of_day :
  forall z, first_day <= z <= last_day ->
    exists y m d,
      civil_from_days z = (y, m, d) /\ days_from_civil y m d = z /\
      1677 <= y <= 2262 /\ 1 <= m <= 12 /\ 1 <= d <= 31.
Proof.
  intros z [Hlo Hhi].
  destruct (civil_from_days z) as [[y m] d] eqn:E.
  destruct (civil_from_days_spec z y m d E) as (Hm & Hd & Hback).
  pose proof (index_of_day_monotone first_day z Hlo) as H1.
  pose proof (index_of_day_monotone z last_day Hhi) as H2.
  unfold index_of_day in H1 at 2. unfold index_of_day in H2 at 1.
  rewrite E in H1, H2.
  change (index_of_day first_day) with (1677 * 12 + 8) in H1.
  change (index_of_day last_day) with (2262 * 12 + 3) in H2.
  unfold month_index in H1, H2.
  exists y, m, d. repeat split; try assumption; lia.
Qed.

(** *** Month keys as strings *)

Definition key_of_index (i : Z) : string :=
  zero_padded 4 (i / 12) ++ "-" ++ zero_padded 2 (i mod 12 + 1).

Definition key_step_ok (i : Z) : bool :=
  String.leb (key_of_index i) (key_of_index (i + 1)).

(** [f] holds on the [2 ^ depth] integers from [lo]. *)
Fixpoint all_between (f : Z -> bool) (depth : nat) (lo : Z) : bool :=
  match depth with
  | O => f lo
  | S d => all_between f d lo && all_between f d (lo + 2 ^ Z.of_nat d)
  end.

Lemma all_between_spec :
  forall f depth lo,
    all_between f depth lo = true ->
    forall z, (lo <= z < lo + 2 ^ Z.of_nat depth)%Z -> f z = true.
Proof.
  intros f. induction depth as [|d IH]; intros lo H z Hz.
  - simpl in *. replace z with lo by lia. exact H.
  - cbn [all_between] in H. apply andb_true_iff in H. destruct H as [H1 H2].
    rewrite Nat2Z.inj_succ, Z.pow_succ_r in Hz by lia.
    destruct (Z_lt_le_dec z (lo + 2 ^ Z.of_nat d)).
    + apply (IH lo H1). lia.
    + apply (IH _ H2). lia.
Qed.

Lemma key_steps_checked : all_between key_step_ok 13 (1677 * 12) = true.
Proof. vm_cast_no_check (eq_refl true). Qed.

Lemma string_leb_iff :
  forall a b, String.leb a b = true <-> a = b \/ String_as_OT.lt a b.
Proof.
  intros a b. unfold String.leb.
  change (String.compare a b) with (String_as_OT.compare a b).
  destruct (String_as_OT.compare_spec a b) as [H|H|H].
  - split; auto.
  - split; auto.
  - split; [discriminate|].
    intros [->|H']; exfalso.
    + exact (StrictOrder_Irreflexive _ H).
    + exact (StrictOrder_Irreflexive _ (StrictOrder_Transitive _ _ _ H H')).
Qed.

Lemma string_leb_trans :
  forall a b c, String.leb a b = true -> String.leb b c = true ->
    String.leb a c = true.
Proof.
  intros a b c Hab Hbc.
  apply string_leb_iff in Hab. apply string_leb_iff in Hbc. apply string_leb_iff.
  destruct Hab as [->|Hab]; [assumption|].
  destruct Hbc as [<-|Hbc]; [now right|].
  right. exact (StrictOrder_Transitive _ _ _ Hab Hbc).
Qed.

Lemma key_of_index_monotone :
  forall n i, (1677 * 12 <= i)%Z -> (i + Z.of_nat n <= 2263 * 12)%Z ->
    String.leb (key_of_index i) (key_of_index (i + Z.of_nat n)) = true.
Proof.
  induction n as [|n IH]; intros i Hlo Hhi.
  - replace (i + Z.of_nat 0)%Z with i by lia.
    apply string_leb_iff. now left.
  - apply (string_leb_trans _ (key_of_index (i + Z.of_nat n))).
    + apply IH; lia.
    + replace (i + Z.of_nat (S n))%Z with (i + Z.of_nat n + 1)%Z by lia.
      apply (all_between_spec key_step_ok 13 (1677 * 12) key_steps_checked).
      change (2 ^ Z.of_nat 13)%Z with 8192%Z. lia.
Qed.

Lemma key_of_month_index :
  forall y m, (1 <= m <= 12)%Z ->
    key_of_index (month_index y m) = zero_padded 4 y ++ "-" ++ zero_padded 2 m.
Proof.
  intros y m Hm. unfold key_of_index, month_index.
  replace ((y * 12 + (m - 1)) / 12)%Z with y
    by (apply (Z.div_unique _ 12 y (m - 1)); lia).
  replace ((y * 12 + (m - 1)) mod 12 + 1)%Z with m
    by (rewrite <- (Z.mod_unique (y * 12 + (m - 1)) 12 y (m - 1)); lia).
  reflexivity.
Qed.

Lemma period_str_index :
  forall t, (ts_min <= t <= ts_max)%Z ->
    period_str t = key_of_index (index_of_day (t / ns_per_day)) /\
    (1677 * 12 <= index_of_day (t / ns_per_day) < 2263 * 12)%Z.
Proof.
  intros t Ht.
  destruct (civil_of_day _ (day_of_timestamp t Ht))
    as (y & m & d & Ec & _ & Hy & Hm & _).
  unfold period_str, index_of_day. rewrite Ec. split.
  - now rewrite key_of_month_index.
  - unfold month_index. lia.
Qed.

(** The month keys sort as the timestamps do. *)
Lemma period_str_sortable :
  forall t1 t2,
    (ts_min <= t1)%Z -> (t1 <= t2)%Z -> (t2 <= ts_max)%Z ->
    String.leb (period_str t1) (period_str t2) = true.
Proof.
  intros t1 t2 H1 H12 H2.
  assert (Hb1 : (ts_min <= t1 <= ts_max)%Z) by lia.
  assert (Hb2 : (ts_min <= t2 <= ts_max)%Z) by lia.
  pose proof (day_of_timestamp t1 Hb1) as Hz1.
  pose proof (day_of_timestamp t2 Hb2) as Hz2.
  destruct (period_str_index t1 Hb1) as [-> Hi1].
  destruct (period_str_index t2 Hb2) as [-> Hi2].
  assert (Hle : (t1 / ns_per_day <= t2 / ns_per_day)%Z)
    by (apply Z.div_le_mono; [unfold ns_per_day; lia | exact H12]).
  assert (Hidx : (index_of_day (t1 / ns_per_day) <= index_of_day (t2 / ns_per_day))%Z)
    by (apply index_of_day_monotone; exact Hle).
  replace (index_of_day (t2 / ns_per_day))
    with (index_of_day (t1 / ns_per_day)
          + Z.of_nat (Z.to_nat (index_of_day (t2 / ns_per_day)
                                - index_of_day (t1 / ns_per_day))))%Z by lia.
  apply key_of_index_monotone; lia.
Qed.

End Calendar.

(** * The classifier *)

Section Classifier.

Lemma prefix_spec :
  forall kw text,
    String.prefix kw text = true <-> exists post, text = kw ++ post.
Proof.
  induction kw as [|c kw IH]; intros text.
  - split; [intros _; now exists text | intros _; now destruct text].
  - destruct text as [|c' text]; cbn [String.prefix].
    + split; [discriminate | intros (post & H); discriminate].
    + destruct (ascii_dec c c') as [<-|Hne].
      * rewrite IH. split.
        -- intros (post & ->). now exists post.
        -- intros (post & H). injection H as ->. now exists post.
      * split; [discriminate|].
        intros (post & H). injection H as <- _. congruence.
Qed.

(** [contains kw text] is Python's [kw in text]: [kw] occurs in [text]. *)
Lemma contains_spec :
  forall kw text,
    contains kw text = true <-> exists pre post, text = pre ++ kw ++ post.
Proof.
  intros kw text. induction text as [|c text IH]; cbn [contains].
  - destruct (String.prefix kw "") eqn:E.
    + split; [|reflexivity]. intros _.
      apply prefix_spec in E. destruct E as (post & E).
      now exists "", post.
    + split; [discriminate|]. intros (pre & post & H).
      destruct pre; simpl in H; [|discriminate].
      assert (String.prefix kw "" = true) by (apply prefix_spec; now exists post).
      congruence.
  - destruct (String.prefix kw (String c text)) eqn:E.
    + split; [|reflexivity]. intros _.
      apply prefix_spec in E. destruct E as (post & E).
      now exists "", post.
    + rewrite IH. split.
      * intros (pre & post & ->). now exists (String c pre), post.
      * intros (pre & post & H). destruct pre as [|c' pre]; simpl in H.
        -- assert (String.prefix kw (String c text) = true)
             by (apply prefix_spec; now exists post).
           congruence.
        -- injection H as _ ->. now exists pre, post.
Qed.

Lemma any_in_spec :
  forall keywords text,
    any_in keywords text = true <->
    exists kw pre post, In kw keywords /\ text = pre ++ kw ++ post.
Proof.
  intros keywords text. unfold any_in. rewrite existsb_exists. split.
  - intros (kw & Hin & Hc). apply contains_spec in Hc.
    destruct Hc as (pre & post & ->). now exists kw, pre, post.
  - intros (kw & pre & post & Hin & ->). exists kw. split; [exact Hin|].
    apply contains_spec. now exists pre, post.
Qed.

Context {env : Pandas}.

(** C6.  The classifier is a function to the four categories: the result is
    one of the four distinct labels, decided on the lowercased text of the
    name by testing the fiscal keywords first, then the accounting ones,
    then the payroll ones; no match gives Outros.  A keyword matches when it
    occurs in the lowercased text, and a text with both a fiscal and a
    payroll keyword is Fiscal. *)
Theorem categorizar_tarefa_priority :
  forall nome_tarefa,
    let texto := str_lower (py_str nome_tarefa) in
    let categoria := categorizar_tarefa nome_tarefa in
    In categoria categorias /\ NoDup categorias /\
    (categoria = "Fiscal" <-> any_in fiscal_keywords texto = true) /\
    (categoria = "Contábil" <->
       any_in fiscal_keywords texto = false /\
       any_in contabil_keywords texto = true) /\
    (categoria = "Depto. Pessoal" <->
       any_in fiscal_keywords texto = false /\
       any_in contabil_keywords texto = false /\
       any_in pessoal_keywords texto = true) /\
    (categoria = "Outros" <->
       any_in fiscal_keywords texto = false /\
       any_in contabil_keywords texto = false /\
       any_in pessoal_keywords texto = false) /\
    (forall keywords,
       any_in keywords texto = true <->
       exists kw pre post, In kw keywords /\ texto = pre ++ kw ++ post) /\
    (any_in fiscal_keywords texto = true ->
     any_in pessoal_keywords texto = true -> categoria = "Fiscal").
Proof.
  intros nome_tarefa texto categoria.
  assert (Hnd : NoDup categorias).
  { unfold categorias. repeat constructor; simpl; intuition discriminate. }
  subst categoria. unfold categorizar_tarefa. fold texto.
  destruct (any_in fiscal_keywords texto) eqn:Ef;
    [|destruct (any_in contabil_keywords texto) eqn:Ec;
      [|destruct (any_in pessoal_keywords texto) eqn:Ep]];
    (split; [simpl; tauto|]); (split; [exact Hnd|]);
    repeat split; try discriminate; try tauto; try congruence;
    try (intros (? & ?); discriminate);
    try (intros (? & ? & ?); discriminate);
    try (apply any_in_spec).
Qed.

(** On a text the classifier looks at the lowercased text itself. *)
Lemma categorizar_tarefa_text :
  forall s,
    categorizar_tarefa (VStr s)
    = (let texto := str_lower s in
       if any_in fiscal_keywords texto then "Fiscal"
       else if any_in contabil_keywords texto then "Contábil"
       else if any_in pessoal_keywords texto then "Depto. Pessoal"
       else "Outros").
Proof. intros s. unfold categorizar_tarefa. now rewrite py_str_str. Qed.

End Classifier.

Example categorizar_envio_dctf :
  categorizar_tarefa (VStr "Envio DCTF") = "Fiscal".
Proof. reflexivity. Qed.

Example categorizar_fiscal_before_payroll :
  categorizar_tarefa (VStr "DAS sobre a folha") = "Fiscal".
Proof. reflexivity. Qed.

Example categorizar_conciliacao :
  categorizar_tarefa (VStr "Conciliação bancária") = "Contábil".
Proof. reflexivity. Qed.

Example categorizar_missing_name :
  categorizar_tarefa VNaN = "Outros".
Proof. reflexivity. Qed.

(** * Checking well-formedness by computation *)

Fixpoint distinct (l : list string) : bool :=
  match l with
  | [] => true
  | x :: rest => negb (existsb (String.eqb x) rest) && distinct rest
  end.

Definition well_formedb (df : DataFrame) : bool :=
  distinct (labels df)
  && forallb (fun p => (length (snd p) =? nrows df)%nat) (columns df).

Lemma distinct_NoDup : forall l, distinct l = true -> NoDup l.
Proof.
  induction l as [|x l IH]; simpl; intros H; constructor;
    apply andb_true_iff in H; destruct H as [Hx Hl]; auto.
  intros Hin. apply negb_true_iff in Hx.
  assert (existsb (String.eqb x) l = true); [|congruence].
  apply existsb_exists. exists x. split; [exact Hin | apply String.eqb_refl].
Qed.

Lemma well_formedb_sound : forall df, well_formedb df = true -> well_formed df.
Proof.
  intros df H. apply andb_true_iff in H. destruct H as [Hd Hr]. split.
  - now apply distinct_NoDup.
  - unfold rectangular. apply Forall_forall. intros p Hp.
    rewrite forallb_forall in Hr. now apply Nat.eqb_eq, Hr.
Qed.

(** * A worked frame

    A G-Click export of four tasks: one late by five days, one still open,
    one completed on its due date, and one whose due date does not parse. *)

Definition exemplo_gclick : DataFrame :=
  mkFrame 4
    [ ("Task ID", [VStr "T1"; VStr "T2"; VStr "T3"; VStr "T4"]);
      ("Task Name", [VStr "Envio DCTF"; VStr "Folha de pagamento";
                     VStr "Balancete mensal"; VStr "Visita ao cliente"]);
      ("Client Name", [VStr "Acme"; VStr "Acme"; VStr "Beta"; VStr "Beta"]);
      ("Assignee", [VStr "Ana"; VStr "Bia"; VStr "Ana"; VStr "Caio"]);
      ("Due Date", [VStr "2024-01-10"; VStr "2024-01-10"; VStr "2024-02-05";
                    VStr "a definir"]);
      ("Completion Date", [VStr "2024-01-15"; VNaN; VStr "2024-02-05";
                           VStr "2024-03-01"]) ].

Definition exemplo_padronizado : DataFrame := padronizar_gclick exemplo_gclick.

Definition exemplo_analise : DataFrame :=
  mkFrame 4
    [ ("id_tarefa", [VStr "T1"; VStr "T2"; VStr "T3"; VStr "T4"]);
      ("nome_tarefa", [VStr "Envio DCTF"; VStr "Folha de pagamento";
                       VStr "Balancete mensal"; VStr "Visita ao cliente"]);
      ("cliente", [VStr "Acme"; VStr "Acme"; VStr "Beta"; VStr "Beta"]);
      ("responsavel", [VStr "Ana"; VStr "Bia"; VStr "Ana"; VStr "Caio"]);
      ("data_prevista_conclusao",
       [VTime 1704844800000000000; VTime 1704844800000000000;
        VTime 1707091200000000000; VNaT]);
      ("data_real_conclusao",
       [VTime 1705276800000000000; VNaT; VTime 1707091200000000000;
        VTime 1709251200000000000]);
      ("origem_ferramenta",
       [VStr "G-Click"; VStr "G-Click"; VStr "G-Click"; VStr "G-Click"]);
      ("status_prazo",
       [VStr "Em Atraso"; VStr "Pendente"; VStr "No Prazo"; VStr "No Prazo"]);
      ("dias_de_atraso", [VInt 5; VNaN; VInt 0; VNaN]);
      ("tipo_tarefa",
       [VStr "Fiscal"; VStr "Depto. Pessoal"; VStr "Contábil"; VStr "Outros"]);
      ("mes_conclusao",
       [VStr "2024-01"; VStr "NaT"; VStr "2024-02"; VStr "2024-03"]) ].

Lemma exemplo_padronizado_well_formed : well_formed exemplo_padronizado.
Proof. apply well_formedb_sound. reflexivity. Qed.

Lemma exemplo_analise_computed :
  calcular_metricas exemplo_padronizado = Ok exemplo_analise.
Proof. vm_compute. reflexivity. Qed.

(** The first task: due 2024-01-10, completed 2024-01-15. *)
Example envio_dctf_late_by_five_days :
  cell_at exemplo_analise "tipo_tarefa" 0 = Some (VStr "Fiscal") /\
  cell_at exemplo_analise "status_prazo" 0 = Some (VStr "Em Atraso") /\
  cell_at exemplo_analise "dias_de_atraso" 0 = Some (VInt 5) /\
  cell_at exemplo_analise "mes_conclusao" 0 = Some (VStr "2024-01").
Proof. repeat split. Qed.

Lemma deadline_status_iff_witness :
  well_formed exemplo_padronizado /\
  calcular_metricas exemplo_padronizado = Ok exemplo_analise /\
  (2 < nrows exemplo_padronizado)%nat /\
  nrows exemplo_analise = nrows exemplo_padronizado /\
  exists prevista_bruta real_bruta prevista real status,
    column exemplo_padronizado "data_prevista_conclusao" = Some prevista_bruta /\
    column exemplo_padronizado "data_real_conclusao" = Some real_bruta /\
    nth_error (to_datetime prevista_bruta) 2 = Some prevista /\
    nth_error (to_datetime real_bruta) 2 = Some real /\
    cell_at exemplo_analise "data_prevista_conclusao" 2 = Some (dt_cell prevista) /\
    cell_at exemplo_analise "data_real_conclusao" 2 = Some (dt_cell real) /\
    cell_at exemplo_analise "status_prazo" 2 = Some (VStr status) /\
    (status = "Pendente" <-> real = None) /\
    (status = "Em Atraso" <-> exists r, real = Some r /\ after r prevista) /\
    (status = "No Prazo" <-> exists r, real = Some r /\ ~ after r prevista) /\
    (real <> None -> real = prevista -> status = "No Prazo") /\
    (forall c, nth_error real_bruta 2 = Some c -> isna c = true ->
       status = "Pendente").
Proof.
  refine (conj exemplo_padronizado_well_formed
            (conj exemplo_analise_computed (conj _ _))).
  - simpl. lia.
  - apply (deadline_status_iff exemplo_padronizado exemplo_analise 2
             exemplo_padronizado_well_formed exemplo_analise_computed).
    simpl. lia.
Defined.

Lemma delay_days_value_witness :
  well_formed exemplo_padronizado /\
  calcular_metricas exemplo_padronizado = Ok exemplo_analise /\
  (0 < nrows exemplo_padronizado)%nat /\
  nrows exemplo_analise = nrows exemplo_padronizado /\
  exists prevista_bruta real_bruta prevista real status dias,
    column exemplo_padronizado "data_prevista_conclusao" = Some prevista_bruta /\
    column exemplo_padronizado "data_real_conclusao" = Some real_bruta /\
    nth_error (to_datetime prevista_bruta) 0 = Some prevista /\
    nth_error (to_datetime real_bruta) 0 = Some real /\
    cell_at exemplo_analise "data_prevista_conclusao" 0 = Some (dt_cell prevista) /\
    cell_at exemplo_analise "data_real_conclusao" 0 = Some (dt_cell real) /\
    cell_at exemplo_analise "status_prazo" 0 = Some (VStr status) /\
    cell_at exemplo_analise "dias_de_atraso" 0 = Some dias /\
    (forall r p, real = Some r -> prevista = Some p ->
       dias = VInt (Z.max 0 ((r - p) / ns_per_day)) /\
       (status = "No Prazo" -> dias = VInt 0) /\
       (r = (p + ns_per_day)%Z -> status = "Em Atraso" /\ dias = VInt 1)) /\
    (real = None -> dias = VNaN) /\
    (forall c, nth_error real_bruta 0 = Some c -> isna c = true ->
       dias = VNaN).
Proof.
  refine (conj exemplo_padronizado_well_formed
            (conj exemplo_analise_computed (conj _ _))).
  - simpl. lia.
  - apply (delay_days_value exemplo_padronizado exemplo_analise 0
             exemplo_padronizado_well_formed exemplo_analise_computed).
    simpl. lia.
Defined.

(** * The completion month *)

Lemma string_length_append :
  forall a b, String.length (a ++ b) = (String.length a + String.length b)%nat.
Proof. induction a as [|c a IH]; intros b; simpl; auto. Qed.

Lemma length_zero_padded : forall width z, String.length (zero_padded width z) = width.
Proof.
  induction width as [|w IH]; intros z; simpl; [reflexivity|].
  rewrite string_length_append, IH. simpl. lia.
Qed.

Lemma analysed_month {env : Pandas} :
  forall df prevista real j t,
    analysed df prevista real ->
    cell_at df "data_real_conclusao" j = Some (VTime t) ->
    (ts_min <= t <= ts_max)%Z /\
    cell_at df "mes_conclusao" j = Some (VStr (period_str t)).
Proof.
  intros df prevista real j t Han H.
  unfold cell_at in *. rewrite (an_real _ _ _ Han) in H.
  rewrite (an_mes _ _ _ Han).
  rewrite nth_error_map in H.
  destruct (nth_error real j) as [[r|]|] eqn:E; simpl in H; try discriminate.
  injection H as ->. split.
  - exact (proj1 (Forall_forall _ _) (an_real_bounds _ _ _ Han) _ (nth_error_In _ _ E)).
  - now rewrite (map_nth_error mes_str _ _ E).
Qed.

Section CompletionMonth.

Context {env : Pandas}.

(** C4, as the code has it.  The completion month [calcular_metricas] gives
    task [i] is determined by the completion date of that task in the frame
    it is given, as [pd.to_datetime] parses it.  When the date is present
    the month is the key YYYY-MM (seven characters, a text and not a missing
    value) of the calendar year and month of that date, and the keys of two
    tasks compare as their completion dates do.  When the date is absent (a
    missing completion cell in the input, for one) the month is what
    [astype(str)] makes of a missing period: the text NaT, which is not a
    missing value, up to pandas 2, and a missing value from pandas 3 on. *)
Theorem completion_month_value :
  forall df df' i,
    well_formed df -> calcular_metricas df = Ok df' -> (i < nrows df)%nat ->
    nrows df' = nrows df /\
    exists real_bruta real mes,
      column df "data_real_conclusao" = Some real_bruta /\
      nth_error (to_datetime real_bruta) i = Some real /\
      cell_at df' "data_real_conclusao" i = Some (dt_cell real) /\
      cell_at df' "mes_conclusao" i = Some mes /\
      (forall t, real = Some t ->
         exists y m d,
           civil_from_days (t / ns_per_day) = (y, m, d) /\
           days_from_civil y m d = (t / ns_per_day)%Z /\
           (0 <= y <= 9999)%Z /\ (1 <= m <= 12)%Z /\
           mes = VStr (zero_padded 4 y ++ "-" ++ zero_padded 2 m) /\
           String.length (zero_padded 4 y ++ "-" ++ zero_padded 2 m) = 7%nat /\
           isna mes = false) /\
      (forall t j t' mes',
         real = Some t ->
         cell_at df' "data_real_conclusao" j = Some (VTime t') ->
         cell_at df' "mes_conclusao" j = Some (VStr mes') ->
         (t <= t')%Z ->
         exists key, mes = VStr key /\ String.leb key mes' = true) /\
      (real = None ->
         mes = astype_str_na /\
         (mes = VStr "NaT" \/ mes = VNaN) /\
         (isna mes = true <-> astype_str_na = VNaN) /\
         (isna mes = false <-> astype_str_na = VStr "NaT")) /\
      (forall c, nth_error real_bruta i = Some c -> isna c = true ->
         real = None).
Proof.
  intros df df' i Hwf Hcalc Hi.
  destruct (calcular_metricas_row df df' i Hwf Hcalc Hi)
    as (pb & rb & p & r & _ & Cr & _ & Er & Hn & Han & Hb & _ & Dr & _ & _ & Dm).
  split; [exact Hn|].
  exists rb, r, (mes_str r).
  refine (conj Cr (conj Er (conj Dr (conj Dm (conj _ (conj _ (conj _ _))))))).
  - intros t ->.
    destruct (civil_of_day _ (day_of_timestamp t Hb))
      as (y & m & d & Ec & Ed & Hy & Hm & _).
    exists y, m, d. cbn [mes_str]. unfold period_str. rewrite Ec.
    refine (conj eq_refl (conj Ed (conj _ (conj Hm (conj eq_refl (conj _ eq_refl)))))).
    + lia.
    + rewrite !string_length_append, !length_zero_padded. reflexivity.
  - intros t j t' mes' -> Hj Hmes Hle.
    destruct (analysed_month _ _ _ _ _ Han Hj) as [Hb' Hm'].
    rewrite Hm' in Hmes. injection Hmes as <-.
    exists (period_str t). split; [reflexivity|].
    apply period_str_sortable; [apply Hb | exact Hle | apply Hb'].
  - intros ->. cbn [mes_str]. split; [reflexivity|].
    split; [exact astype_str_na_cases|].
    destruct astype_str_na_cases as [E|E]; rewrite E; simpl;
      split; split; intros H; try reflexivity; discriminate.
  - intros c Hc Hna. exact (missing_cell_parsed rb i c r Hc Hna Er).
Qed.

(** A task whose completion cell is missing in the frame the engine is given
    gets no completion date and, as its month, what [astype(str)] makes of
    a missing period. *)
Lemma open_task_month :
  forall df df' i c,
    well_formed df -> calcular_metricas df = Ok df' ->
    cell_at df "data_real_conclusao" i = Some c -> isna c = true ->
    cell_at df' "data_real_conclusao" i = Some VNaT /\
    cell_at df' "mes_conclusao" i = Some astype_str_na.
Proof.
  intros df df' i c Hwf Hcalc Hcell Hna.
  destruct (calcular_metricas_reads df df' Hcalc)
    as (pb & rb & nomes & atraso & Ep & Er & En & Es & ->).
  unfold cell_at in Hcell. rewrite (getitem_column _ _ _ Er) in Hcell.
  pose proof (to_datetime_missing rb i c Hcell Hna) as Hnone.
  unfold cell_at, written, setitem_scalar. split.
  - peel. rewrite column_setitem_same.
    now rewrite (map_nth_error dt_cell _ _ Hnone).
  - rewrite column_setitem_same.
    now rewrite (map_nth_error mes_str _ _ Hnone).
Qed.

End CompletionMonth.

Lemma completion_month_value_witness :
  well_formed exemplo_padronizado /\
  calcular_metricas exemplo_padronizado = Ok exemplo_analise /\
  (0 < nrows exemplo_padronizado)%nat /\
  nrows exemplo_analise = nrows exemplo_padronizado /\
  exists real_bruta real mes,
    column exemplo_padronizado "data_real_conclusao" = Some real_bruta /\
    nth_error (to_datetime real_bruta) 0 = Some real /\
    cell_at exemplo_analise "data_real_conclusao" 0 = Some (dt_cell real) /\
    cell_at exemplo_analise "mes_conclusao" 0 = Some mes /\
    (forall t, real = Some t ->
       exists y m d,
         civil_from_days (t / ns_per_day) = (y, m, d) /\
         days_from_civil y m d = (t / ns_per_day)%Z /\
         (0 <= y <= 9999)%Z /\ (1 <= m <= 12)%Z /\
         mes = VStr (zero_padded 4 y ++ "-" ++ zero_padded 2 m) /\
         String.length (zero_padded 4 y ++ "-" ++ zero_padded 2 m) = 7%nat /\
         isna mes = false) /\
    (forall t j t' mes',
       real = Some t ->
       cell_at exemplo_analise "data_real_conclusao" j = Some (VTime t') ->
       cell_at exemplo_analise "mes_conclusao" j = Some (VStr mes') ->
       (t <= t')%Z ->
       exists key, mes = VStr key /\ String.leb key mes' = true) /\
    (real = None ->
       mes = astype_str_na /\
       (mes = VStr "NaT" \/ mes = VNaN) /\
       (isna mes = true <-> astype_str_na = VNaN) /\
       (isna mes = false <-> astype_str_na = VStr "NaT")) /\
    (forall c, nth_error real_bruta 0 = Some c -> isna c = true ->
       real = None).
Proof.
  refine (conj exemplo_padronizado_well_formed
            (conj exemplo_analise_computed (conj _ _))).
  - simpl. lia.
  - apply (completion_month_value exemplo_padronizado exemplo_analise 0
             exemplo_padronizado_well_formed exemplo_analise_computed).
    simpl. lia.
Defined.

(** The environment [ascii_iso] with the [astype(str)] of pandas 3. *)
Definition ascii_iso_pandas3 : Pandas := {|
  py_str := str_cell;
  py_str_str := fun s => eq_refl;
  str_lower := lower_ascii;
  to_datetime := map parse_cell;
  to_datetime_length := fun s => length_map parse_cell s;
  to_datetime_bounds := parse_cells_bounds;
  to_datetime_parsed := parse_cells_parsed;
  to_datetime_missing := parse_cells_missing;
  astype_str_na := VNaN;
  astype_str_na_cases := or_intror eq_refl
|}.

(** With the [astype(str)] of pandas 3 the open task of the worked frame
    (row 1) has a missing completion month, as C4 states. *)
Lemma open_task_month_missing_pandas3 :
  exists df_analise,
    @calcular_metricas ascii_iso_pandas3 exemplo_padronizado = Ok df_analise /\
    cell_at df_analise "data_real_conclusao" 1 = Some VNaT /\
    cell_at df_analise "mes_conclusao" 1 = Some VNaN.
Proof.
  eexists. split; [vm_compute; reflexivity|]. split; reflexivity.
Qed.

(** C4 as stated fails with the [astype(str)] of pandas 2 (the environment
    [ascii_iso]): the open task of the worked frame (row 1) has no
    completion date, yet its completion month is present, the text NaT,
    which is not a missing value. *)
Lemma completion_month_not_absent :
  @astype_str_na ascii_iso = VStr "NaT" /\
  @calcular_metricas ascii_iso exemplo_padronizado = Ok exemplo_analise /\
  cell_at exemplo_padronizado "data_real_conclusao" 1 = Some VNaN /\
  cell_at exemplo_analise "data_real_conclusao" 1 = Some VNaT /\
  cell_at exemplo_analise "mes_conclusao" 1 = Some (VStr "NaT") /\
  isna (VStr "NaT") = false.
Proof.
  split; [reflexivity|]. split; [exact exemplo_analise_computed|]. repeat split.
Qed.

(** * What the metrics engine leaves alone *)

Section Frame.

Context {env : Pandas}.

(** C9, as the code has it.  [calcular_metricas] keeps the number of tasks
    and leaves every column other than the six it writes as it was, in
    particular the id, name, client, assignee and source tool of every task.
    The two date columns are overwritten with their parsed values (a
    timestamp or NaT); a date column that already holds parsed dates is
    unchanged.  The four derived columns are present afterwards. *)
Theorem calcular_metricas_frame :
  forall df df',
    calcular_metricas df = Ok df' ->
    nrows df' = nrows df /\
    (forall c, ~ In c written_labels -> column df' c = column df c) /\
    column df' "id_tarefa" = column df "id_tarefa" /\
    column df' "nome_tarefa" = column df "nome_tarefa" /\
    column df' "cliente" = column df "cliente" /\
    column df' "responsavel" = column df "responsavel" /\
    column df' "origem_ferramenta" = column df "origem_ferramenta" /\
    (exists prevista_bruta real_bruta,
       column df "data_prevista_conclusao" = Some prevista_bruta /\
       column df "data_real_conclusao" = Some real_bruta /\
       column df' "data_prevista_conclusao"
       = Some (map dt_cell (to_datetime prevista_bruta)) /\
       column df' "data_real_conclusao"
       = Some (map dt_cell (to_datetime real_bruta))) /\
    (forall c datas,
       In c ["data_prevista_conclusao"; "data_real_conclusao"] ->
       Forall in_bounds datas -> column df c = Some (map dt_cell datas) ->
       column df' c = column df c) /\
    (forall c, In c ["status_prazo"; "dias_de_atraso"; "tipo_tarefa"; "mes_conclusao"] ->
       column df' c <> None).
Proof.
  intros df df' H.
  destruct (calcular_metricas_keeps df df' H)
    as (Hkeep & pb & rb & Ep & Er & Hp & Hr).
  split.
  { destruct (calcular_metricas_reads df df' H)
      as (? & ? & ? & ? & _ & _ & _ & _ & ->). apply nrows_written. }
  split; [exact Hkeep|].
  repeat (split; [apply Hkeep; simpl; intuition discriminate|]).
  split; [now exists pb, rb|].
  split.
  - intros c datas Hc Hb Hcol. simpl in Hc.
    destruct Hc as [<-|[<-|[]]].
    + rewrite Hp, Hcol. rewrite Ep in Hcol. injection Hcol as ->.
      now rewrite to_datetime_parsed.
    + rewrite Hr, Hcol. rewrite Er in Hcol. injection Hcol as ->.
      now rewrite to_datetime_parsed.
  - intros c Hc. simpl in Hc.
    destruct (calcular_metricas_reads df df' H)
      as (? & ? & ? & ? & _ & _ & _ & _ & ->).
    unfold written, setitem_scalar.
    destruct Hc as [<-|[<-|[<-|[<-|[]]]]].
    + peel. rewrite !column_loc_set_same, column_setitem_same. discriminate.
    + peel. rewrite column_loc_set_same, column_setitem_same. discriminate.
    + peel. rewrite column_setitem_same. discriminate.
    + rewrite column_setitem_same. discriminate.
Qed.

End Frame.

Lemma calcular_metricas_frame_witness :
  calcular_metricas exemplo_padronizado = Ok exemplo_analise /\
  column exemplo_analise "responsavel" = column exemplo_padronizado "responsavel" /\
  column exemplo_analise "origem_ferramenta"
  = column exemplo_padronizado "origem_ferramenta".
Proof.
  split; [exact exemplo_analise_computed|].
  pose proof (calcular_metricas_frame exemplo_padronizado exemplo_analise
                exemplo_analise_computed) as H.
  split; [apply H | apply H].
Defined.

(** C9 as stated fails on the due date: the text of row 3 of the worked
    frame does not parse, and the engine overwrites it with NaT. *)
Lemma due_date_overwritten :
  calcular_metricas exemplo_padronizado = Ok exemplo_analise /\
  cell_at exemplo_padronizado "data_prevista_conclusao" 3 = Some (VStr "a definir") /\
  cell_at exemplo_analise "data_prevista_conclusao" 3 = Some VNaT /\
  column exemplo_analise "data_prevista_conclusao"
  <> column exemplo_padronizado "data_prevista_conclusao".
Proof.
  split; [exact exemplo_analise_computed|].
  repeat split. discriminate.
Qed.

(** The same in every environment: a date given as text never stays as it
    was, since the column read back holds timestamps and NaT only. *)
Lemma date_text_replaced :
  forall (env : Pandas) df df' c i s,
    In c ["data_prevista_conclusao"; "data_real_conclusao"] ->
    calcular_metricas df = Ok df' ->
    cell_at df c i = Some (VStr s) ->
    exists d, cell_at df' c i = Some (dt_cell d) /\ dt_cell d <> VStr s.
Proof.
  intros env df df' c i s Hc Hcalc Hcell.
  destruct (calcular_metricas_keeps df df' Hcalc)
    as (_ & pb & rb & Ep & Er & Ep' & Er').
  assert (H : exists raw, column df c = Some raw /\
                column df' c = Some (map dt_cell (to_datetime raw))).
  { simpl in Hc. destruct Hc as [<-|[<-|[]]]; eauto. }
  destruct H as (raw & Eraw & Eraw').
  unfold cell_at in *. rewrite Eraw in Hcell. rewrite Eraw'.
  destruct (nth_error (to_datetime raw) i) as [d|] eqn:Ed.
  - exists d. split; [now apply map_nth_error|]. now destruct d.
  - exfalso. apply nth_error_None in Ed. rewrite to_datetime_length in Ed.
    apply nth_error_None in Ed. congruence.
Qed.

(** * The adapters *)

Section Adapters.

Lemma column_rename :
  forall mapper df c,
    column (rename mapper df) c
    = option_map snd
        (find (fun p => String.eqb (rename_label mapper (fst p)) c) (columns df)).
Proof.
  intros mapper df c. unfold column, rename. simpl.
  induction (columns df) as [|p cols IH]; [reflexivity|].
  cbn [map find].
  change (named c (rename_label mapper (fst p), snd p))
    with (String.eqb (rename_label mapper (fst p)) c).
  destruct (String.eqb (rename_label mapper (fst p)) c); [reflexivity | exact IH].
Qed.

Lemma find_none_iff :
  forall {A : Type} (f : A -> bool) l,
    find f l = None <-> forall x, In x l -> f x = false.
Proof.
  intros A f l. split.
  - intros H x Hx. exact (find_none f l H x Hx).
  - induction l as [|x l IH]; simpl; intros H; [reflexivity|].
    rewrite (H x (or_introl eq_refl)). apply IH. intros y Hy. apply H. now right.
Qed.

Lemma column_none_iff :
  forall df c, column df c = None <-> ~ In c (labels df).
Proof.
  intros df c. unfold column, labels.
  destruct (find (named c) (columns df)) as [p|] eqn:E; simpl.
  - split; [discriminate|]. intros H. exfalso. apply H.
    apply find_some in E. destruct E as [Hin Hn]. apply named_true in Hn.
    apply in_map_iff. now exists p.
  - split; [|reflexivity]. intros _ Hin.
    apply in_map_iff in Hin. destruct Hin as (p & <- & Hp).
    pose proof (find_none _ _ E p Hp) as Hf. apply named_false in Hf. congruence.
Qed.

(** The labels a source label can come from, under each mapping. *)
Ltac split_labels l :=
  repeat match goal with
         | |- context [String.eqb ?a l] =>
             destruct (String.eqb_spec a l); [subst l|]
         end.

Lemma rename_gclick_target :
  forall src dst l, In (src, dst) gclick_columns ->
    (rename_label gclick_columns l = dst <-> l = src \/ l = dst).
Proof.
  intros src dst l Hin. simpl in Hin.
  repeat (destruct Hin as [Hin|Hin]; [injection Hin as <- <-|]); [..|contradiction];
    unfold gclick_columns, rename_label; split_labels l;
    split; intros H; try discriminate; auto;
    destruct H as [H|H]; try discriminate; congruence.
Qed.

Lemma rename_onvio_target :
  forall src dst l, In (src, dst) onvio_columns ->
    (rename_label onvio_columns l = dst <-> l = src \/ l = dst).
Proof.
  intros src dst l Hin. simpl in Hin.
  repeat (destruct Hin as [Hin|Hin]; [injection Hin as <- <-|]); [..|contradiction];
    unfold onvio_columns, rename_label; split_labels l;
    split; intros H; try discriminate; auto;
    destruct H as [H|H]; try discriminate; congruence.
Qed.

Lemma column_rename_none :
  forall mapper df src dst,
    (forall l, rename_label mapper l = dst <-> l = src \/ l = dst) ->
    (column (rename mapper df) dst = None <->
     column df src = None /\ column df dst = None).
Proof.
  intros mapper df src dst Hm.
  rewrite column_rename, !column_none_iff. unfold labels.
  destruct (find _ (columns df)) as [p|] eqn:E; simpl.
  - split; [discriminate|]. intros [Hs Hd]. exfalso.
    apply find_some in E. destruct E as [Hin Hp].
    apply String.eqb_eq, Hm in Hp.
    destruct Hp as [Hp|Hp]; [apply Hs | apply Hd];
      apply in_map_iff; now exists p.
  - split; [|reflexivity]. intros _.
    split; intros Hin; apply in_map_iff in Hin; destruct Hin as (p & Hl & Hp);
      pose proof (find_none _ _ E p Hp) as Hf; simpl in Hf;
      apply String.eqb_neq in Hf; apply Hf, Hm; auto.
Qed.

End Adapters.

Section AdapterProperties.

Context {env : Pandas}.

Lemma padronizar_gclick_column :
  forall df c, c <> "origem_ferramenta" ->
    column (padronizar_gclick df) c = column (rename gclick_columns df) c.
Proof.
  intros df c Hc. unfold padronizar_gclick, setitem_scalar.
  apply column_setitem_other. congruence.
Qed.

Lemma padronizar_onvio_column :
  forall df c, c <> "origem_ferramenta" ->
    column (padronizar_onvio df) c = column (rename onvio_columns df) c.
Proof.
  intros df c Hc. unfold padronizar_onvio, setitem_scalar.
  apply column_setitem_other. congruence.
Qed.



End AdapterProperties.



(** * The two adapters agree *)

(** The canonical fields with the G-Click and the Onvio column that carry
    each of them. *)
Inductive field_columns : string -> string -> string -> Prop :=
| fc_id : field_columns "id_tarefa" "Task ID" "ProcessoID"
| fc_nome : field_columns "nome_tarefa" "Task Name" "Descricao"
| fc_cliente : field_columns "cliente" "Client Name" "NomeCliente"
| fc_responsavel : field_columns "responsavel" "Assignee" "Executor"
| fc_prevista : field_columns "data_prevista_conclusao" "Due Date" "PrazoFatal"
| fc_real : field_columns "data_real_conclusao" "Completion Date" "DataFinalizacao".

Lemma find_ext_in :
  forall {A : Type} (f g : A -> bool) l,
    (forall x, In x l -> f x = g x) -> find f l = find g l.
Proof.
  intros A f g. induction l as [|x l IH]; simpl; intros H; [reflexivity|].
  rewrite <- (H x (or_introl eq_refl)).
  destruct (f x); [reflexivity|]. apply IH. intros y Hy. apply H. now right.
Qed.

Lemma column_rename_target :
  forall mapper df src dst,
    (forall l, rename_label mapper l = dst <-> l = src \/ l = dst) ->
    column df dst = None ->
    column (rename mapper df) dst = column df src.
Proof.
  intros mapper df src dst Hm Hnone.
  rewrite column_rename. unfold column. f_equal.
  apply find_ext_in. intros p Hp. unfold named.
  apply column_none_iff in Hnone.
  assert (Hne : fst p <> dst).
  { intros He. apply Hnone. unfold labels. apply in_map_iff. now exists p. }
  destruct (String.eqb_spec (rename_label mapper (fst p)) dst) as [He|He].
  - apply Hm in He. destruct He as [He|He]; [|contradiction].
    symmetry. now apply String.eqb_eq.
  - symmetry. apply String.eqb_neq. intros He'. apply He, Hm. now left.
Qed.

Lemma field_columns_tables :
  forall c g o, field_columns c g o ->
    In (g, c) gclick_columns /\ In (o, c) onvio_columns /\ c <> "origem_ferramenta".
Proof.
  intros c g o H. destruct H; simpl; repeat split; try discriminate; tauto.
Qed.

(** C8.  Two raw frames, one per tool, that hold the same data under the
    columns of each canonical field (and use no canonical name themselves)
    are adapted to frames that agree on every canonical field; only the
    source tool differs. *)
Theorem adapters_agree :
  forall dfA dfB,
    nrows dfA = nrows dfB ->
    (forall c g o, field_columns c g o -> column dfA g = column dfB o) ->
    (forall c g o, field_columns c g o ->
       column dfA c = None /\ column dfB c = None) ->
    nrows (padronizar_gclick dfA) = nrows (padronizar_onvio dfB) /\
    (forall c g o, field_columns c g o ->
       column (padronizar_gclick dfA) c = column (padronizar_onvio dfB) c /\
       column (padronizar_gclick dfA) c = column dfA g) /\
    column (padronizar_gclick dfA) "origem_ferramenta"
    = Some (repeat (VStr "G-Click") (nrows dfA)) /\
    column (padronizar_onvio dfB) "origem_ferramenta"
    = Some (repeat (VStr "Onvio") (nrows dfA)).
Proof.
  intros dfA dfB Hn Hsame Hfree.
  split; [|split; [|split]].
  - unfold padronizar_gclick, padronizar_onvio, setitem_scalar.
    rewrite !nrows_setitem. exact Hn.
  - intros c g o Hf.
    destruct (field_columns_tables c g o Hf) as (Hg & Ho & Hc).
    destruct (Hfree c g o Hf) as [HA HB].
    rewrite padronizar_gclick_column, padronizar_onvio_column by exact Hc.
    rewrite (column_rename_target gclick_columns dfA g c)
      by (try exact HA; intros l; now apply rename_gclick_target).
    rewrite (column_rename_target onvio_columns dfB o c)
      by (try exact HB; intros l; now apply rename_onvio_target).
    split; [exact (Hsame c g o Hf) | reflexivity].
  - exact (column_setitem_same _ _ _).
  - rewrite Hn. exact (column_setitem_same _ _ _).
Qed.

(** The worked export as Onvio would deliver it. *)
Definition exemplo_onvio : DataFrame :=
  mkFrame 4
    (combine (map fst onvio_columns) (map snd (columns exemplo_gclick))).

Lemma adapters_agree_witness :
  nrows exemplo_gclick = nrows exemplo_onvio /\
  (forall c g o, field_columns c g o ->
     column exemplo_gclick g = column exemplo_onvio o) /\
  (forall c g o, field_columns c g o ->
     column exemplo_gclick c = None /\ column exemplo_onvio c = None) /\
  column (padronizar_gclick exemplo_gclick) "cliente"
  = column (padronizar_onvio exemplo_onvio) "cliente".
Proof.
  assert (H1 : forall c g o, field_columns c g o ->
                 column exemplo_gclick g = column exemplo_onvio o)
    by (intros c g o H; destruct H; reflexivity).
  assert (H2 : forall c g o, field_columns c g o ->
                 column exemplo_gclick c = None /\ column exemplo_onvio c = None)
    by (intros c g o H; destruct H; split; reflexivity).
  refine (conj eq_refl (conj H1 (conj H2 _))).
  exact (proj1 (proj1 (proj2 (adapters_agree exemplo_gclick exemplo_onvio
                                 eq_refl H1 H2))
                  "cliente" "Client Name" "NomeCliente" fc_cliente)).
Defined.

(** * Filtering keeps the metrics consistent *)

Section Filtering.

Context {env : Pandas}.

Lemma getitem_select_rows :
  forall df mask c s,
    getitem df c = Ok s -> getitem (select_rows df mask) c = Ok (select mask s).
Proof.
  intros df mask c s. unfold getitem, select_rows. simpl.
  assert (E : forall cols,
             filter (named c) (map (fun p => (fst p, select mask (snd p))) cols)
             = map (fun p => (fst p, select mask (snd p))) (filter (named c) cols)).
  { induction cols as [|p cols IH]; [reflexivity|].
    cbn [map filter].
    change (named c (fst p, select mask (snd p))) with (named c p).
    destruct (named c p); simpl; now rewrite IH. }
  rewrite E.
  destruct (filter (named c) (columns df)) as [|p [|q rest]]; simpl;
    try discriminate.
  intros H. injection H as <-. reflexivity.
Qed.

Lemma analysed_select_rows :
  forall df prevista real mask,
    analysed df prevista real -> length mask = nrows df ->
    analysed (select_rows df mask) (select mask prevista) (select mask real).
Proof.
  intros df prevista real mask [Hwf Hp Hr Hbp Hbr Cp Cr Cs Cd Cm [tipos Ct]] Hm.
  assert (Hlen : length real = length prevista) by congruence.
  constructor.
  - now apply well_formed_select_rows.
  - simpl. apply length_select. congruence.
  - simpl. apply length_select. congruence.
  - now apply Forall_select.
  - now apply Forall_select.
  - rewrite column_select_rows, Cp. simpl. now rewrite select_map.
  - rewrite column_select_rows, Cr. simpl. now rewrite select_map.
  - rewrite column_select_rows, Cs. simpl. now rewrite select_map2.
  - rewrite column_select_rows, Cd. simpl. now rewrite select_map2.
  - rewrite column_select_rows, Cm. simpl. now rewrite select_map.
  - exists (select mask tipos). now rewrite column_select_rows, Ct.
Qed.

Lemma filtrar_analysed :
  forall df prevista real cliente_filtro responsavel_filtro df_filtrado,
    analysed df prevista real ->
    filtrar df cliente_filtro responsavel_filtro = Ok df_filtrado ->
    exists mask responsaveis,
      length mask = nrows df /\
      df_filtrado = select_rows df mask /\
      getitem df_filtrado "responsavel" = Ok (select mask responsaveis) /\
      length responsaveis = nrows df /\
      analysed df_filtrado (select mask prevista) (select mask real).
Proof.
  intros df prevista real cf rf dff Han. unfold filtrar.
  destruct (getitem df "cliente") as [cli|e] eqn:Ec; simpl; [|discriminate].
  destruct (getitem df "responsavel") as [resp|e] eqn:Er; simpl; [|discriminate].
  intros H. injection H as <-.
  pose proof (an_well_formed _ _ _ Han) as [_ Hrect].
  pose proof (column_length _ _ _ Hrect (getitem_column _ _ _ Ec)) as Lc.
  pose proof (column_length _ _ _ Hrect (getitem_column _ _ _ Er)) as Lr.
  assert (Hm : length (map2 andb (map (isin cf) cli) (map (isin rf) resp)) = nrows df).
  { rewrite length_map2; rewrite !length_map; congruence. }
  eexists. exists resp.
  split; [exact Hm|]. split; [reflexivity|].
  split; [now apply getitem_select_rows|].
  split; [exact Lr|].
  now apply analysed_select_rows.
Qed.

(** A column of an analysed frame is what [df[c]] returns. *)
Lemma analysed_getitem :
  forall df prevista real c s,
    analysed df prevista real -> column df c = Some s -> getitem df c = Ok s.
Proof.
  intros df prevista real c s Han. apply column_getitem.
  exact (proj1 (an_well_formed _ _ _ Han)).
Qed.

End Filtering.

(** * The summary of an analysed frame *)

Section Summary.

Context {env : Pandas}.

(** The figures of [summarize], from the columns it reads. *)
Definition summary_of (n : nat) (status dias responsavel tipo mes : Series) : Resumo :=
  let concluidas := map (fun c => negb (eq_str "Pendente" c)) status in
  let atrasadas := map (eq_str "Em Atraso") status in
  mkResumo n
    (if (0 <? n)%nat then percent (count_if (eq_str "No Prazo") status) n else 0%Q)
    (mean (select (map gt0 dias) dias))
    (sizes (groupby responsavel responsavel))
    (taxas (groupby (select concluidas responsavel) (select concluidas status)))
    (sizes (groupby (select atrasadas tipo) (select atrasadas tipo)))
    (taxas (groupby (select concluidas mes) (select concluidas status))).

Lemma summarize_analysed :
  forall df prevista real responsavel,
    analysed df prevista real ->
    getitem df "responsavel" = Ok responsavel ->
    exists tipo,
      column df "tipo_tarefa" = Some tipo /\
      summarize df
      = Ok (summary_of (nrows df) (map2 status_of real prevista)
              (map2 dias_of real prevista) responsavel tipo (map mes_str real)).
Proof.
  intros df prevista real resp Han Hresp.
  destruct (an_tipo _ _ _ Han) as [tipo Ct]. exists tipo. split; [exact Ct|].
  unfold summarize.
  rewrite (analysed_getitem _ _ _ _ _ Han (an_status _ _ _ Han)).
  rewrite (analysed_getitem _ _ _ _ _ Han (an_dias _ _ _ Han)).
  rewrite (analysed_getitem _ _ _ _ _ Han (an_mes _ _ _ Han)).
  rewrite (analysed_getitem _ _ _ _ _ Han Ct), Hresp.
  unfold summary_of. destruct (0 <? nrows df)%nat; reflexivity.
Qed.

Lemma length_0_nil : forall {A : Type} (l : list A), length l = 0%nat -> l = [].
Proof. intros A l. apply length_zero_iff_nil. Qed.

(** C7.  When filtering leaves no task, [summarize] returns (it raises
    nothing, the division guarded by the row count): the total is 0, the
    on-time rate is 0, the mean delay is undefined, and the per-assignee,
    per-category and monthly results are empty. *)
Theorem summarize_empty :
  forall df df_analise cliente_filtro responsavel_filtro df_filtrado,
    well_formed df ->
    calcular_metricas df = Ok df_analise ->
    filtrar df_analise cliente_filtro responsavel_filtro = Ok df_filtrado ->
    nrows df_filtrado = 0%nat ->
    summarize df_filtrado = Ok (mkResumo 0 0 None [] [] [] []).
Proof.
  intros df dfa cf rf dff Hwf Hcalc Hfil Hn.
  destruct (calcular_metricas_analysed df dfa Hwf Hcalc) as (prevista & real & Han).
  destruct (filtrar_analysed _ _ _ _ _ _ Han Hfil)
    as (mask & resp & Hm & -> & Hresp & Lr & Han').
  destruct (summarize_analysed _ _ _ _ Han' Hresp) as (tipo & Ct & ->).
  pose proof (an_well_formed _ _ _ Han') as [_ Hrect].
  pose proof (column_length _ _ _ Hrect Ct) as Lt.
  pose proof (column_length _ _ _ Hrect (getitem_column _ _ _ Hresp)) as Lr'.
  pose proof (an_prevista_length _ _ _ Han') as Lp.
  pose proof (an_real_length _ _ _ Han') as Lre.
  rewrite Hn in *.
  apply length_0_nil in Lt, Lr', Lp, Lre.
  rewrite Lt, Lr', Lp, Lre. reflexivity.
Qed.

End Summary.

Lemma summarize_empty_witness :
  well_formed exemplo_padronizado /\
  calcular_metricas exemplo_padronizado = Ok exemplo_analise /\
  filtrar exemplo_analise [] [VStr "Ana"] = Ok (select_rows exemplo_analise [false; false; false; false]) /\
  nrows (select_rows exemplo_analise [false; false; false; false]) = 0%nat /\
  summarize (select_rows exemplo_analise [false; false; false; false])
  = Ok (mkResumo 0 0 None [] [] [] []).
Proof.
  refine (conj exemplo_padronizado_well_formed
            (conj exemplo_analise_computed (conj eq_refl (conj eq_refl _)))).
  exact (summarize_empty exemplo_padronizado exemplo_analise [] [VStr "Ana"] _
           exemplo_padronizado_well_formed exemplo_analise_computed
           eq_refl eq_refl).
Defined.

(** * Mean delay *)

Section MeanDelay.

Lemma positive_delay_is_late :
  forall real prevista,
    gt0 (dias_of real prevista) = true ->
    status_of real prevista = VStr "Em Atraso".
Proof.
  intros [r|] [p|]; simpl; try discriminate.
  intros H. apply Z.ltb_lt in H. unfold status_of. simpl.
  destruct (p <? r)%Z eqn:E; [reflexivity|].
  apply Z.ltb_ge in E.
  assert ((r - p) / ns_per_day <= 0)%Z
    by (apply Z.div_le_upper_bound; unfold ns_per_day; lia).
  lia.
Qed.

(** A task late by less than one whole day has status Em Atraso and delay 0. *)
Lemma late_within_a_day :
  forall r p, (p < r < p + ns_per_day)%Z ->
    status_of (Some r) (Some p) = VStr "Em Atraso" /\
    dias_of (Some r) (Some p) = VInt 0.
Proof.
  intros r p H. unfold status_of, dias_of. simpl.
  assert (E : (p <? r)%Z = true) by (apply Z.ltb_lt; lia). rewrite E.
  split; [reflexivity|]. f_equal.
  rewrite Z.div_small by lia. reflexivity.
Qed.

Lemma positive_mask_late :
  forall real prevista,
    map gt0 (map2 dias_of real prevista)
    = map2 (fun st d => eq_str "Em Atraso" st && gt0 d)
        (map2 status_of real prevista) (map2 dias_of real prevista).
Proof.
  induction real as [|r real IH]; intros [|p prevista]; simpl; try reflexivity.
  rewrite IH. f_equal.
  destruct (gt0 (dias_of r p)) eqn:E; [|now rewrite andb_false_r].
  now rewrite (positive_delay_is_late r p E).
Qed.

Lemma ints_positive :
  forall s,
    Forall (fun n => 1 <= n)%Z (ints (select (map gt0 s) s)) /\
    length (ints (select (map gt0 s) s)) = length (select (map gt0 s) s).
Proof.
  induction s as [|c s [IH1 IH2]]; simpl; [split; [constructor | reflexivity]|].
  destruct c as [x|n| | |]; simpl; auto.
  destruct (0 <? n)%Z eqn:E; simpl; auto.
  apply Z.ltb_lt in E. split; [constructor; [lia | exact IH1] | now rewrite IH2].
Qed.

Lemma sum_at_least_length :
  forall xs, Forall (fun n => 1 <= n)%Z xs -> (Z.of_nat (length xs) <= sum_Z xs)%Z.
Proof.
  induction 1 as [|x xs Hx _ IH]; simpl length; [simpl; lia|].
  rewrite Nat2Z.inj_succ. simpl. lia.
Qed.

Lemma Zpos_of_nat : forall n, (0 < n)%nat -> Z.pos (Pos.of_nat n) = Z.of_nat n.
Proof.
  intros [|n] H; [lia|].
  now rewrite <- Pos.of_nat_succ, Zpos_P_of_succ_nat, Nat2Z.inj_succ.
Qed.

Lemma ratio_at_least_one :
  forall xs, (0 < length xs)%nat -> Forall (fun n => 1 <= n)%Z xs ->
    (1 <= sum_Z xs # Pos.of_nat (length xs))%Q.
Proof.
  intros xs Hne Hpos. pose proof (sum_at_least_length _ Hpos) as Hsum.
  unfold Qle, Qnum, Qden. rewrite Zpos_of_nat by exact Hne. lia.
Qed.

Lemma mean_positive :
  forall s q, mean (select (map gt0 s) s) = Some q -> (1 <= q)%Q.
Proof.
  intros s q. unfold mean.
  destruct (ints_positive s) as [Hpos _].
  destruct (ints (select (map gt0 s) s)) as [|x xs] eqn:E; [discriminate|].
  intros H. injection H as <-.
  exact (ratio_at_least_one (x :: xs) (Nat.lt_0_succ _) Hpos).
Qed.

Lemma mean_none :
  forall s, mean (select (map gt0 s) s) = None <-> select (map gt0 s) s = [].
Proof.
  intros s. unfold mean. destruct (ints_positive s) as [_ Hlen].
  destruct (ints (select (map gt0 s) s)) as [|x xs]; simpl in Hlen.
  - split; [|reflexivity]. intros _. now apply length_zero_iff_nil.
  - split; [discriminate|]. intros H. rewrite H in Hlen. discriminate.
Qed.

Context {env : Pandas}.

(** C5, as the code has it.  The mean delay is the mean of the delays that
    are present and at least one whole day.  Every task averaged is Em
    Atraso, but a late task completed less than a day after its due time
    has delay 0 and is left out.  When no task has a positive delay the
    result is undefined (shown as N/A); a defined mean is at least 1, so it
    is never 0 and nothing is divided by zero. *)
Theorem media_atraso_value :
  forall df df_analise cliente_filtro responsavel_filtro df_filtrado resumo,
    well_formed df ->
    calcular_metricas df = Ok df_analise ->
    filtrar df_analise cliente_filtro responsavel_filtro = Ok df_filtrado ->
    summarize df_filtrado = Ok resumo ->
    exists status dias,
      column df_filtrado "status_prazo" = Some status /\
      column df_filtrado "dias_de_atraso" = Some dias /\
      media_atraso resumo = mean (select (map gt0 dias) dias) /\
      select (map gt0 dias) dias
      = select (map2 (fun st d => eq_str "Em Atraso" st && gt0 d) status dias) dias /\
      (media_atraso resumo = None <-> select (map gt0 dias) dias = []) /\
      (forall q, media_atraso resumo = Some q -> (1 <= q)%Q).
Proof.
  intros df dfa cf rf dff resumo Hwf Hcalc Hfil Hsum.
  destruct (calcular_metricas_analysed df dfa Hwf Hcalc) as (prevista & real & Han).
  destruct (filtrar_analysed _ _ _ _ _ _ Han Hfil)
    as (mask & resp & Hm & -> & Hresp & Lr & Han').
  destruct (summarize_analysed _ _ _ _ Han' Hresp) as (tipo & Ct & Es).
  rewrite Es in Hsum. injection Hsum as <-.
  eexists. eexists.
  split; [exact (an_status _ _ _ Han')|].
  split; [exact (an_dias _ _ _ Han')|].
  unfold summary_of. cbn [media_atraso].
  split; [reflexivity|].
  split; [now rewrite <- positive_mask_late|].
  split; [apply mean_none | apply mean_positive].
Qed.

End MeanDelay.

Lemma media_atraso_value_witness :
  well_formed exemplo_padronizado /\
  calcular_metricas exemplo_padronizado = Ok exemplo_analise /\
  filtrar exemplo_analise [VStr "Acme"; VStr "Beta"] [VStr "Ana"]
  = Ok (select_rows exemplo_analise [true; false; true; false]) /\
  summarize (select_rows exemplo_analise [true; false; true; false])
  = Ok (mkResumo 2 ((1 # 2) * 100) (Some (5 # 1))
          [(VStr "Ana", 2%nat)] [(VStr "Ana", (1 # 2) * 100)]
          [(VStr "Fiscal", 1%nat)]
          [(VStr "2024-01", (0 # 1) * 100); (VStr "2024-02", (1 # 1) * 100)]) /\
  (1 <= 5 # 1)%Q.
Proof.
  refine (conj exemplo_padronizado_well_formed
            (conj exemplo_analise_computed (conj eq_refl (conj eq_refl _)))).
  destruct (media_atraso_value exemplo_padronizado exemplo_analise
              [VStr "Acme"; VStr "Beta"] [VStr "Ana"] _ _
              exemplo_padronizado_well_formed exemplo_analise_computed
              eq_refl eq_refl)
    as (status & dias & _ & _ & _ & _ & _ & H).
  exact (H (5 # 1) eq_refl).
Defined.

(** Two tasks exported with times of day, due 2024-01-10 00:00: one
    completed twelve hours late, one two days late. *)
Definition exemplo_horas : DataFrame :=
  mkFrame 2
    [ ("Task ID", [VStr "T1"; VStr "T2"]);
      ("Task Name", [VStr "Envio DCTF"; VStr "Imposto mensal"]);
      ("Client Name", [VStr "Acme"; VStr "Acme"]);
      ("Assignee", [VStr "Ana"; VStr "Ana"]);
      ("Due Date", [VTime 1704844800000000000; VTime 1704844800000000000]);
      ("Completion Date", [VTime 1704888000000000000; VTime 1705017600000000000]) ].

(** In every environment the two tasks are Em Atraso with delays 0 and 2,
    and the reported mean is 2: the cells are datetimes already, so no text
    is parsed. *)
Lemma exemplo_horas_mean :
  forall env : Pandas,
    exists df_analise df_filtrado resumo,
      calcular_metricas (padronizar_gclick exemplo_horas) = Ok df_analise /\
      filtrar df_analise [VStr "Acme"] [VStr "Ana"] = Ok df_filtrado /\
      summarize df_filtrado = Ok resumo /\
      column df_filtrado "status_prazo" = Some [VStr "Em Atraso"; VStr "Em Atraso"] /\
      column df_filtrado "dias_de_atraso" = Some [VInt 0; VInt 2] /\
      media_atraso resumo = Some (2 # 1).
Proof.
  intros env.
  set (prevista := [Some 1704844800000000000%Z; Some 1704844800000000000%Z]).
  set (real := [Some 1704888000000000000%Z; Some 1705017600000000000%Z]).
  assert (Hp : to_datetime (map dt_cell prevista) = prevista).
  { apply to_datetime_parsed. repeat constructor; vm_compute; discriminate. }
  assert (Hr : to_datetime (map dt_cell real) = real).
  { apply to_datetime_parsed. repeat constructor; vm_compute; discriminate. }
  pose proof (calcular_metricas_returns (padronizar_gclick exemplo_horas)
                (map dt_cell prevista) (map dt_cell real)
                [VStr "Envio DCTF"; VStr "Imposto mensal"]
                [Some 43200000000000%Z; Some 172800000000000%Z]
                eq_refl eq_refl eq_refl) as Hcalc.
  rewrite Hp, Hr in Hcalc. specialize (Hcalc eq_refl).
  eexists. exists (select_rows
                     (written (padronizar_gclick exemplo_horas) prevista real
                        [Some 43200000000000%Z; Some 172800000000000%Z]
                        [VStr "Envio DCTF"; VStr "Imposto mensal"])
                     [true; true]).
  eexists.
  split; [exact Hcalc|].
  split; [reflexivity|].
  split; [reflexivity|].
  split; [reflexivity|]. split; reflexivity.
Qed.

(** C5 as stated fails: both tasks are Em Atraso, with delays 0 and 2, so
    the mean over the late tasks is 1; the program reports 2, the mean of
    the positive delays only. *)
Lemma media_atraso_skips_late_task :
  exists df_analise df_filtrado resumo,
    calcular_metricas (padronizar_gclick exemplo_horas) = Ok df_analise /\
    filtrar df_analise [VStr "Acme"] [VStr "Ana"] = Ok df_filtrado /\
    summarize df_filtrado = Ok resumo /\
    column df_filtrado "status_prazo" = Some [VStr "Em Atraso"; VStr "Em Atraso"] /\
    column df_filtrado "dias_de_atraso" = Some [VInt 0; VInt 2] /\
    media_atraso resumo = Some (2 # 1) /\
    mean (select (map (eq_str "Em Atraso") [VStr "Em Atraso"; VStr "Em Atraso"])
            [VInt 0; VInt 2]) = Some (2 # 2) /\
    ~ (2 # 1 == 2 # 2)%Q.
Proof.
  eexists. eexists. eexists.
  split; [vm_compute; reflexivity|].
  split; [vm_compute; reflexivity|].
  split; [vm_compute; reflexivity|].
  repeat (split; [reflexivity|]).
  discriminate.
Qed.

(** * Rows of a selection and of a group *)

Section SelectedRows.

Lemma in_select_nth :
  forall {A : Type} mask (l : list A) j x,
    nth_error mask j = Some true -> nth_error l j = Some x -> In x (select mask l).
Proof.
  intros A. induction mask as [|b mask IH]; intros [|y l] [|j] x Hm Hl;
    simpl in *; try discriminate.
  - injection Hm as ->. injection Hl as ->. now left.
  - destruct b; [right|]; eauto.
Qed.

Lemma combine_select :
  forall {A B : Type} mask (a : list A) (b : list B),
    combine (select mask a) (select mask b) = select mask (combine a b).
Proof.
  intros A B. induction mask as [|m mask IH]; intros [|x a] [|y b]; simpl;
    try reflexivity.
  - now destruct m; destruct (select mask a).
  - destruct m; simpl; now rewrite IH.
Qed.

Lemma in_group :
  forall keys (vals : Series) k v,
    In (k, v) (combine keys vals) -> In v (select (map (cell_same k) keys) vals).
Proof.
  induction keys as [|k' keys IH]; intros [|v' vals] k v H; simpl in *;
    try contradiction.
  destruct H as [H|H].
  - injection H as -> ->. unfold cell_same.
    destruct (cell_eq_dec k k); [now left | contradiction].
  - destruct (cell_same k k'); [right|]; eauto.
Qed.

Lemma in_unique : forall s x, In x s -> In x (unique s).
Proof.
  induction s as [|y s IH]; intros x H; simpl in *; [contradiction|].
  destruct (cell_eq_dec y x) as [->|Hne]; [now left|].
  right. apply filter_In. split.
  - destruct H as [H|H]; [contradiction | now apply IH].
  - unfold cell_same. destruct (cell_eq_dec y x); [contradiction | reflexivity].
Qed.

Lemma count_if_positive :
  forall {A : Type} (f : A -> bool) l x,
    In x l -> f x = true -> (0 < count_if f l)%nat.
Proof.
  intros A f l x Hin Hf. unfold count_if.
  assert (H : In x (filter f l)) by (apply filter_In; auto).
  destruct (filter f l); [contradiction | simpl; lia].
Qed.

Lemma percent_positive :
  forall hits n, (0 < hits)%nat -> (0 < percent hits n)%Q.
Proof.
  intros hits n H. unfold percent, Qlt, Qmult, Qnum, Qden. simpl. lia.
Qed.

Lemma taxa_positive :
  forall x, In (VStr "No Prazo") x -> (0 < taxa x)%Q.
Proof.
  intros x H. apply percent_positive.
  now apply (count_if_positive _ _ (VStr "No Prazo")).
Qed.

(** A row with a present key and status No Prazo that is not Pendente makes
    the rate of its group positive. *)
Lemma group_rate_positive :
  forall keys status j k,
    nth_error keys j = Some k -> isna k = false ->
    nth_error status j = Some (VStr "No Prazo") ->
    let concluidas := map (fun c => negb (eq_str "Pendente" c)) status in
    exists q,
      In (k, q) (taxas (groupby (select concluidas keys) (select concluidas status)))
      /\ (0 < q)%Q.
Proof.
  intros keys status j k Hk Hna Hs concluidas.
  assert (Hc : nth_error concluidas j = Some true).
  { unfold concluidas. now rewrite (map_nth_error _ _ _ Hs). }
  assert (Hpair : nth_error (combine keys status) j = Some (k, VStr "No Prazo")).
  { clear Hc concluidas Hna. revert status j Hk Hs.
    induction keys as [|k' keys IH]; intros [|s status] [|j] Hk Hs; simpl in *;
      try discriminate; [congruence | eauto]. }
  pose proof (in_select_nth _ _ _ _ Hc Hpair) as Hin.
  rewrite <- combine_select in Hin.
  exists (taxa (select (map (cell_same k) (select concluidas keys))
                  (select concluidas status))).
  split.
  - unfold taxas, groupby. rewrite map_map. apply in_map_iff.
    exists k. split; [reflexivity|].
    apply in_unique, filter_In. split.
    + exact (in_combine_l _ _ _ _ Hin).
    + now rewrite Hna.
  - apply taxa_positive. now apply in_group.
Qed.

End SelectedRows.

(** * The pipeline returns

    Which inputs make each stage return rather than raise. *)

Section Totality.

Context {env : Pandas}.

Lemma calcular_metricas_total :
  forall df prevista_bruta real_bruta nomes,
    NoDup (labels df) ->
    column df "data_prevista_conclusao" = Some prevista_bruta ->
    column df "data_real_conclusao" = Some real_bruta ->
    column df "nome_tarefa" = Some nomes ->
    no_overflow (to_datetime real_bruta) (to_datetime prevista_bruta) ->
    exists df_analise, calcular_metricas df = Ok df_analise.
Proof.
  intros df pb rb nomes Hnd Hp Hr Hn Hover.
  destruct (sub_series_total _ _ Hover) as [atraso Hs].
  eexists.
  exact (calcular_metricas_returns df pb rb nomes atraso
           (column_getitem _ _ _ Hnd Hp) (column_getitem _ _ _ Hnd Hr)
           (column_getitem _ _ _ Hnd Hn) Hs).
Qed.

Lemma pipeline_total :
  forall df df_analise cliente_filtro responsavel_filtro clientes responsaveis,
    well_formed df ->
    calcular_metricas df = Ok df_analise ->
    column df "cliente" = Some clientes ->
    column df "responsavel" = Some responsaveis ->
    exists df_filtrado resumo,
      filtrar df_analise cliente_filtro responsavel_filtro = Ok df_filtrado /\
      summarize df_filtrado = Ok resumo.
Proof.
  intros df dfa cf rf cli resp Hwf Hcalc Hc Hr.
  destruct (calcular_metricas_analysed df dfa Hwf Hcalc) as (prevista & real & Han).
  destruct (calcular_metricas_keeps df dfa Hcalc) as (Hkeep & _).
  rewrite <- (Hkeep "cliente") in Hc by (simpl; intuition discriminate).
  rewrite <- (Hkeep "responsavel") in Hr by (simpl; intuition discriminate).
  assert (Hfil : exists dff, filtrar dfa cf rf = Ok dff).
  { unfold filtrar.
    rewrite (analysed_getitem _ _ _ _ _ Han Hc), (analysed_getitem _ _ _ _ _ Han Hr).
    simpl. eauto. }
  destruct Hfil as [dff Hfil]. exists dff.
  destruct (filtrar_analysed _ _ _ _ _ _ Han Hfil)
    as (mask & resp' & _ & _ & Hresp & _ & Han').
  destruct (summarize_analysed _ _ _ _ Han' Hresp) as (tipo & _ & Es).
  eauto.
Qed.

End Totality.

(** * More on the filter (lines 109-112) *)

Section FilterFacts.

Lemma isin_spec : forall values c, isin values c = true <-> In c values.
Proof.
  intros values c. unfold isin. rewrite existsb_exists. split.
  - intros (x & Hin & Hs). unfold cell_same in Hs.
    destruct (cell_eq_dec c x); [now subst | discriminate].
  - intros Hin. exists c. split; [exact Hin|]. unfold cell_same.
    destruct (cell_eq_dec c c); [reflexivity | contradiction].
Qed.

Lemma map2_map :
  forall {A B A' B' C : Type} (h : A' -> B' -> C) (f : A -> A') (g : B -> B') l1 l2,
    map2 h (map f l1) (map g l2) = map2 (fun a b => h (f a) (g b)) l1 l2.
Proof.
  intros A B A' B' C h f g. induction l1 as [|a l1 IH]; intros [|b l2]; simpl;
    try reflexivity.
  now rewrite IH.
Qed.

Lemma select_all :
  forall {A : Type} mask (l : list A),
    Forall (fun b => b = true) mask -> (length l <= length mask)%nat ->
    select mask l = l.
Proof.
  intros A mask l H. revert l.
  induction H as [|b mask Hb _ IH]; intros [|x l] Hl; simpl in *;
    try reflexivity; try lia.
  subst b. rewrite IH by lia. reflexivity.
Qed.

Lemma count_all :
  forall mask, Forall (fun b => b = true) mask ->
    length (filter (fun b : bool => b) mask) = length mask.
Proof.
  induction 1 as [|b mask Hb _ IH]; simpl; [reflexivity|].
  subst b. simpl. now rewrite IH.
Qed.

Lemma count_le :
  forall mask, (length (filter (fun b : bool => b) mask) <= length mask)%nat.
Proof.
  induction mask as [|b mask IH]; simpl; [lia|]. destruct b; simpl; lia.
Qed.

Lemma select_rows_all :
  forall df mask,
    rectangular df -> length mask = nrows df ->
    Forall (fun b => b = true) mask -> select_rows df mask = df.
Proof.
  intros [n cols] mask Hrect Hlen Hall. unfold select_rows, rectangular in *.
  simpl in *. rewrite (count_all _ Hall), Hlen. f_equal.
  induction Hrect as [|p cols Hp _ IH]; simpl; [reflexivity|].
  rewrite IH, select_all by (auto; lia). now destruct p.
Qed.

Lemma rectangular_select_rows :
  forall df mask,
    rectangular df -> length mask = nrows df -> rectangular (select_rows df mask).
Proof.
  intros df mask Hrect Hlen. unfold rectangular, select_rows in *. simpl.
  rewrite Forall_map. eapply Forall_impl; [|exact Hrect].
  intros p Hp. simpl. apply length_select. congruence.
Qed.

(** The mask of line 112, row by row. *)
Definition kept (cliente_filtro responsavel_filtro : list cell)
  (clientes responsaveis : Series) : list bool :=
  map2 (fun c r => isin cliente_filtro c && isin responsavel_filtro r)
       clientes responsaveis.

Lemma filtrar_reads :
  forall df cf rf df_filtrado,
    filtrar df cf rf = Ok df_filtrado ->
    exists clientes responsaveis,
      getitem df "cliente" = Ok clientes /\
      getitem df "responsavel" = Ok responsaveis /\
      df_filtrado = select_rows df (kept cf rf clientes responsaveis).
Proof.
  intros df cf rf dff. unfold filtrar, kept.
  destruct (getitem df "cliente") as [cli|e]; simpl; [|discriminate].
  destruct (getitem df "responsavel") as [resp|e]; simpl; [|discriminate].
  intros H. injection H as <-. exists cli, resp.
  now rewrite map2_map.
Qed.

Lemma filtrar_returns :
  forall df cf rf clientes responsaveis,
    getitem df "cliente" = Ok clientes ->
    getitem df "responsavel" = Ok responsaveis ->
    filtrar df cf rf = Ok (select_rows df (kept cf rf clientes responsaveis)).
Proof.
  intros df cf rf cli resp Hc Hr. unfold filtrar, kept.
  rewrite Hc, Hr. simpl. now rewrite map2_map.
Qed.

Lemma kept_all :
  forall cf rf clientes responsaveis,
    Forall (fun c => In c cf) clientes -> Forall (fun r => In r rf) responsaveis ->
    Forall (fun b => b = true) (kept cf rf clientes responsaveis).
Proof.
  intros cf rf cli resp Hc. revert resp. unfold kept.
  induction Hc as [|c cli Hc _ IH]; intros resp Hr; [constructor|].
  destruct Hr as [|r resp Hr Hrs]; simpl; constructor; auto.
  apply andb_true_iff. split; now apply isin_spec.
Qed.

Lemma kept_allowed :
  forall cf rf clientes responsaveis,
    Forall (fun c => In c cf)
           (select (kept cf rf clientes responsaveis) clientes) /\
    Forall (fun r => In r rf)
           (select (kept cf rf clientes responsaveis) responsaveis).
Proof.
  intros cf rf cli. unfold kept.
  induction cli as [|c cli IH]; intros [|r resp]; simpl;
    try (split; constructor).
  destruct (IH resp) as [IH1 IH2].
  destruct (isin cf c) eqn:Ec; destruct (isin rf r) eqn:Er; simpl;
    try (split; assumption).
  split; constructor; auto; now apply isin_spec.
Qed.

Lemma length_kept :
  forall cf rf clientes responsaveis,
    length clientes = length responsaveis ->
    length (kept cf rf clientes responsaveis) = length clientes.
Proof. intros. unfold kept. now apply length_map2. Qed.

(** When every row passes, the filter returns the frame itself. *)
Lemma filtrar_all_pass :
  forall df cf rf clientes responsaveis,
    rectangular df ->
    getitem df "cliente" = Ok clientes ->
    getitem df "responsavel" = Ok responsaveis ->
    Forall (fun c => In c cf) clientes -> Forall (fun r => In r rf) responsaveis ->
    filtrar df cf rf = Ok df.
Proof.
  intros df cf rf cli resp Hrect Hc Hr Hac Har.
  rewrite (filtrar_returns df cf rf cli resp Hc Hr). f_equal.
  pose proof (column_length _ _ _ Hrect (getitem_column _ _ _ Hc)) as Lc.
  pose proof (column_length _ _ _ Hrect (getitem_column _ _ _ Hr)) as Lr.
  apply select_rows_all; auto.
  - rewrite length_kept; congruence.
  - now apply kept_all.
Qed.

(** X1.  With the default selections of the two multiselects (every value of the
    column), the filter keeps every task. *)
Theorem filtrar_default_keeps_all :
  forall df clientes responsaveis,
    rectangular df ->
    getitem df "cliente" = Ok clientes ->
    getitem df "responsavel" = Ok responsaveis ->
    filtrar df (unique clientes) (unique responsaveis) = Ok df.
Proof.
  intros df cli resp Hrect Hc Hr.
  apply (filtrar_all_pass df _ _ cli resp); auto;
    apply Forall_forall; intros x Hx; now apply in_unique.
Qed.

(** X2.  The filter keeps the labels and the shape of the frame, never adds a
    row, filters every column by the same rows, and every task it keeps has
    its client among the selected clients and its assignee among the
    selected assignees. *)
Theorem filtrar_keeps_allowed :
  forall df cliente_filtro responsavel_filtro df_filtrado,
    rectangular df ->
    filtrar df cliente_filtro responsavel_filtro = Ok df_filtrado ->
    labels df_filtrado = labels df /\
    rectangular df_filtrado /\
    (nrows df_filtrado <= nrows df)%nat /\
    exists clientes responsaveis,
      getitem df "cliente" = Ok clientes /\
      getitem df "responsavel" = Ok responsaveis /\
      (forall c,
         column df_filtrado c
         = option_map
             (select (kept cliente_filtro responsavel_filtro clientes responsaveis))
             (column df c)) /\
      nrows df_filtrado
      = count_if (fun b : bool => b)
          (kept cliente_filtro responsavel_filtro clientes responsaveis) /\
      exists clientes' responsaveis',
        column df_filtrado "cliente" = Some clientes' /\
        column df_filtrado "responsavel" = Some responsaveis' /\
        Forall (fun c => In c cliente_filtro) clientes' /\
        Forall (fun r => In r responsavel_filtro) responsaveis'.
Proof.
  intros df cf rf dff Hrect H.
  destruct (filtrar_reads df cf rf dff H) as (cli & resp & Hc & Hr & ->).
  pose proof (column_length _ _ _ Hrect (getitem_column _ _ _ Hc)) as Lc.
  pose proof (column_length _ _ _ Hrect (getitem_column _ _ _ Hr)) as Lr.
  assert (Lk : length (kept cf rf cli resp) = nrows df)
    by (rewrite length_kept; congruence).
  split; [unfold labels, select_rows; simpl; now rewrite map_map|].
  split; [now apply rectangular_select_rows|].
  split; [simpl; rewrite <- Lk; apply count_le|].
  exists cli, resp.
  split; [exact Hc|]. split; [exact Hr|].
  split; [intros c; apply column_select_rows|].
  split; [reflexivity|].
  exists (select (kept cf rf cli resp) cli), (select (kept cf rf cli resp) resp).
  rewrite !column_select_rows.
  rewrite (getitem_column _ _ _ Hc), (getitem_column _ _ _ Hr).
  split; [reflexivity|]. split; [reflexivity|]. apply kept_allowed.
Qed.

(** X3.  Filtering the filtered frame again with the same selections changes
    nothing. *)
Theorem filtrar_idempotent :
  forall df cliente_filtro responsavel_filtro df_filtrado,
    rectangular df ->
    filtrar df cliente_filtro responsavel_filtro = Ok df_filtrado ->
    filtrar df_filtrado cliente_filtro responsavel_filtro = Ok df_filtrado.
Proof.
  intros df cf rf dff Hrect H.
  destruct (filtrar_reads df cf rf dff H) as (cli & resp & Hc & Hr & ->).
  pose proof (column_length _ _ _ Hrect (getitem_column _ _ _ Hc)) as Lc.
  pose proof (column_length _ _ _ Hrect (getitem_column _ _ _ Hr)) as Lr.
  assert (Lk : length (kept cf rf cli resp) = nrows df)
    by (rewrite length_kept; congruence).
  destruct (kept_allowed cf rf cli resp) as [Hac Har].
  apply (filtrar_all_pass _ cf rf _ _
           (rectangular_select_rows _ _ Hrect Lk)
           (getitem_select_rows _ _ _ _ Hc) (getitem_select_rows _ _ _ _ Hr)
           Hac Har).
Qed.

End FilterFacts.

Lemma exemplo_analise_rectangular : rectangular exemplo_analise.
Proof. apply (well_formedb_sound exemplo_analise). reflexivity. Qed.

Lemma filtrar_default_keeps_all_witness :
  rectangular exemplo_analise /\
  getitem exemplo_analise "cliente"
  = Ok [VStr "Acme"; VStr "Acme"; VStr "Beta"; VStr "Beta"] /\
  getitem exemplo_analise "responsavel"
  = Ok [VStr "Ana"; VStr "Bia"; VStr "Ana"; VStr "Caio"] /\
  filtrar exemplo_analise [VStr "Acme"; VStr "Beta"]
    [VStr "Ana"; VStr "Bia"; VStr "Caio"] = Ok exemplo_analise.
Proof.
  refine (conj exemplo_analise_rectangular (conj eq_refl (conj eq_refl _))).
  exact (filtrar_default_keeps_all exemplo_analise _ _
           exemplo_analise_rectangular eq_refl eq_refl).
Defined.

Lemma filtrar_keeps_allowed_witness :
  rectangular exemplo_analise /\
  filtrar exemplo_analise [VStr "Beta"] [VStr "Ana"; VStr "Caio"]
  = Ok (select_rows exemplo_analise [false; false; true; true]) /\
  labels (select_rows exemplo_analise [false; false; true; true])
  = labels exemplo_analise /\
  (nrows (select_rows exemplo_analise [false; false; true; true])
   <= nrows exemplo_analise)%nat.
Proof.
  refine (conj exemplo_analise_rectangular (conj eq_refl _)).
  destruct (filtrar_keeps_allowed exemplo_analise [VStr "Beta"]
              [VStr "Ana"; VStr "Caio"] _ exemplo_analise_rectangular eq_refl)
    as (Hl & _ & Hn & _).
  exact (conj Hl Hn).
Defined.

Lemma filtrar_idempotent_witness :
  rectangular exemplo_analise /\
  filtrar exemplo_analise [VStr "Beta"] [VStr "Ana"; VStr "Caio"]
  = Ok (select_rows exemplo_analise [false; false; true; true]) /\
  filtrar (select_rows exemplo_analise [false; false; true; true])
    [VStr "Beta"] [VStr "Ana"; VStr "Caio"]
  = Ok (select_rows exemplo_analise [false; false; true; true]).
Proof.
  refine (conj exemplo_analise_rectangular (conj eq_refl _)).
  exact (filtrar_idempotent exemplo_analise [VStr "Beta"]
           [VStr "Ana"; VStr "Caio"] _ exemplo_analise_rectangular eq_refl).
Defined.

(** * Grouping (lines 133-153) *)

Section GroupFacts.

Definition differs (x y : cell) : bool := negb (cell_same x y).

Lemma cell_same_true : forall a b, cell_same a b = true <-> a = b.
Proof.
  intros a b. unfold cell_same. destruct (cell_eq_dec a b); split; auto; discriminate.
Qed.

Lemma cell_same_refl : forall a, cell_same a a = true.
Proof. intros a. now apply cell_same_true. Qed.

Lemma unique_cons :
  forall x s, unique (x :: s) = x :: filter (differs x) (unique s).
Proof. reflexivity. Qed.

Lemma unique_in_iff : forall s x, In x (unique s) <-> In x s.
Proof.
  intros s x. split; [|apply in_unique].
  induction s as [|y s IH]; simpl; [auto|].
  intros [H|H]; [now left|]. right. apply IH. now apply filter_In in H.
Qed.

Lemma unique_NoDup : forall s, NoDup (unique s).
Proof.
  induction s as [|x s IH]; simpl; constructor.
  - intros H. apply filter_In in H. destruct H as [_ H].
    now rewrite cell_same_refl in H.
  - now apply NoDup_filter.
Qed.

Lemma filter_differs_comm :
  forall x y l, filter (differs x) (filter (differs y) l)
                = filter (differs y) (filter (differs x) l).
Proof.
  intros x y. induction l as [|z l IH]; simpl; [reflexivity|].
  destruct (differs y z) eqn:Ey; destruct (differs x z) eqn:Ex; simpl;
    rewrite ?Ey, ?Ex, IH; reflexivity.
Qed.

Lemma filter_differs_idem :
  forall x l, filter (differs x) (filter (differs x) l) = filter (differs x) l.
Proof.
  intros x. induction l as [|z l IH]; simpl; [reflexivity|].
  destruct (differs x z) eqn:Ex; simpl; rewrite ?Ex, IH; reflexivity.
Qed.

Lemma unique_filter_differs :
  forall x s, filter (differs x) (unique s) = unique (filter (differs x) s).
Proof.
  intros x. induction s as [|y s IH]; [reflexivity|].
  rewrite unique_cons. cbn [filter].
  destruct (differs x y) eqn:E.
  - rewrite unique_cons, <- IH. f_equal. apply filter_differs_comm.
  - assert (x = y) as ->
      by (apply cell_same_true; unfold differs in E; now apply negb_false_iff in E).
    now rewrite filter_differs_idem.
Qed.

Lemma count_if_filter_differs :
  forall x k l, k <> x ->
    count_if (cell_same k) (filter (differs x) l) = count_if (cell_same k) l.
Proof.
  intros x k l Hne. unfold count_if.
  induction l as [|z l IH]; simpl; [reflexivity|].
  destruct (differs x z) eqn:Ex; simpl.
  - destruct (cell_same k z); simpl; now rewrite IH.
  - assert (x = z) as <-
      by (apply cell_same_true; unfold differs in Ex; now apply negb_false_iff in Ex).
    assert (cell_same k x = false) as ->; [|exact IH].
    destruct (cell_same k x) eqn:E; [|reflexivity].
    apply cell_same_true in E. contradiction.
Qed.

Lemma count_split :
  forall x l,
    (count_if (cell_same x) l + length (filter (differs x) l))%nat = length l.
Proof.
  intros x l. unfold count_if, differs.
  induction l as [|z l IH]; simpl; [reflexivity|].
  destruct (cell_same x z); simpl; lia.
Qed.

Lemma list_sum_cons :
  forall a l, list_sum (a :: l) = (a + list_sum l)%nat.
Proof. reflexivity. Qed.

(** The groups partition the rows: the counts of the distinct values add up
    to the number of rows. *)
Lemma sum_counts_unique :
  forall n l, (length l <= n)%nat ->
    list_sum (map (fun k => count_if (cell_same k) l) (unique l)) = length l.
Proof.
  induction n as [|n IH]; intros [|x l] Hl; simpl in Hl; try reflexivity; try lia.
  rewrite unique_cons, map_cons, list_sum_cons.
  rewrite unique_filter_differs.
  rewrite (map_ext_in _ (fun k => count_if (cell_same k) (filter (differs x) l))).
  - rewrite IH.
    + pose proof (count_split x (x :: l)) as H. cbn [filter] in H.
      unfold differs at 1 in H. rewrite cell_same_refl in H. simpl negb in H.
      cbv iota in H. exact H.
    + pose proof (filter_length_le (differs x) l). lia.
  - intros k Hk. apply unique_in_iff, filter_In in Hk. destruct Hk as [_ Hk].
    assert (Hne : k <> x).
    { intros ->. unfold differs in Hk. now rewrite cell_same_refl in Hk. }
    rewrite (count_if_filter_differs x k l Hne).
    unfold count_if. simpl.
    destruct (cell_same k x) eqn:E; [|reflexivity].
    apply cell_same_true in E. contradiction.
Qed.

Definition present (c : cell) : bool := negb (isna c).

Lemma groupby_keys :
  forall {A : Type} keys (vals : list A),
    map fst (groupby keys vals) = unique (filter present keys).
Proof.
  intros A keys vals. unfold groupby. rewrite map_map. simpl. apply map_id.
Qed.

Lemma length_group :
  forall {A : Type} k keys (vals : list A),
    length vals = length keys ->
    length (select (map (cell_same k) keys) vals) = count_if (cell_same k) keys.
Proof.
  intros A k keys vals H. rewrite length_select by now rewrite length_map.
  unfold count_if. clear H.
  induction keys as [|x keys IH]; simpl; [reflexivity|].
  destruct (cell_same k x); simpl; now rewrite IH.
Qed.

Lemma count_if_present :
  forall k keys, present k = true ->
    count_if (cell_same k) (filter present keys) = count_if (cell_same k) keys.
Proof.
  intros k keys Hk. unfold count_if.
  induction keys as [|x keys IH]; simpl; [reflexivity|].
  destruct (present x) eqn:Ex; simpl.
  - destruct (cell_same k x); simpl; now rewrite IH.
  - destruct (cell_same k x) eqn:E; [|exact IH].
    apply cell_same_true in E. subst x. congruence.
Qed.

(** What [groupby(...).size()] returns: one entry per distinct present key,
    each at least 1, adding up to the number of rows with a present key. *)
Lemma sizes_groupby :
  forall {A : Type} keys (vals : list A),
    length vals = length keys ->
    NoDup (map fst (sizes (groupby keys vals))) /\
    (forall k, In k (map fst (sizes (groupby keys vals))) <->
               In k keys /\ isna k = false) /\
    (forall k n, In (k, n) (sizes (groupby keys vals)) ->
                 n = count_if (cell_same k) keys /\ (1 <= n)%nat) /\
    list_sum (map snd (sizes (groupby keys vals))) = count_if present keys.
Proof.
  intros A keys vals Hlen.
  assert (Ek : map fst (sizes (groupby keys vals)) = unique (filter present keys)).
  { unfold sizes. rewrite map_map. simpl. apply groupby_keys. }
  assert (Hin : forall k, In k (unique (filter present keys)) <->
                          In k keys /\ isna k = false).
  { intros k. rewrite unique_in_iff, filter_In. unfold present.
    now rewrite negb_true_iff. }
  split; [rewrite Ek; apply unique_NoDup|].
  split; [intros k; rewrite Ek; apply Hin|].
  split.
  - intros k n H. unfold sizes, groupby in H. rewrite map_map in H.
    apply in_map_iff in H. destruct H as (k' & E & Hk'). simpl in E.
    injection E as -> <-. rewrite (length_group k keys vals Hlen).
    split; [reflexivity|].
    apply Hin in Hk'. destruct Hk' as [Hk' _].
    apply (count_if_positive (cell_same k) keys k Hk' (cell_same_refl k)).
  - unfold sizes, groupby. rewrite !map_map. simpl.
    rewrite (map_ext_in _ (fun k => count_if (cell_same k) (filter present keys))).
    + now rewrite (sum_counts_unique _ _ (Nat.le_refl _)).
    + intros k Hk. rewrite (length_group k keys vals Hlen).
      symmetry. apply count_if_present. apply Hin in Hk. unfold present.
      now rewrite (proj2 Hk).
Qed.

End GroupFacts.

(** * More on the summary (lines 118-155) *)

Section SummaryFacts.

Lemma summarize_reads :
  forall df resumo,
    summarize df = Ok resumo ->
    exists status dias responsavel tipo mes,
      getitem df "status_prazo" = Ok status /\
      getitem df "dias_de_atraso" = Ok dias /\
      getitem df "responsavel" = Ok responsavel /\
      getitem df "tipo_tarefa" = Ok tipo /\
      getitem df "mes_conclusao" = Ok mes /\
      resumo = summary_of (nrows df) status dias responsavel tipo mes.
Proof.
  intros df r. unfold summarize.
  destruct (getitem df "status_prazo") as [status|] eqn:Es;
    destruct (getitem df "dias_de_atraso") as [dias|] eqn:Ed;
    destruct (getitem df "responsavel") as [resp|] eqn:Er;
    destruct (getitem df "tipo_tarefa") as [tipo|] eqn:Et;
    destruct (getitem df "mes_conclusao") as [mes|] eqn:Em;
    destruct (0 <? nrows df)%nat eqn:E; simpl; try discriminate;
    intros H; injection H as <-;
    exists status, dias, resp, tipo, mes; unfold summary_of; rewrite E;
    repeat split; reflexivity.
Qed.

Lemma getitem_length :
  forall df c s, rectangular df -> getitem df c = Ok s -> length s = nrows df.
Proof.
  intros df c s Hr H. apply (column_length df c s Hr). now apply getitem_column.
Qed.

Lemma count_if_le :
  forall {A : Type} (f : A -> bool) l, (count_if f l <= length l)%nat.
Proof. intros A f l. apply filter_length_le. Qed.

Lemma percent_bounds :
  forall hits n, (hits <= n)%nat -> (0 <= percent hits n <= 100)%Q.
Proof.
  intros hits n H. unfold percent, Qle, Qmult. cbn [Qnum Qden].
  destruct n as [|n].
  - assert (hits = 0)%nat as -> by lia. simpl. lia.
  - rewrite Pos2Z.inj_mul, Zpos_of_nat by lia. lia.
Qed.

Lemma taxa_bounds : forall x, (0 <= taxa x <= 100)%Q.
Proof. intros x. apply percent_bounds, count_if_le. Qed.

Lemma taxas_bounds :
  forall groups k q, In (k, q) (taxas groups) -> (0 <= q <= 100)%Q.
Proof.
  intros groups k q H. unfold taxas in H. apply in_map_iff in H.
  destruct H as (g & E & _). injection E as _ <-. apply taxa_bounds.
Qed.

(** X4.  Lines 119, 138, 153 and 155: the overall on-time rate and every rate the
    per-assignee and monthly tables hold lie between 0 and 100, inside the
    range [0, 105] the monthly chart fixes for its axis. *)
Theorem rates_within_axis :
  forall df_filtrado resumo,
    rectangular df_filtrado ->
    summarize df_filtrado = Ok resumo ->
    (0 <= taxa_no_prazo resumo <= 100)%Q /\
    (forall k q, In (k, q) (df_prazo_resp resumo) -> (0 <= q <= 100)%Q) /\
    (forall k q, In (k, q) (df_evolucao resumo) -> (0 <= q <= 100)%Q).
Proof.
  intros df r Hrect H.
  destruct (summarize_reads df r H)
    as (status & dias & resp & tipo & mes & Es & _ & _ & _ & _ & ->).
  cbn [summary_of taxa_no_prazo df_prazo_resp df_evolucao].
  split; [|split; intros k q; apply taxas_bounds].
  destruct (0 <? nrows df)%nat.
  - apply percent_bounds. rewrite <- (getitem_length df _ _ Hrect Es).
    apply count_if_le.
  - split; discriminate.
Qed.

(** X5.  Line 133: the volume table lists each assignee once, leaves out the
    tasks with no assignee, counts at least one task for each assignee it
    lists, and its counts add up to the number of tasks that have an
    assignee: to the total when no assignee is missing. *)
Theorem tarefas_resp_partition :
  forall df_filtrado resumo responsavel,
    rectangular df_filtrado ->
    summarize df_filtrado = Ok resumo ->
    getitem df_filtrado "responsavel" = Ok responsavel ->
    NoDup (map fst (df_tarefas_resp resumo)) /\
    (forall k, In k (map fst (df_tarefas_resp resumo)) <->
               In k responsavel /\ isna k = false) /\
    (forall k n, In (k, n) (df_tarefas_resp resumo) ->
                 n = count_if (cell_same k) responsavel /\ (1 <= n)%nat) /\
    list_sum (map snd (df_tarefas_resp resumo)) = count_if present responsavel /\
    (list_sum (map snd (df_tarefas_resp resumo)) <= total_tarefas resumo)%nat /\
    (Forall (fun c => isna c = false) responsavel ->
     list_sum (map snd (df_tarefas_resp resumo)) = total_tarefas resumo).
Proof.
  intros df r resp Hrect H Hresp.
  destruct (summarize_reads df r H)
    as (status & dias & resp' & tipo & mes & _ & _ & Er & _ & _ & ->).
  rewrite Hresp in Er. injection Er as <-.
  cbn [summary_of df_tarefas_resp total_tarefas].
  destruct (sizes_groupby resp resp eq_refl) as (Hnd & Hkeys & Hn & Hsum).
  pose proof (getitem_length df _ _ Hrect Hresp) as Hlen.
  refine (conj Hnd (conj Hkeys (conj Hn (conj Hsum (conj _ _))))).
  - rewrite Hsum, <- Hlen. apply count_if_le.
  - intros Hall. rewrite Hsum, <- Hlen. unfold count_if. f_equal.
    apply forallb_filter_id. apply forallb_forall. intros c Hc.
    rewrite Forall_forall in Hall. unfold present. now rewrite (Hall c Hc).
Qed.

End SummaryFacts.

(** * Rates by group (lines 138 and 153) *)

Section GroupRates.

Lemma count_if_ext :
  forall {A : Type} (f g : A -> bool) l,
    (forall x, In x l -> f x = g x) -> count_if f l = count_if g l.
Proof.
  intros A f g l H. unfold count_if. f_equal. now apply filter_ext_in.
Qed.

Lemma count_if_true :
  forall {A : Type} (l : list A), count_if (fun _ => true) l = length l.
Proof.
  intros A l. unfold count_if. induction l as [|x l IH]; simpl; congruence.
Qed.

Lemma count_if_pos_iff :
  forall {A : Type} (f : A -> bool) l,
    (1 <= count_if f l)%nat <-> exists x, In x l /\ f x = true.
Proof.
  intros A f l. unfold count_if. split.
  - destruct (filter f l) as [|x t] eqn:E; simpl; [lia|]. intros _.
    assert (Hx : In x (filter f l)) by (rewrite E; now left).
    apply filter_In in Hx. now exists x.
  - intros (x & Hx & Hf).
    assert (Hin : In x (filter f l)) by now apply filter_In.
    destruct (filter f l); [destruct Hin|simpl; lia].
Qed.

(** The rows of one group of [df[mask].groupby(key)[val]], counted on the
    rows of the frame. *)
Lemma count_group :
  forall {A B : Type} (f : A -> bool) (h g : B -> bool) a b,
    count_if g (select (map f (select (map h b) a)) (select (map h b) b))
    = count_if (fun p => f (fst p) && h (snd p) && g (snd p)) (combine a b).
Proof.
  intros A B f h g. unfold count_if.
  induction a as [|x a IH]; intros [|y b]; simpl; try reflexivity.
  destruct (h y) eqn:Eh; simpl.
  - destruct (f x); simpl; [|apply IH].
    destruct (g y); simpl; now rewrite IH.
  - rewrite andb_false_r. simpl. apply IH.
Qed.

Lemma in_select_combine :
  forall {A B : Type} (h : B -> bool) a b (k : A),
    In k (select (map h b) a) <->
    exists y, In (k, y) (combine a b) /\ h y = true.
Proof.
  intros A B h. induction a as [|x a IH]; intros [|y b] k; simpl.
  - split; [tauto|]. now intros (? & [] & _).
  - split; [tauto|]. now intros (? & [] & _).
  - split; [tauto|]. now intros (? & [] & _).
  - destruct (h y) eqn:Eh.
    + split.
      * intros [<-|H]; [exists y; split; [now left|exact Eh]|].
        apply IH in H. destruct H as (y' & Hy & Hh). exists y'. tauto.
      * intros (y' & [E|Hy] & Hh).
        -- injection E as -> _. now left.
        -- right. apply IH. now exists y'.
    + rewrite IH. split.
      * intros (y' & Hy & Hh). exists y'. tauto.
      * intros (y' & [E|Hy] & Hh); [injection E as _ ->; congruence|].
        now exists y'.
Qed.

Lemma taxas_groupby_in :
  forall keys vals k q,
    In (k, q) (taxas (groupby keys vals)) <->
    In k keys /\ isna k = false /\
    q = taxa (select (map (cell_same k) keys) vals).
Proof.
  intros keys vals k q. unfold taxas, groupby. rewrite map_map. simpl.
  rewrite in_map_iff. split.
  - intros (k' & E & Hk). injection E as -> <-.
    apply unique_in_iff, filter_In in Hk. destruct Hk as [Hk Hp].
    apply negb_true_iff in Hp. auto.
  - intros (Hk & Hp & ->). exists k. split; [reflexivity|].
    apply unique_in_iff, filter_In. split; [exact Hk|]. now rewrite Hp.
Qed.

Lemma taxas_groupby_keys :
  forall keys vals, NoDup (map fst (taxas (groupby keys vals))).
Proof.
  intros keys vals. unfold taxas. rewrite map_map. simpl.
  change (NoDup (map fst (groupby keys vals))).
  rewrite groupby_keys. apply unique_NoDup.
Qed.

(** A task of the assignee (or month) [k] that is not pending, and one that
    is on time; a row is a pair (key, status). *)
Definition concluida_de (k : cell) (p : cell * cell) : bool :=
  cell_same k (fst p) && negb (eq_str "Pendente" (snd p)).

Definition no_prazo_de (k : cell) (p : cell * cell) : bool :=
  cell_same k (fst p) && eq_str "No Prazo" (snd p).

Lemma no_prazo_not_pendente :
  forall c, eq_str "No Prazo" c = true -> eq_str "Pendente" c = false.
Proof.
  intros [s| | | |]; simpl; try discriminate.
  intros H. apply String.eqb_eq in H. now subst s.
Qed.

(** The table [df[status != 'Pendente'].groupby(key)['status_prazo'].apply(
    lambda x: (x == 'No Prazo').sum() / len(x) * 100)], row by row. *)
Lemma taxas_concluidas :
  forall keys status k q,
    let concluidas := map (fun c => negb (eq_str "Pendente" c)) status in
    let tarefas := combine keys status in
    In (k, q) (taxas (groupby (select concluidas keys) (select concluidas status)))
    <->
    isna k = false /\
    (1 <= count_if (concluida_de k) tarefas)%nat /\
    q = percent (count_if (no_prazo_de k) tarefas)
                (count_if (concluida_de k) tarefas).
Proof.
  intros keys status k q concluidas tarefas.
  rewrite taxas_groupby_in.
  assert (Hin : In k (select concluidas keys) <->
                (1 <= count_if (concluida_de k) tarefas)%nat).
  { unfold concluidas. rewrite in_select_combine, count_if_pos_iff. split.
    - intros (y & Hy & Hh). exists (k, y). split; [exact Hy|].
      unfold concluida_de. simpl. now rewrite cell_same_refl, Hh.
    - intros ([k' y] & Hy & Hc). unfold concluida_de in Hc. simpl in Hc.
      apply andb_true_iff in Hc. destruct Hc as [Hk Hh].
      apply cell_same_true in Hk. subst k'. now exists y. }
  assert (Hq : taxa (select (map (cell_same k) (select concluidas keys))
                       (select concluidas status))
               = percent (count_if (no_prazo_de k) tarefas)
                         (count_if (concluida_de k) tarefas)).
  { unfold taxa, concluidas. rewrite <- count_if_true.
    rewrite !count_group. f_equal; apply count_if_ext; intros [k' y] _;
      unfold no_prazo_de, concluida_de; simpl.
    - destruct (cell_same k k'); simpl; [|reflexivity].
      destruct (eq_str "No Prazo" y) eqn:E; [|apply andb_false_r].
      now rewrite (no_prazo_not_pendente y E).
    - apply andb_true_r. }
  rewrite Hin, Hq. tauto.
Qed.

(** X6.  Line 138: the per-assignee rate table lists each assignee once, and
    lists exactly the assignees (missing ones apart) that have at least one
    task that is not pending; the rate of an assignee is the share of its
    on-time tasks among its tasks that are not pending, so the division is
    never by zero. *)
Theorem prazo_resp_groups :
  forall df_filtrado resumo responsavel status,
    summarize df_filtrado = Ok resumo ->
    getitem df_filtrado "responsavel" = Ok responsavel ->
    getitem df_filtrado "status_prazo" = Ok status ->
    NoDup (map fst (df_prazo_resp resumo)) /\
    forall k q,
      In (k, q) (df_prazo_resp resumo) <->
      isna k = false /\
      (1 <= count_if (concluida_de k) (combine responsavel status))%nat /\
      q = percent (count_if (no_prazo_de k) (combine responsavel status))
                  (count_if (concluida_de k) (combine responsavel status)).
Proof.
  intros df r resp status H Hresp Hstatus.
  destruct (summarize_reads df r H)
    as (status' & dias & resp' & tipo & mes & Es & _ & Er & _ & _ & ->).
  rewrite Hresp in Er. injection Er as <-.
  rewrite Hstatus in Es. injection Es as <-.
  cbn [summary_of df_prazo_resp].
  split; [apply taxas_groupby_keys|].
  intros k q. apply taxas_concluidas.
Qed.

End GroupRates.

(** * A task with no due date, through the dashboard (lines 58-66, 112-138) *)

Section NoDueDateCounted.

Context {env : Pandas}.






End NoDueDateCounted.




(** * The tables of a processed file (lines 104-153) *)

Section ProcessedFile.

Context {env : Pandas}.

Definition is_categoria (c : cell) : Prop :=
  exists s, c = VStr s /\ In s categorias.

Lemma categorizar_tarefa_in :
  forall nome, In (categorizar_tarefa nome) categorias.
Proof.
  intros nome. unfold categorizar_tarefa, categorias.
  destruct (any_in fiscal_keywords _); [simpl; tauto|].
  destruct (any_in contabil_keywords _); [simpl; tauto|].
  destruct (any_in pessoal_keywords _); simpl; tauto.
Qed.

Lemma written_tipo :
  forall df prevista real atraso nomes,
    column (written df prevista real atraso nomes) "tipo_tarefa"
    = Some (map (fun nome => VStr (categorizar_tarefa nome)) nomes).
Proof.
  intros. unfold written.
  rewrite column_setitem_other by discriminate. apply column_setitem_same.
Qed.

Lemma calcular_metricas_tipo :
  forall df df',
    calcular_metricas df = Ok df' ->
    exists tipo, column df' "tipo_tarefa" = Some tipo /\ Forall is_categoria tipo.
Proof.
  intros df df' H.
  destruct (calcular_metricas_reads df df' H)
    as (pb & rb & nomes & atraso & _ & _ & _ & _ & ->).
  eexists. split; [apply written_tipo|].
  apply Forall_map, Forall_forall. intros nome _.
  eexists. split; [reflexivity|apply categorizar_tarefa_in].
Qed.

(** The frame the tables are computed from: analysed, filtered. *)
Lemma processed_frame :
  forall df df_analise cliente_filtro responsavel_filtro df_filtrado,
    well_formed df ->
    calcular_metricas df = Ok df_analise ->
    filtrar df_analise cliente_filtro responsavel_filtro = Ok df_filtrado ->
    exists prevista real tipo,
      analysed df_filtrado prevista real /\
      column df_filtrado "tipo_tarefa" = Some tipo /\
      Forall is_categoria tipo.
Proof.
  intros df dfa cf rf dff Hwf Hc Hf.
  destruct (calcular_metricas_analysed df dfa Hwf Hc) as (prevista & real & Han).
  destruct (calcular_metricas_tipo df dfa Hc) as (tipo & Ct & Ht).
  destruct (filtrar_analysed _ _ _ _ _ _ Han Hf)
    as (mask & resp & _ & -> & _ & _ & Han').
  exists (select mask prevista), (select mask real), (select mask tipo).
  split; [exact Han'|]. split.
  - rewrite column_select_rows, Ct. reflexivity.
  - now apply Forall_select.
Qed.

(** The columns [summarize] reads from such a frame. *)
Lemma processed_summary :
  forall df prevista real tipo resumo,
    analysed df prevista real ->
    column df "tipo_tarefa" = Some tipo ->
    summarize df = Ok resumo ->
    exists dias responsavel,
      getitem df "responsavel" = Ok responsavel /\
      resumo = summary_of (nrows df) (map2 status_of real prevista) dias
                 responsavel tipo (map mes_str real).
Proof.
  intros df prevista real tipo r Han Ct H.
  destruct (summarize_reads df r H)
    as (status & dias & resp & tipo' & mes & Es & _ & Er & Et & Em & ->).
  apply getitem_column in Es, Et, Em.
  rewrite (an_status _ _ _ Han) in Es. injection Es as <-.
  rewrite (an_mes _ _ _ Han) in Em. injection Em as <-.
  rewrite Ct in Et. injection Et as <-.
  now exists dias, resp.
Qed.

Lemma sizes_keys :
  forall {A : Type} (groups : list (cell * list A)),
    map fst (sizes groups) = map fst groups.
Proof. intros A groups. unfold sizes. rewrite map_map. reflexivity. Qed.

Lemma count_if_all :
  forall {A : Type} (f : A -> bool) l,
    Forall (fun x => f x = true) l -> count_if f l = length l.
Proof.
  intros A f l H. unfold count_if. f_equal. apply forallb_filter_id.
  apply forallb_forall. now apply Forall_forall.
Qed.

Lemma count_mask :
  forall {A : Type} (f : A -> bool) l,
    length (filter (fun b : bool => b) (map f l)) = count_if f l.
Proof.
  intros A f l. unfold count_if. induction l as [|x l IH]; simpl; [reflexivity|].
  destruct (f x); simpl; now rewrite IH.
Qed.

Lemma is_categoria_present : forall c, is_categoria c -> present c = true.
Proof. intros c (s & -> & _). reflexivity. Qed.

(** X7.  Line 144: the table of late tasks by category lists each category at
    most once, lists only the four categories of the classifier (so it has
    at most four rows), counts at least one late task for each category it
    lists, and its counts add up to the number of late tasks. *)
Theorem atraso_tipo_partition :
  forall df df_analise cliente_filtro responsavel_filtro df_filtrado resumo,
    well_formed df ->
    calcular_metricas df = Ok df_analise ->
    filtrar df_analise cliente_filtro responsavel_filtro = Ok df_filtrado ->
    summarize df_filtrado = Ok resumo ->
    exists status,
      getitem df_filtrado "status_prazo" = Ok status /\
      NoDup (map fst (df_atraso_tipo resumo)) /\
      (forall k n, In (k, n) (df_atraso_tipo resumo) ->
                   is_categoria k /\ (1 <= n)%nat) /\
      (length (df_atraso_tipo resumo) <= 4)%nat /\
      list_sum (map snd (df_atraso_tipo resumo))
      = count_if (eq_str "Em Atraso") status.
Proof.
  intros df dfa cf rf dff r Hwf Hc Hf Hs.
  destruct (processed_frame _ _ _ _ _ Hwf Hc Hf)
    as (prevista & real & tipo & Han & Ct & Ht).
  destruct (processed_summary _ _ _ _ _ Han Ct Hs) as (dias & resp & _ & ->).
  exists (map2 status_of real prevista).
  split; [exact (analysed_getitem _ _ _ _ _ Han (an_status _ _ _ Han))|].
  cbn [summary_of df_atraso_tipo].
  set (status := map2 status_of real prevista).
  set (atrasadas := map (eq_str "Em Atraso") status).
  destruct (sizes_groupby (select atrasadas tipo) (select atrasadas tipo) eq_refl)
    as (Hnd & Hkeys & Hn & Hsum).
  assert (Htipo : Forall is_categoria (select atrasadas tipo))
    by now apply Forall_select.
  assert (Hcat : forall k, In k (map fst (sizes (groupby (select atrasadas tipo)
                                                  (select atrasadas tipo)))) ->
                           is_categoria k).
  { intros k Hk. apply Hkeys in Hk. rewrite Forall_forall in Htipo.
    now apply Htipo. }
  refine (conj Hnd (conj _ (conj _ _))).
  - intros k n Hkn. split; [|exact (proj2 (Hn k n Hkn))].
    apply Hcat. apply in_map_iff. now exists (k, n).
  - rewrite <- (length_map fst).
    change 4%nat with (length (map VStr categorias)).
    apply NoDup_incl_length; [exact Hnd|].
    intros k Hk. destruct (Hcat k Hk) as (s & -> & Hin). now apply in_map.
  - rewrite Hsum, count_if_all.
    + assert (Hlen : length tipo = length atrasadas).
      { pose proof (column_length _ _ _ (proj2 (an_well_formed _ _ _ Han)) Ct).
        pose proof (an_real_length _ _ _ Han).
        pose proof (an_prevista_length _ _ _ Han).
        unfold atrasadas, status. rewrite length_map, length_map2; lia. }
      rewrite (length_select atrasadas tipo Hlen). apply count_mask.
    + eapply Forall_impl; [|exact Htipo]. apply is_categoria_present.
Qed.

Lemma length_period_str : forall t, String.length (period_str t) = 7%nat.
Proof.
  intros t. unfold period_str.
  destruct (civil_from_days (t / ns_per_day)) as [[y m] d].
  rewrite !string_length_append, !length_zero_padded. reflexivity.
Qed.

Lemma period_str_not_NaT : forall t, period_str t <> "NaT".
Proof.
  intros t E. pose proof (length_period_str t) as H. rewrite E in H.
  discriminate.
Qed.

Lemma status_of_concluida :
  forall r p, negb (eq_str "Pendente" (status_of r p)) = negb (dt_isna r).
Proof.
  intros [r|] p; unfold status_of; cbn [dt_isna]; [|reflexivity].
  destruct (dt_gt (Some r) p); reflexivity.
Qed.

(** The month keys that reach the monthly table. *)
Lemma months_of_concluidas :
  forall real prevista k,
    length real = length prevista ->
    (In k (select (map (fun c => negb (eq_str "Pendente" c))
                       (map2 status_of real prevista))
                  (map mes_str real))
     <-> exists t, In (Some t) real /\ k = VStr (period_str t)).
Proof.
  induction real as [|r real IH]; intros [|p prevista] k Hlen;
    simpl in Hlen; try discriminate.
  - simpl. split; [tauto|]. now intros (t & [] & _).
  - injection Hlen as Hlen. cbn [map2 map select].
    rewrite status_of_concluida. destruct r as [t|]; cbn [dt_isna negb].
    + cbn [In]. rewrite (IH prevista k Hlen). split.
      * intros [<-|(t' & Ht' & ->)]; [exists t|exists t']; auto.
      * intros (t' & [E|Ht'] & ->); [injection E as ->; now left|].
        right. now exists t'.
    + rewrite (IH prevista k Hlen). split.
      * intros (t' & Ht' & ->). exists t'. cbn [In]. auto.
      * intros (t' & [E|Ht'] & ->); [discriminate|]. now exists t'.
Qed.

(** X8.  Lines 151-153: the monthly table lists each month once, and lists
    exactly the months [YYYY-MM] in which a task of the filtered set was
    completed.  The text [NaT], which [mes_conclusao] holds for the tasks
    still open up to pandas 2, never reaches it. *)
Theorem evolucao_months :
  forall df df_analise cliente_filtro responsavel_filtro df_filtrado resumo,
    well_formed df ->
    calcular_metricas df = Ok df_analise ->
    filtrar df_analise cliente_filtro responsavel_filtro = Ok df_filtrado ->
    summarize df_filtrado = Ok resumo ->
    NoDup (map fst (df_evolucao resumo)) /\
    (forall k, In k (map fst (df_evolucao resumo)) <->
       exists i t, cell_at df_filtrado "data_real_conclusao" i = Some (VTime t) /\
                   k = VStr (period_str t)) /\
    ~ In (VStr "NaT") (map fst (df_evolucao resumo)).
Proof.
  intros df dfa cf rf dff r Hwf Hc Hf Hs.
  destruct (processed_frame _ _ _ _ _ Hwf Hc Hf)
    as (prevista & real & tipo & Han & Ct & Ht).
  destruct (processed_summary _ _ _ _ _ Han Ct Hs) as (dias & resp & _ & ->).
  cbn [summary_of df_evolucao].
  assert (Hlen : length real = length prevista).
  { rewrite (an_real_length _ _ _ Han). symmetry.
    exact (an_prevista_length _ _ _ Han). }
  assert (Hkeys : forall k,
    In k (map fst (taxas (groupby
            (select (map (fun c => negb (eq_str "Pendente" c))
                         (map2 status_of real prevista)) (map mes_str real))
            (select (map (fun c => negb (eq_str "Pendente" c))
                         (map2 status_of real prevista))
                    (map2 status_of real prevista)))))
    <-> exists t, In (Some t) real /\ k = VStr (period_str t)).
  { intros k. rewrite <- (months_of_concluidas real prevista k Hlen).
    rewrite in_map_iff. split.
    - intros ([k' q] & E & Hin). simpl in E. subst k'.
      now apply taxas_groupby_in in Hin.
    - intros Hin. eexists (k, _). split; [reflexivity|].
      apply taxas_groupby_in. split; [exact Hin|]. split; [|reflexivity].
      apply (months_of_concluidas real prevista k Hlen) in Hin.
      now destruct Hin as (t & _ & ->). }
  split; [apply taxas_groupby_keys|]. split.
  - intros k. rewrite Hkeys. unfold cell_at. rewrite (an_real _ _ _ Han).
    split.
    + intros (t & Hin & ->). apply In_nth_error in Hin.
      destruct Hin as [i Hi]. exists i, t. split; [|reflexivity].
      now rewrite nth_error_map, Hi.
    + intros (i & t & Hi & ->). exists t. split; [|reflexivity].
      rewrite nth_error_map in Hi.
      destruct (nth_error real i) as [[t'|]|] eqn:E; simpl in Hi;
        try discriminate.
      injection Hi as ->. now apply nth_error_In in E.
  - intros Hin. apply Hkeys in Hin. destruct Hin as (t & _ & E).
    apply (period_str_not_NaT t). symmetry.
    exact (f_equal (fun c => match c with VStr s => s | _ => EmptyString end) E).
Qed.

Lemma status_of_counts :
  forall real prevista,
    length real = length prevista ->
    length real
    = (count_if (eq_str "No Prazo") (map2 status_of real prevista)
       + count_if (eq_str "Em Atraso") (map2 status_of real prevista)
       + count_if (eq_str "Pendente") (map2 status_of real prevista))%nat.
Proof.
  unfold count_if.
  induction real as [|r real IH]; intros [|p prevista] Hlen; simpl in Hlen;
    try discriminate; [reflexivity|].
  injection Hlen as Hlen. specialize (IH prevista Hlen). cbn [map2].
  assert (Hc : status_of r p = VStr "Pendente" \/
               status_of r p = VStr "Em Atraso" \/
               status_of r p = VStr "No Prazo").
  { unfold status_of. destruct (dt_isna r); [now left|].
    destruct (dt_gt r p); auto. }
  destruct Hc as [-> | [-> | ->]]; simpl; lia.
Qed.

(** X9.  Lines 61-63 and 118-119: every task of the filtered set is counted
    under exactly one of the three status values, so the total is the sum of
    the on-time, late and pending counts; the overall on-time rate divides
    the on-time count by that total, pending tasks included (the
    per-assignee and monthly rates leave them out). *)
Theorem total_by_status :
  forall df df_analise cliente_filtro responsavel_filtro df_filtrado resumo,
    well_formed df ->
    calcular_metricas df = Ok df_analise ->
    filtrar df_analise cliente_filtro responsavel_filtro = Ok df_filtrado ->
    summarize df_filtrado = Ok resumo ->
    exists status,
      getitem df_filtrado "status_prazo" = Ok status /\
      let no_prazo := count_if (eq_str "No Prazo") status in
      let em_atraso := count_if (eq_str "Em Atraso") status in
      let pendente := count_if (eq_str "Pendente") status in
      total_tarefas resumo = (no_prazo + em_atraso + pendente)%nat /\
      taxa_no_prazo resumo
      = if (0 <? total_tarefas resumo)%nat
        then percent no_prazo (no_prazo + em_atraso + pendente)
        else 0%Q.
Proof.
  intros df dfa cf rf dff r Hwf Hc Hf Hs.
  destruct (processed_frame _ _ _ _ _ Hwf Hc Hf)
    as (prevista & real & tipo & Han & Ct & Ht).
  destruct (processed_summary _ _ _ _ _ Han Ct Hs) as (dias & resp & _ & ->).
  exists (map2 status_of real prevista).
  split; [exact (analysed_getitem _ _ _ _ _ Han (an_status _ _ _ Han))|].
  cbn [summary_of total_tarefas taxa_no_prazo].
  assert (Hlen : length real = length prevista).
  { rewrite (an_real_length _ _ _ Han). symmetry.
    exact (an_prevista_length _ _ _ Han). }
  pose proof (status_of_counts real prevista Hlen) as Hn.
  rewrite (an_real_length _ _ _ Han) in Hn.
  cbv zeta. rewrite <- Hn. split; reflexivity.
Qed.

End ProcessedFile.

(** * More on the metrics engine (lines 56-72) *)

Section EngineFacts.

Context {env : Pandas}.

Lemma sub_series_raises :
  forall l1 l2 e, sub_series l1 l2 = Raise e -> e = OverflowError.
Proof.
  induction l1 as [|a l1 IH]; intros [|b l2] e; simpl; try discriminate.
  destruct a as [x|], b as [y|]; simpl;
    try (destruct (sub_series l1 l2) eqn:E; simpl; [discriminate|];
         intros H; injection H as <-; now apply (IH l2)).
  destruct (td_ok (x - y)); simpl; [|intros H; now injection H as <-].
  destruct (sub_series l1 l2) eqn:E; simpl; [discriminate|].
  intros H; injection H as <-; now apply (IH l2).
Qed.

Lemma has_label_column :
  forall df c, has_label df c = false <-> column df c = None.
Proof.
  intros df c. rewrite column_none_iff. unfold has_label, labels.
  rewrite <- existsb_named_In. now destruct (existsb (named c) (columns df)).
Qed.

Lemma has_label_getitem :
  forall df c, NoDup (labels df) -> has_label df c = true ->
    exists s, getitem df c = Ok s.
Proof.
  intros df c Hnd H. destruct (column df c) as [s|] eqn:E.
  - exists s. now apply column_getitem.
  - apply has_label_column in E. congruence.
Qed.

(** The first of the three columns the engine reads that the frame lacks. *)
Definition primeira_ausente (df : DataFrame) : option string :=
  find (fun c => negb (has_label df c))
       ["data_prevista_conclusao"; "data_real_conclusao"; "nome_tarefa"].

Lemma getitem_raises :
  forall df c e,
    getitem df c = Raise e ->
    (e = KeyError c /\ has_label df c = false) \/ e = NotASeries c.
Proof.
  intros df c e. unfold getitem, has_label.
  destruct (filter (named c) (columns df)) as [|p [|q rest]] eqn:E;
    try discriminate; intros H; injection H as <-; [left|now right].
  split; [reflexivity|].
  destruct (existsb (named c) (columns df)) eqn:Ex; [|reflexivity].
  apply existsb_exists in Ex. destruct Ex as (x & Hin & Hx).
  assert (Hf : In x (filter (named c) (columns df))) by now apply filter_In.
  rewrite E in Hf. destruct Hf.
Qed.

Lemma getitem_ok_has_label :
  forall df c s, getitem df c = Ok s -> has_label df c = true.
Proof.
  intros df c s H. destruct (has_label df c) eqn:E; [reflexivity|].
  apply has_label_column in E. apply getitem_column in H. congruence.
Qed.

(** X10.  Lines 58, 59 and 69: a [KeyError] raised by [calcular_metricas]
    names one column only, the first of the due date, the completion date
    and the task name (in the order the engine reads them) that the frame
    lacks; the columns missing after it are not reported.  A frame with no
    due-date column gets that error from the first statement. *)
Theorem calcular_metricas_first_missing :
  forall df,
    (column df "data_prevista_conclusao" = None ->
     calcular_metricas df = Raise (KeyError "data_prevista_conclusao")) /\
    (forall c, calcular_metricas df = Raise (KeyError c) ->
               primeira_ausente df = Some c).
Proof.
  intros df. split; [apply calcular_metricas_missing_due_date|].
  intros c. unfold calcular_metricas, primeira_ausente. cbn [find].
  destruct (getitem df "data_prevista_conclusao") as [pb|e] eqn:Ep; cbn [bind].
  2:{ intros H. injection H as ->.
      destruct (getitem_raises _ _ _ Ep) as [[E Hl]|E]; [|discriminate].
      injection E as ->. now rewrite Hl. }
  rewrite (getitem_ok_has_label _ _ _ Ep). cbn [negb].
  rewrite getitem_setitem_other by discriminate.
  destruct (getitem df "data_real_conclusao") as [rb|e] eqn:Er; cbn [bind].
  2:{ intros H. injection H as ->.
      destruct (getitem_raises _ _ _ Er) as [[E Hl]|E]; [|discriminate].
      injection E as ->. now rewrite Hl. }
  rewrite (getitem_ok_has_label _ _ _ Er). cbn [negb].
  destruct (sub_series (to_datetime rb) (to_datetime pb)) as [atraso|e] eqn:Es;
    cbn [bind].
  2:{ intros H. injection H as ->.
      pose proof (sub_series_raises _ _ _ Es). discriminate. }
  rewrite getitem_loc_set_other by discriminate.
  rewrite getitem_setitem_other by discriminate.
  rewrite !getitem_loc_set_other by discriminate.
  unfold setitem_scalar.
  rewrite !getitem_setitem_other by discriminate.
  destruct (getitem df "nome_tarefa") as [nomes|e] eqn:En; cbn [bind];
    [discriminate|].
  intros H. injection H as ->.
  destruct (getitem_raises _ _ _ En) as [[E Hl]|E]; [|discriminate].
  injection E as ->. now rewrite Hl.
Qed.

(** ** The columns of the result, in order *)

Definition has (c : string) (l : list string) : bool :=
  existsb (fun l' => String.eqb l' c) l.

Lemma has_label_has : forall df c, has_label df c = has c (labels df).
Proof.
  intros df c. unfold has_label, has, labels.
  induction (columns df) as [|p cols IH]; [reflexivity|].
  simpl. now rewrite IH.
Qed.

Lemma has_app :
  forall c l1 l2, has c (l1 ++ l2)%list = has c l1 || has c l2.
Proof. intros. apply existsb_app. Qed.

Lemma labels_setitem :
  forall df c s,
    labels (setitem df c s)
    = (labels df ++ (if has c (labels df) then [] else [c]))%list.
Proof.
  intros df c s. rewrite <- has_label_has. unfold setitem, labels.
  destruct (has_label df c); simpl.
  - now rewrite (labels_update c (fun _ => s)), app_nil_r.
  - now rewrite map_app.
Qed.

Lemma labels_loc_set :
  forall df mask c v, labels (loc_set df mask c v) = labels df.
Proof.
  intros. unfold labels, loc_set. simpl.
  apply (labels_update c (where_set mask v)).
Qed.

Lemma getitem_has :
  forall df c s, getitem df c = Ok s -> has c (labels df) = true.
Proof.
  intros df c s H. rewrite <- has_label_has.
  destruct (has_label df c) eqn:E; [reflexivity|].
  apply has_label_column in E. apply getitem_column in H. congruence.
Qed.

Definition derived_labels : list string :=
  ["status_prazo"; "dias_de_atraso"; "tipo_tarefa"; "mes_conclusao"].

Lemma labels_written :
  forall df prevista real atraso nomes,
    has "data_prevista_conclusao" (labels df) = true ->
    has "data_real_conclusao" (labels df) = true ->
    labels (written df prevista real atraso nomes)
    = (labels df ++ filter (fun c => negb (has_label df c)) derived_labels)%list.
Proof.
  intros df prevista real atraso nomes Hp Hr.
  unfold written, setitem_scalar, derived_labels. cbn [filter].
  rewrite !has_label_has.
  repeat first [ rewrite labels_setitem | rewrite labels_loc_set ].
  generalize dependent (labels df). intros L Hp Hr.
  rewrite Hp, app_nil_r, Hr, app_nil_r.
  destruct (has "status_prazo" L) eqn:Hs;
    destruct (has "dias_de_atraso" L) eqn:Hd;
    destruct (has "tipo_tarefa" L) eqn:Ht;
    destruct (has "mes_conclusao" L) eqn:Hm;
    repeat (rewrite ?has_app, ?Hs, ?Hd, ?Ht, ?Hm, ?app_nil_r; cbn -[app]);
    rewrite <- ?app_assoc; reflexivity.
Qed.

(** X11.  Lines 61-72: the result is a well-formed frame with the rows of the
    input; the columns of the input keep their places, and those of the four
    derived columns the input did not have yet are appended after them, in
    the order status, delay, category, month. *)
Theorem calcular_metricas_columns :
  forall df df',
    well_formed df ->
    calcular_metricas df = Ok df' ->
    well_formed df' /\
    nrows df' = nrows df /\
    labels df'
    = (labels df ++ filter (fun c => negb (has_label df c)) derived_labels)%list.
Proof.
  intros df df' Hwf H.
  destruct (calcular_metricas_analysed df df' Hwf H) as (p & r & Han).
  split; [exact (an_well_formed _ _ _ Han)|].
  destruct (calcular_metricas_reads df df' H)
    as (pb & rb & nomes & atraso & Ep & Er & _ & _ & ->).
  split; [apply nrows_written|].
  apply labels_written; eapply getitem_has; eassumption.
Qed.

(** ** Running the engine twice *)

Lemma columns_ext :
  forall ca cb : list (string * Series),
    map fst ca = map fst cb ->
    NoDup (map fst ca) ->
    (forall c, In c (map fst ca) ->
       option_map snd (find (named c) ca) = option_map snd (find (named c) cb)) ->
    ca = cb.
Proof.
  induction ca as [|[l s] ca IH]; intros [|[l' s'] cb] Hl Hnd H;
    simpl in Hl; try discriminate; [reflexivity|].
  injection Hl as <- Hl. inversion Hnd as [|? ? Hnotin Hnd']; subst.
  pose proof (H l (or_introl eq_refl)) as Hhead. simpl in Hhead.
  unfold named in Hhead. simpl in Hhead. rewrite String.eqb_refl in Hhead.
  simpl in Hhead. injection Hhead as <-.
  f_equal. apply IH; auto.
  intros c Hc. pose proof (H c (or_intror Hc)) as Hc'. simpl in Hc'.
  unfold named at 1 3 in Hc'. simpl in Hc'.
  destruct (String.eqb_spec l c) as [->|Hne]; [contradiction|exact Hc'].
Qed.

Lemma frame_ext :
  forall a b,
    nrows a = nrows b -> labels a = labels b -> NoDup (labels a) ->
    (forall c, In c (labels a) -> column a c = column b c) ->
    a = b.
Proof.
  intros [n ca] [m cb]. unfold labels, column. simpl.
  intros -> Hl Hnd H. f_equal. now apply columns_ext.
Qed.

Lemma labels_written_again :
  forall df prevista real atraso nomes,
    (forall c, In c written_labels -> has c (labels df) = true) ->
    labels (written df prevista real atraso nomes) = labels df.
Proof.
  intros df prevista real atraso nomes H.
  rewrite labels_written by (apply H; simpl; auto).
  unfold derived_labels. cbn [filter]. rewrite !has_label_has.
  rewrite !H by (simpl; auto 7). simpl. apply app_nil_r.
Qed.

Lemma column_has :
  forall df c s, column df c = Some s -> has c (labels df) = true.
Proof.
  intros df c s H. rewrite <- has_label_has.
  destruct (has_label df c) eqn:E; [reflexivity|].
  apply has_label_column in E. congruence.
Qed.

(** X12.  Lines 56-72: applied to a frame it has produced, [calcular_metricas]
    returns that frame unchanged: the parsed dates are parsed to themselves
    and every derived column is recomputed to the value it holds. *)
Theorem calcular_metricas_idempotent :
  forall df df',
    well_formed df ->
    calcular_metricas df = Ok df' ->
    calcular_metricas df' = Ok df'.
Proof.
  intros df df' Hwf H.
  destruct (calcular_metricas_reads df df' H)
    as (pb & rb & nomes & atraso & Ep & Er & En & Es & E).
  set (p := to_datetime pb) in *. set (r := to_datetime rb) in *.
  assert (Hlp : length p = nrows df).
  { unfold p. rewrite to_datetime_length.
    exact (column_length _ _ _ (proj2 Hwf) (getitem_column _ _ _ Ep)). }
  assert (Hlr : length r = nrows df).
  { unfold r. rewrite to_datetime_length.
    exact (column_length _ _ _ (proj2 Hwf) (getitem_column _ _ _ Er)). }
  pose proof (column_length _ _ _ (proj2 Hwf) (getitem_column _ _ _ En)) as Hln.
  assert (Hbp : Forall in_bounds p) by apply to_datetime_bounds.
  assert (Hbr : Forall in_bounds r) by apply to_datetime_bounds.
  assert (Han : analysed df' p r).
  { rewrite E. now apply written_analysed. }
  assert (Hn : nrows df' = nrows df) by (rewrite E; apply nrows_written).
  assert (Ct : column df' "tipo_tarefa"
               = Some (map (fun nome => VStr (categorizar_tarefa nome)) nomes))
    by (rewrite E; apply written_tipo).
  assert (Cn : column df' "nome_tarefa" = Some nomes).
  { rewrite E, written_frame by (simpl; intuition discriminate).
    now apply getitem_column. }
  pose proof (calcular_metricas_returns df' (map dt_cell p) (map dt_cell r)
                nomes atraso
                (analysed_getitem _ _ _ _ _ Han (an_prevista _ _ _ Han))
                (analysed_getitem _ _ _ _ _ Han (an_real _ _ _ Han))
                (analysed_getitem _ _ _ _ _ Han Cn)) as Hret.
  rewrite !to_datetime_parsed in Hret by assumption.
  rewrite (Hret Es). f_equal.
  assert (Han' : analysed (written df' p r atraso nomes) p r).
  { apply written_analysed; try assumption; try congruence.
    exact (an_well_formed _ _ _ Han). }
  assert (Hlab : labels (written df' p r atraso nomes) = labels df').
  { apply labels_written_again. intros c Hc. simpl in Hc.
    destruct Hc as [<-|[<-|[<-|[<-|[<-|[<-|[]]]]]]].
    - exact (column_has _ _ _ (an_prevista _ _ _ Han)).
    - exact (column_has _ _ _ (an_real _ _ _ Han)).
    - exact (column_has _ _ _ (an_status _ _ _ Han)).
    - exact (column_has _ _ _ (an_dias _ _ _ Han)).
    - exact (column_has _ _ _ Ct).
    - exact (column_has _ _ _ (an_mes _ _ _ Han)). }
  apply frame_ext.
  - apply nrows_written.
  - exact Hlab.
  - exact (proj1 (an_well_formed _ _ _ Han')).
  - intros c _. destruct (in_dec string_dec c written_labels) as [Hc|Hc].
    + simpl in Hc. destruct Hc as [<-|[<-|[<-|[<-|[<-|[<-|[]]]]]]].
      * now rewrite (an_prevista _ _ _ Han), (an_prevista _ _ _ Han').
      * now rewrite (an_real _ _ _ Han), (an_real _ _ _ Han').
      * now rewrite (an_status _ _ _ Han), (an_status _ _ _ Han').
      * now rewrite (an_dias _ _ _ Han), (an_dias _ _ _ Han').
      * now rewrite written_tipo, Ct.
      * now rewrite (an_mes _ _ _ Han), (an_mes _ _ _ Han').
    + now apply written_frame.
Qed.

End EngineFacts.

(** * From the upload to the analysed frame (lines 96-104) *)

Section Upload.

Context {env : Pandas}.

(** Lines 96-104: standardise with the adapter of the selected tool, then
    compute the metrics. *)
Definition processar (ferramenta_selecionada : string) (df_bruto : DataFrame)
  : result DataFrame :=
  df_padronizado <- adapt ferramenta_selecionada df_bruto ;;
  calcular_metricas df_padronizado.

(** The column each supported tool keeps the due date in. *)
Definition colunas_de_prazo : list (string * string) :=
  [ ("G-Click", "Due Date"); ("Onvio Processos", "PrazoFatal") ].

(** X13.  Lines 96-104 and 58: a file that has neither the due-date column of the
    selected tool nor a column already named [data_prevista_conclusao] (a
    file of the other tool, say) is not refused by the adapter; processing
    fails at the first read of the metrics engine, with the [KeyError] of
    the canonical name [data_prevista_conclusao], whatever else the file
    has or lacks. *)
Theorem processar_wrong_tool :
  forall ferramenta_selecionada prazo df_bruto,
    In (ferramenta_selecionada, prazo) colunas_de_prazo ->
    column df_bruto prazo = None ->
    column df_bruto "data_prevista_conclusao" = None ->
    processar ferramenta_selecionada df_bruto
    = Raise (KeyError "data_prevista_conclusao").
Proof.
  intros f prazo df Hin Hsrc Hdst. unfold processar.
  simpl in Hin. destruct Hin as [E|[E|[]]]; injection E as <- <-;
    cbn [adapt String.eqb Ascii.eqb Bool.eqb bind].
  - apply calcular_metricas_missing_due_date.
    rewrite padronizar_gclick_column by discriminate.
    apply (column_rename_none gclick_columns df "Due Date").
    + intros l. apply rename_gclick_target. simpl. auto 7.
    + now split.
  - apply calcular_metricas_missing_due_date.
    rewrite padronizar_onvio_column by discriminate.
    apply (column_rename_none onvio_columns df "PrazoFatal").
    + intros l. apply rename_onvio_target. simpl. auto 7.
    + now split.
Qed.

End Upload.

(** * Standardising twice (lines 15-39) *)

Section AdaptersAgain.

Lemma rename_gclick_idem :
  forall l, rename_label gclick_columns (rename_label gclick_columns l)
            = rename_label gclick_columns l.
Proof.
  intros l. unfold gclick_columns. cbn [rename_label].
  destruct (String.eqb "Task ID" l) eqn:E1; [reflexivity|].
  destruct (String.eqb "Task Name" l) eqn:E2; [reflexivity|].
  destruct (String.eqb "Client Name" l) eqn:E3; [reflexivity|].
  destruct (String.eqb "Assignee" l) eqn:E4; [reflexivity|].
  destruct (String.eqb "Due Date" l) eqn:E5; [reflexivity|].
  destruct (String.eqb "Completion Date" l) eqn:E6; [reflexivity|].
  now rewrite E1, E2, E3, E4, E5, E6.
Qed.

Lemma rename_onvio_idem :
  forall l, rename_label onvio_columns (rename_label onvio_columns l)
            = rename_label onvio_columns l.
Proof.
  intros l. unfold onvio_columns. cbn [rename_label].
  destruct (String.eqb "ProcessoID" l) eqn:E1; [reflexivity|].
  destruct (String.eqb "Descricao" l) eqn:E2; [reflexivity|].
  destruct (String.eqb "NomeCliente" l) eqn:E3; [reflexivity|].
  destruct (String.eqb "Executor" l) eqn:E4; [reflexivity|].
  destruct (String.eqb "PrazoFatal" l) eqn:E5; [reflexivity|].
  destruct (String.eqb "DataFinalizacao" l) eqn:E6; [reflexivity|].
  now rewrite E1, E2, E3, E4, E5, E6.
Qed.

Lemma rename_fixed :
  forall mapper df,
    (forall l, In l (labels df) -> rename_label mapper l = l) ->
    rename mapper df = df.
Proof.
  intros mapper [n cols] H. unfold rename, labels in *. simpl in *. f_equal.
  rewrite <- (map_id cols) at 2. apply map_ext_in. intros [l s] Hin. simpl.
  f_equal. apply H. apply in_map_iff. now exists (l, s).
Qed.

Lemma labels_rename :
  forall mapper df, labels (rename mapper df) = map (rename_label mapper) (labels df).
Proof. intros. unfold labels, rename. simpl. now rewrite !map_map. Qed.

Lemma setitem_twice :
  forall df c s s', setitem (setitem df c s) c s' = setitem df c s'.
Proof.
  intros [n cols] c s s'. unfold setitem, has_label. simpl.
  destruct (existsb (named c) cols) eqn:E; simpl.
  - assert (E' : existsb (named c)
                   (map (fun p => if named c p then (fst p, s) else p) cols) = true).
    { apply existsb_named_In. rewrite (labels_update c (fun _ => s)).
      now apply existsb_named_In. }
    rewrite E'. simpl. f_equal. rewrite map_map. apply map_ext.
    intros p. destruct (named c p) eqn:Ep; [|now rewrite Ep].
    change (named c (fst p, s)) with (named c p). now rewrite Ep.
  - rewrite existsb_app. simpl. unfold named at 2. simpl.
    rewrite String.eqb_refl, orb_true_r. simpl. f_equal.
    rewrite map_app. simpl. unfold named at 2. simpl. rewrite String.eqb_refl.
    f_equal. rewrite <- (map_id cols) at 2. apply map_ext_in.
    intros p Hp. destruct (named c p) eqn:Ep; [|reflexivity].
    assert (H : existsb (named c) cols = true)
      by (apply existsb_exists; now exists p).
    congruence.
Qed.

Lemma padronizar_again :
  forall mapper v df,
    rename_label mapper "origem_ferramenta" = "origem_ferramenta" ->
    (forall l, rename_label mapper (rename_label mapper l) = rename_label mapper l) ->
    let padronizar := fun df =>
      setitem_scalar (rename mapper df) "origem_ferramenta" v in
    padronizar (padronizar df) = padronizar df.
Proof.
  intros mapper v df Hc Hidem padronizar. unfold padronizar at 1.
  rewrite rename_fixed.
  - unfold padronizar, setitem_scalar. rewrite nrows_setitem. apply setitem_twice.
  - intros l Hl. unfold padronizar, setitem_scalar in Hl.
    rewrite labels_setitem, labels_rename in Hl. apply in_app_or in Hl.
    destruct Hl as [Hl|Hl].
    + apply in_map_iff in Hl. destruct Hl as (l' & <- & _). apply Hidem.
    + destruct (has _ _); [destruct Hl|]. destruct Hl as [<-|[]]. exact Hc.
Qed.

(** X14.  Lines 15-39: each adapter leaves a frame it has standardised as it is:
    the canonical names are not renamed again and the stamp is rewritten
    with the same value. *)
Theorem adapters_idempotent :
  forall df,
    padronizar_gclick (padronizar_gclick df) = padronizar_gclick df /\
    padronizar_onvio (padronizar_onvio df) = padronizar_onvio df.
Proof.
  intros df. split.
  - exact (padronizar_again gclick_columns (VStr "G-Click") df eq_refl
             rename_gclick_idem).
  - exact (padronizar_again onvio_columns (VStr "Onvio") df eq_refl
             rename_onvio_idem).
Qed.

End AdaptersAgain.

(** * The sample sent for diagnosis (line 185) *)

Section Sample.

(** [df[[c1, ..., cn]]]: the listed columns, in the order listed.  A label
    the frame lacks raises [KeyError] (pandas names the missing labels in
    its message; the first one is recorded here). *)
Definition getitem_list (df : DataFrame) (cols : list string) : result DataFrame :=
  match filter (fun c => negb (has_label df c)) cols with
  | [] => Ok (mkFrame (nrows df)
                (flat_map (fun c => filter (named c) (columns df)) cols))
  | c :: _ => Raise (KeyError c)
  end.

(** [df.head(n)]: the first [n] rows. *)
Definition head (n : nat) (df : DataFrame) : DataFrame :=
  mkFrame (Nat.min n (nrows df))
    (map (fun p => (fst p, firstn n (snd p))) (columns df)).

Definition colunas_resumo : list string :=
  ["cliente"; "responsavel"; "status_prazo"; "tipo_tarefa"; "dias_de_atraso"].

(** The frame line 185 turns into text. *)
Definition resumo_ia (df_filtrado : DataFrame) : result DataFrame :=
  df <- getitem_list df_filtrado colunas_resumo ;;
  Ok (head 50 df).

Lemma getitem_filter :
  forall df c s,
    getitem df c = Ok s -> filter (named c) (columns df) = [(c, s)].
Proof.
  intros df c s. unfold getitem.
  destruct (filter (named c) (columns df)) as [|[l s'] [|q rest]] eqn:E;
    try discriminate.
  simpl. intros H. injection H as ->.
  assert (Hin : In (l, s) (filter (named c) (columns df))) by (rewrite E; now left).
  apply filter_In in Hin. destruct Hin as [_ Hn]. apply named_true in Hn.
  simpl in Hn. now subst l.
Qed.

Lemma getitem_has_label :
  forall df c s, getitem df c = Ok s -> has_label df c = true.
Proof.
  intros df c s H. unfold has_label.
  assert (Hin : In (c, s) (filter (named c) (columns df)))
    by (rewrite (getitem_filter df c s H); now left).
  apply filter_In in Hin. apply existsb_exists. now exists (c, s).
Qed.

(** The sample of a frame that has the five columns. *)
Lemma resumo_ia_returns :
  forall df clientes responsaveis status tipos dias,
    getitem df "cliente" = Ok clientes ->
    getitem df "responsavel" = Ok responsaveis ->
    getitem df "status_prazo" = Ok status ->
    getitem df "tipo_tarefa" = Ok tipos ->
    getitem df "dias_de_atraso" = Ok dias ->
    resumo_ia df
    = Ok (mkFrame (Nat.min 50 (nrows df))
            [ ("cliente", firstn 50 clientes);
              ("responsavel", firstn 50 responsaveis);
              ("status_prazo", firstn 50 status);
              ("tipo_tarefa", firstn 50 tipos);
              ("dias_de_atraso", firstn 50 dias) ]).
Proof.
  intros df cli resp status tipos dias Hc Hr Hs Ht Hd.
  unfold resumo_ia, getitem_list, colunas_resumo. cbn [filter].
  rewrite (getitem_has_label _ _ _ Hc), (getitem_has_label _ _ _ Hr),
    (getitem_has_label _ _ _ Hs), (getitem_has_label _ _ _ Ht),
    (getitem_has_label _ _ _ Hd).
  cbn [negb bind flat_map].
  rewrite (getitem_filter _ _ _ Hc), (getitem_filter _ _ _ Hr),
    (getitem_filter _ _ _ Hs), (getitem_filter _ _ _ Ht),
    (getitem_filter _ _ _ Hd).
  reflexivity.
Qed.

Context {env : Pandas}.

(** X15.  Line 185: on the filtered set of a processed file, building the sample
    raises nothing.  The sample has the five columns client, assignee,
    status, category and delay, in that order, and the first 50 tasks of the
    filtered set (all of them when there are fewer), in their order. *)
Theorem resumo_ia_processed :
  forall df df_analise cliente_filtro responsavel_filtro df_filtrado,
    well_formed df ->
    calcular_metricas df = Ok df_analise ->
    filtrar df_analise cliente_filtro responsavel_filtro = Ok df_filtrado ->
    exists resumo,
      resumo_ia df_filtrado = Ok resumo /\
      labels resumo = colunas_resumo /\
      nrows resumo = Nat.min 50 (nrows df_filtrado) /\
      (forall c, In c colunas_resumo ->
         column resumo c = option_map (firstn 50) (column df_filtrado c)) /\
      well_formed resumo.
Proof.
  intros df dfa cf rf dff Hwf Hc Hf.
  destruct (calcular_metricas_analysed df dfa Hwf Hc) as (prevista & real & Han).
  destruct (filtrar_analysed _ _ _ _ _ _ Han Hf)
    as (mask & resp & _ & _ & Hresp & _ & Han').
  destruct (filtrar_reads _ _ _ _ Hf) as (cli & resp' & Hcli & _ & E).
  assert (Hcli' : getitem dff "cliente"
                  = Ok (select (kept cf rf cli resp') cli))
    by (rewrite E; now apply getitem_select_rows).
  destruct (an_tipo _ _ _ Han') as [tipos Ct].
  pose proof (analysed_getitem _ _ _ _ _ Han' (an_status _ _ _ Han')) as Hs.
  pose proof (analysed_getitem _ _ _ _ _ Han' (an_dias _ _ _ Han')) as Hd.
  pose proof (analysed_getitem _ _ _ _ _ Han' Ct) as Ht.
  pose proof (proj2 (an_well_formed _ _ _ Han')) as Hrect.
  eexists. split; [exact (resumo_ia_returns dff _ _ _ _ _ Hcli' Hresp Hs Ht Hd)|].
  split; [reflexivity|]. split; [reflexivity|]. split.
  - intros c Hin. simpl in Hin.
    destruct Hin as [<-|[<-|[<-|[<-|[<-|[]]]]]].
    + now rewrite (getitem_column _ _ _ Hcli').
    + now rewrite (getitem_column _ _ _ Hresp).
    + now rewrite (getitem_column _ _ _ Hs).
    + now rewrite (getitem_column _ _ _ Ht).
    + now rewrite (getitem_column _ _ _ Hd).
  - split.
    + unfold labels. simpl. repeat constructor; simpl; intuition discriminate.
    + unfold rectangular. cbn [columns nrows].
      repeat (constructor;
              [cbn [snd]; rewrite length_firstn; f_equal;
               eapply getitem_length; eassumption|]).
      constructor.
Qed.

End Sample.

(** * The worked frame, through the dashboard *)

(** The figures of the worked frame with nothing filtered out. *)
Definition exemplo_resumo : Resumo :=
  mkResumo 4 (200 # 4) (Some (5 # 1))
    [(VStr "Ana", 2%nat); (VStr "Bia", 1%nat); (VStr "Caio", 1%nat)]
    [(VStr "Ana", 100 # 2); (VStr "Caio", 100 # 1)]
    [(VStr "Fiscal", 1%nat)]
    [(VStr "2024-01", 0 # 1); (VStr "2024-02", 100 # 1); (VStr "2024-03", 100 # 1)].

Lemma exemplo_resumo_computed : summarize exemplo_analise = Ok exemplo_resumo.
Proof. vm_compute. reflexivity. Qed.

Lemma exemplo_filtrado :
  filtrar exemplo_analise [VStr "Acme"; VStr "Beta"]
    [VStr "Ana"; VStr "Bia"; VStr "Caio"] = Ok exemplo_analise.
Proof. reflexivity. Qed.

(** The worked export without its Task Name column, standardised. *)
Definition exemplo_sem_nome : DataFrame :=
  padronizar_gclick
    (mkFrame 4 (filter (fun p => negb (named "Task Name" p)) (columns exemplo_gclick))).

Lemma exemplo_sem_nome_well_formed : well_formed exemplo_sem_nome.
Proof. apply well_formedb_sound. reflexivity. Qed.

Lemma rates_within_axis_witness :
  rectangular exemplo_analise /\
  summarize exemplo_analise = Ok exemplo_resumo /\
  (0 <= 200 # 4 <= 100)%Q.
Proof.
  refine (conj exemplo_analise_rectangular (conj exemplo_resumo_computed _)).
  exact (proj1 (rates_within_axis exemplo_analise exemplo_resumo
                  exemplo_analise_rectangular exemplo_resumo_computed)).
Defined.

Lemma tarefas_resp_partition_witness :
  rectangular exemplo_analise /\
  summarize exemplo_analise = Ok exemplo_resumo /\
  getitem exemplo_analise "responsavel"
  = Ok [VStr "Ana"; VStr "Bia"; VStr "Ana"; VStr "Caio"] /\
  NoDup [VStr "Ana"; VStr "Bia"; VStr "Caio"] /\
  list_sum [2; 1; 1]%nat = 4%nat.
Proof.
  refine (conj exemplo_analise_rectangular
            (conj exemplo_resumo_computed (conj eq_refl _))).
  destruct (tarefas_resp_partition exemplo_analise exemplo_resumo _
              exemplo_analise_rectangular exemplo_resumo_computed eq_refl)
    as (Hnd & _ & _ & Hsum & _).
  exact (conj Hnd Hsum).
Defined.

Lemma prazo_resp_groups_witness :
  summarize exemplo_analise = Ok exemplo_resumo /\
  getitem exemplo_analise "responsavel"
  = Ok [VStr "Ana"; VStr "Bia"; VStr "Ana"; VStr "Caio"] /\
  getitem exemplo_analise "status_prazo"
  = Ok [VStr "Em Atraso"; VStr "Pendente"; VStr "No Prazo"; VStr "No Prazo"] /\
  NoDup [VStr "Ana"; VStr "Caio"] /\
  ~ In (VStr "Bia", 0 # 1) (df_prazo_resp exemplo_resumo).
Proof.
  refine (conj exemplo_resumo_computed (conj eq_refl (conj eq_refl _))).
  destruct (prazo_resp_groups exemplo_analise exemplo_resumo _ _
              exemplo_resumo_computed eq_refl eq_refl) as (Hnd & Hin).
  split; [exact Hnd|].
  intros H. apply Hin in H. destruct H as (_ & H & _).
  exact (Nat.nle_succ_0 0 H).
Defined.

Lemma atraso_tipo_partition_witness :
  well_formed exemplo_padronizado /\
  calcular_metricas exemplo_padronizado = Ok exemplo_analise /\
  filtrar exemplo_analise [VStr "Acme"; VStr "Beta"]
    [VStr "Ana"; VStr "Bia"; VStr "Caio"] = Ok exemplo_analise /\
  summarize exemplo_analise = Ok exemplo_resumo /\
  exists status,
    getitem exemplo_analise "status_prazo" = Ok status /\
    list_sum (map snd (df_atraso_tipo exemplo_resumo))
    = count_if (eq_str "Em Atraso") status.
Proof.
  refine (conj exemplo_padronizado_well_formed
            (conj exemplo_analise_computed
               (conj exemplo_filtrado (conj exemplo_resumo_computed _)))).
  destruct (atraso_tipo_partition exemplo_padronizado exemplo_analise _ _
              exemplo_analise exemplo_resumo
              exemplo_padronizado_well_formed exemplo_analise_computed
              exemplo_filtrado exemplo_resumo_computed)
    as (status & Hs & _ & _ & _ & Hsum).
  exists status. exact (conj Hs Hsum).
Defined.

Lemma evolucao_months_witness :
  well_formed exemplo_padronizado /\
  calcular_metricas exemplo_padronizado = Ok exemplo_analise /\
  filtrar exemplo_analise [VStr "Acme"; VStr "Beta"]
    [VStr "Ana"; VStr "Bia"; VStr "Caio"] = Ok exemplo_analise /\
  summarize exemplo_analise = Ok exemplo_resumo /\
  cell_at exemplo_analise "mes_conclusao" 1 = Some (VStr "NaT") /\
  ~ In (VStr "NaT") [VStr "2024-01"; VStr "2024-02"; VStr "2024-03"].
Proof.
  refine (conj exemplo_padronizado_well_formed
            (conj exemplo_analise_computed
               (conj exemplo_filtrado
                  (conj exemplo_resumo_computed (conj eq_refl _))))).
  exact (proj2 (proj2
    (evolucao_months exemplo_padronizado exemplo_analise _ _
       exemplo_analise exemplo_resumo
       exemplo_padronizado_well_formed exemplo_analise_computed
       exemplo_filtrado exemplo_resumo_computed))).
Defined.

Lemma total_by_status_witness :
  well_formed exemplo_padronizado /\
  calcular_metricas exemplo_padronizado = Ok exemplo_analise /\
  filtrar exemplo_analise [VStr "Acme"; VStr "Beta"]
    [VStr "Ana"; VStr "Bia"; VStr "Caio"] = Ok exemplo_analise /\
  summarize exemplo_analise = Ok exemplo_resumo /\
  exists status,
    getitem exemplo_analise "status_prazo" = Ok status /\
    total_tarefas exemplo_resumo
    = (count_if (eq_str "No Prazo") status
       + count_if (eq_str "Em Atraso") status
       + count_if (eq_str "Pendente") status)%nat.
Proof.
  refine (conj exemplo_padronizado_well_formed
            (conj exemplo_analise_computed
               (conj exemplo_filtrado (conj exemplo_resumo_computed _)))).
  destruct (total_by_status exemplo_padronizado exemplo_analise _ _
              exemplo_analise exemplo_resumo
              exemplo_padronizado_well_formed exemplo_analise_computed
              exemplo_filtrado exemplo_resumo_computed)
    as (status & Hs & Htotal & _).
  exists status. exact (conj Hs Htotal).
Defined.

Lemma exemplo_sem_nome_raises :
  calcular_metricas exemplo_sem_nome = Raise (KeyError "nome_tarefa").
Proof. vm_compute. reflexivity. Qed.

Lemma calcular_metricas_first_missing_witness :
  calcular_metricas exemplo_sem_nome = Raise (KeyError "nome_tarefa") /\
  column exemplo_sem_nome "data_prevista_conclusao" <> None /\
  column exemplo_sem_nome "data_real_conclusao" <> None /\
  primeira_ausente exemplo_sem_nome = Some "nome_tarefa".
Proof.
  refine (conj exemplo_sem_nome_raises (conj _ (conj _ _))); try discriminate.
  exact (proj2 (calcular_metricas_first_missing exemplo_sem_nome)
           "nome_tarefa" exemplo_sem_nome_raises).
Defined.

Lemma calcular_metricas_columns_witness :
  well_formed exemplo_padronizado /\
  calcular_metricas exemplo_padronizado = Ok exemplo_analise /\
  well_formed exemplo_analise /\
  nrows exemplo_analise = nrows exemplo_padronizado /\
  labels exemplo_analise
  = (labels exemplo_padronizado
     ++ ["status_prazo"; "dias_de_atraso"; "tipo_tarefa"; "mes_conclusao"])%list.
Proof.
  refine (conj exemplo_padronizado_well_formed (conj exemplo_analise_computed _)).
  exact (calcular_metricas_columns exemplo_padronizado exemplo_analise
           exemplo_padronizado_well_formed exemplo_analise_computed).
Defined.

Lemma calcular_metricas_idempotent_witness :
  well_formed exemplo_padronizado /\
  calcular_metricas exemplo_padronizado = Ok exemplo_analise /\
  calcular_metricas exemplo_analise = Ok exemplo_analise.
Proof.
  refine (conj exemplo_padronizado_well_formed (conj exemplo_analise_computed _)).
  exact (calcular_metricas_idempotent exemplo_padronizado exemplo_analise
           exemplo_padronizado_well_formed exemplo_analise_computed).
Defined.

Lemma processar_wrong_tool_witness :
  In ("Onvio Processos", "PrazoFatal") colunas_de_prazo /\
  column exemplo_gclick "PrazoFatal" = None /\
  column exemplo_gclick "data_prevista_conclusao" = None /\
  processar "Onvio Processos" exemplo_gclick
  = Raise (KeyError "data_prevista_conclusao").
Proof.
  refine (conj (or_intror (or_introl eq_refl)) (conj eq_refl (conj eq_refl _))).
  exact (processar_wrong_tool "Onvio Processos" "PrazoFatal" exemplo_gclick
           (or_intror (or_introl eq_refl)) eq_refl eq_refl).
Defined.

Lemma resumo_ia_processed_witness :
  well_formed exemplo_padronizado /\
  calcular_metricas exemplo_padronizado = Ok exemplo_analise /\
  filtrar exemplo_analise [VStr "Acme"; VStr "Beta"]
    [VStr "Ana"; VStr "Bia"; VStr "Caio"] = Ok exemplo_analise /\
  exists resumo,
    resumo_ia exemplo_analise = Ok resumo /\
    labels resumo = colunas_resumo /\
    nrows resumo = 4%nat.
Proof.
  refine (conj exemplo_padronizado_well_formed
            (conj exemplo_analise_computed (conj exemplo_filtrado _))).
  destruct (resumo_ia_processed exemplo_padronizado exemplo_analise _ _
              exemplo_analise exemplo_padronizado_well_formed
              exemplo_analise_computed exemplo_filtrado)
    as (resumo & Hr & Hl & Hn & _).
  exists resumo. exact (conj Hr (conj Hl Hn)).
Defined.

(** * The monthly table in order (lines 152-153) *)

Section MonthOrder.

(** The text of a key.  The keys compared here are month keys, which
    [astype(str)] has made text. *)
Definition texto (c : cell) : string :=
  match c with
  | VStr s => s
  | _ => EmptyString
  end.

(** Python's [<=] on text: by code point, which on UTF-8 is by byte. *)
Definition key_leb (a b : cell) : bool := String.leb (texto a) (texto b).

Fixpoint insert_key {A : Type} (p : cell * A) (l : list (cell * A))
  : list (cell * A) :=
  match l with
  | [] => [p]
  | q :: rest =>
      if key_leb (fst p) (fst q) then p :: l else q :: insert_key p rest
  end.

(** Rows by ascending key, the order [sort_values('mes_conclusao')] and
    [groupby] (which sorts its keys) give the table. *)
Definition sort_keys {A : Type} (l : list (cell * A)) : list (cell * A) :=
  fold_right insert_key [] l.

(** [df_evolucao] in the order the chart receives it. *)
Definition evolucao_ordenada (resumo : Resumo) : list (cell * Q) :=
  sort_keys (df_evolucao resumo).

Definition key_le {A : Type} (a b : cell * A) : Prop :=
  key_leb (fst a) (fst b) = true.

Lemma insert_key_perm :
  forall {A : Type} (p : cell * A) l, Permutation (insert_key p l) (p :: l).
Proof.
  intros A p. induction l as [|q l IH]; simpl; [reflexivity|].
  destruct (key_leb (fst p) (fst q)); [reflexivity|].
  rewrite IH. apply perm_swap.
Qed.

Lemma sort_keys_perm :
  forall {A : Type} (l : list (cell * A)), Permutation (sort_keys l) l.
Proof.
  intros A. induction l as [|p l IH]; simpl; [reflexivity|].
  rewrite insert_key_perm. now constructor.
Qed.

Lemma key_leb_total : forall a b, key_leb a b = false -> key_leb b a = true.
Proof.
  intros a b H. unfold key_leb in *.
  destruct (String.leb_total (texto a) (texto b)) as [E|E]; congruence.
Qed.

Lemma insert_key_sorted :
  forall {A : Type} (p : cell * A) l,
    Sorted key_le l -> Sorted key_le (insert_key p l).
Proof.
  intros A p. induction l as [|q l IH]; intros H; simpl.
  - repeat constructor.
  - destruct (key_leb (fst p) (fst q)) eqn:E.
    + constructor; [exact H|]. constructor. exact E.
    + apply Sorted_inv in H. destruct H as [Hs Hd].
      constructor; [now apply IH|].
      destruct l as [|q' l]; simpl.
      * constructor. now apply key_leb_total.
      * destruct (key_leb (fst p) (fst q')); constructor.
        -- now apply key_leb_total.
        -- now apply HdRel_inv in Hd.
Qed.

Lemma sort_keys_sorted :
  forall {A : Type} (l : list (cell * A)), StronglySorted key_le (sort_keys l).
Proof.
  intros A l. apply Sorted_StronglySorted.
  - intros a b c Hab Hbc. unfold key_le, key_leb in *.
    now apply (string_leb_trans _ (texto (fst b))).
  - induction l as [|p l IH]; simpl; [constructor|]. now apply insert_key_sorted.
Qed.

Lemma strongly_sorted_nth :
  forall {A : Type} (R : A -> A -> Prop) l i j a b,
    StronglySorted R l -> (i < j)%nat ->
    nth_error l i = Some a -> nth_error l j = Some b -> R a b.
Proof.
  intros A R l i j a b H. revert i j.
  induction H as [|x l Hs IH Hall]; intros i j Hij Hi Hj.
  - now destruct i.
  - destruct j as [|j]; [lia|]. simpl in Hj.
    destruct i as [|i]; simpl in Hi.
    + injection Hi as <-. rewrite Forall_forall in Hall.
      apply Hall. now apply nth_error_In in Hj.
    + apply (IH i j); [lia|assumption..].
Qed.

(** X16.  Lines 152-155: the monthly table, listed by ascending key as the chart
    receives it, has the rows of [df_evolucao] and is in chronological
    order: the row of a month comes before the rows of all later months. *)
Theorem evolucao_chronological :
  forall df_filtrado resumo,
    summarize df_filtrado = Ok resumo ->
    Permutation (evolucao_ordenada resumo) (df_evolucao resumo) /\
    forall i j t1 q1 t2 q2,
      (i < j)%nat ->
      nth_error (evolucao_ordenada resumo) i = Some (VStr (period_str t1), q1) ->
      nth_error (evolucao_ordenada resumo) j = Some (VStr (period_str t2), q2) ->
      (ts_min <= t1 <= ts_max)%Z -> (ts_min <= t2 <= ts_max)%Z ->
      (t1 < t2)%Z.
Proof.
  intros df r H.
  pose proof (sort_keys_perm (df_evolucao r)) as Hperm.
  split; [exact Hperm|].
  intros i j t1 q1 t2 q2 Hij Hi Hj Hb1 Hb2.
  assert (Hnd : NoDup (map fst (evolucao_ordenada r))).
  { apply (Permutation_NoDup (l := map fst (df_evolucao r))).
    - apply Permutation_map. now symmetry.
    - destruct (summarize_reads df r H)
        as (status & dias & resp & tipo & mes & _ & _ & _ & _ & _ & ->).
      apply taxas_groupby_keys. }
  pose proof (strongly_sorted_nth key_le _ i j _ _
                (sort_keys_sorted (df_evolucao r)) Hij Hi Hj) as Hle.
  unfold key_le, key_leb in Hle. cbn [fst texto] in Hle.
  destruct (Z.lt_ge_cases t1 t2) as [Hlt|Hge]; [exact Hlt|]. exfalso.
  assert (Hge' : String.leb (period_str t2) (period_str t1) = true)
    by (apply period_str_sortable; lia).
  pose proof (String.leb_antisym _ _ Hle Hge') as Heq.
  assert (Hi' : nth_error (map fst (evolucao_ordenada r)) i
                = Some (VStr (period_str t1)))
    by (rewrite nth_error_map, Hi; reflexivity).
  assert (Hj' : nth_error (map fst (evolucao_ordenada r)) j
                = Some (VStr (period_str t1)))
    by (rewrite nth_error_map, Hj, Heq; reflexivity).
  assert (Hlen : (i < length (map fst (evolucao_ordenada r)))%nat)
    by (apply nth_error_Some; congruence).
  pose proof (proj1 (NoDup_nth_error _) Hnd i j Hlen) as Hinj.
  rewrite Hi', Hj' in Hinj. specialize (Hinj eq_refl). lia.
Qed.

End MonthOrder.

Lemma evolucao_chronological_witness :
  summarize exemplo_analise = Ok exemplo_resumo /\
  nth_error (evolucao_ordenada exemplo_resumo) 0
  = Some (VStr (period_str 1705276800000000000), 0 # 1) /\
  nth_error (evolucao_ordenada exemplo_resumo) 1
  = Some (VStr (period_str 1707091200000000000), 100 # 1) /\
  (1705276800000000000 < 1707091200000000000)%Z.
Proof.
  refine (conj exemplo_resumo_computed (conj eq_refl (conj eq_refl _))).
  refine (proj2 (evolucao_chronological exemplo_analise exemplo_resumo
                   exemplo_resumo_computed)
            0%nat 1%nat 1705276800000000000%Z (0 # 1) 1707091200000000000%Z
            (100 # 1) (Nat.lt_0_succ 0) eq_refl eq_refl _ _);
    unfold ts_min, ts_max; lia.
Defined.

(** * A file without its client column (lines 96-112) *)

Section MissingClient.

Context {env : Pandas}.

(** The column each supported tool keeps the client in. *)
Definition colunas_de_cliente : list (string * string) :=
  [ ("G-Click", "Client Name"); ("Onvio Processos", "NomeCliente") ].

Lemma processar_reads :
  forall ferramenta_selecionada df_bruto df_analise,
    processar ferramenta_selecionada df_bruto = Ok df_analise ->
    exists df_padronizado,
      adapt ferramenta_selecionada df_bruto = Ok df_padronizado /\
      calcular_metricas df_padronizado = Ok df_analise.
Proof.
  intros f df dfa. unfold processar.
  destruct (adapt f df) as [dfp|e]; simpl; [|discriminate].
  intros H. now exists dfp.
Qed.

(** X17.  Lines 96-112: a file that has neither the client column of the
    selected tool nor a column already named [cliente] goes through the
    adapter and, when the metrics engine returns, through the whole of
    [calcular_metricas]; the loss surfaces only when the filters are built,
    as the [KeyError] of the canonical name [cliente], whatever is
    selected. *)
Theorem missing_client_surfaces_at_filter :
  forall ferramenta_selecionada origem df_bruto df_analise
         cliente_filtro responsavel_filtro,
    In (ferramenta_selecionada, origem) colunas_de_cliente ->
    column df_bruto origem = None ->
    column df_bruto "cliente" = None ->
    processar ferramenta_selecionada df_bruto = Ok df_analise ->
    filtrar df_analise cliente_filtro responsavel_filtro
    = Raise (KeyError "cliente").
Proof.
  intros f origem df dfa cf rf Hin Hsrc Hdst H.
  destruct (processar_reads _ _ _ H) as (dfp & Ha & Hc).
  assert (Hnone : column dfp "cliente" = None).
  { simpl in Hin. destruct Hin as [E|[E|[]]]; injection E as <- <-;
      cbn [adapt String.eqb Ascii.eqb Bool.eqb] in Ha; injection Ha as <-.
    - rewrite padronizar_gclick_column by discriminate.
      apply (column_rename_none gclick_columns df "Client Name").
      + intros l. apply rename_gclick_target. simpl. auto 7.
      + now split.
    - rewrite padronizar_onvio_column by discriminate.
      apply (column_rename_none onvio_columns df "NomeCliente").
      + intros l. apply rename_onvio_target. simpl. auto 7.
      + now split. }
  destruct (calcular_metricas_keeps dfp dfa Hc) as [Hkeep _].
  assert (Hnone' : column dfa "cliente" = None).
  { rewrite Hkeep; [exact Hnone|]. simpl. intuition discriminate. }
  unfold filtrar. now rewrite (getitem_missing _ _ Hnone').
Qed.

End MissingClient.

(** The worked export without its Client Name column. *)
Definition exemplo_sem_cliente : DataFrame :=
  mkFrame 4
    (filter (fun p => negb (named "Client Name" p)) (columns exemplo_gclick)).

Definition exemplo_sem_cliente_analise : DataFrame :=
  mkFrame 4 (filter (fun p => negb (named "cliente" p)) (columns exemplo_analise)).

Lemma exemplo_sem_cliente_computed :
  processar "G-Click" exemplo_sem_cliente = Ok exemplo_sem_cliente_analise.
Proof. vm_compute. reflexivity. Qed.

Lemma missing_client_surfaces_at_filter_witness :
  In ("G-Click", "Client Name") colunas_de_cliente /\
  column exemplo_sem_cliente "Client Name" = None /\
  column exemplo_sem_cliente "cliente" = None /\
  processar "G-Click" exemplo_sem_cliente = Ok exemplo_sem_cliente_analise /\
  filtrar exemplo_sem_cliente_analise [VStr "Acme"] [VStr "Ana"]
  = Raise (KeyError "cliente").
Proof.
  refine (conj (or_introl eq_refl)
            (conj eq_refl (conj eq_refl (conj exemplo_sem_cliente_computed _)))).
  exact (missing_client_surfaces_at_filter "G-Click" "Client Name"
           exemplo_sem_cliente exemplo_sem_cliente_analise
           [VStr "Acme"] [VStr "Ana"]
           (or_introl eq_refl) eq_refl eq_refl exemplo_sem_cliente_computed).
Defined.
